(** * rocks-monitoramento-backend: ownership-scoped data access and metrics

    A shallow embedding of the request handlers of [app/api/routes.py] and of
    the ownership gate of [app/dependencies.py], over the tables declared in
    [app/models.py] and the request schemas of [app/schemas.py].

    Conventions.
    - A handler is a computation over the committed contents of the database
      ([Session]): it returns its value or raises, together with the contents
      after the request.  Only [commit] changes them; objects added to or
      changed in the session are local until then.
    - A row holds the attribute values a handler assigned; how a backend
      encodes a column is not modelled.  Where the answer to a query depends
      on the database engine, the engine is SQLite, the default of
      [Settings.database_url] and the database of the test suite: a key left
      to the database is one more than the largest of the table, a negative
      LIMIT is no limit, and timestamps compare by their civil fields, SQLite
      keeping no offset.
    - The clock ([datetime.now] / [datetime.utcnow]) and the generator of
      reference ids ([uuid.uuid4]) are inputs of the handlers that use them.
    - JSON documents are the Python values the framework hands to a handler:
      [None] is [JNull], [bool] is [JBool], [int] is [JInt] (unbounded),
      [float] is [JFloat] (IEEE binary64, as an exact [spec_float]), [dict] is
      an association list in insertion order. *)

From Stdlib Require Import ZArith List String Ascii Bool Lia SpecFloat.
From Stdlib Require Import Sorting.Sorted Sorting.Permutation.
Import ListNotations.

#[local] Set Warnings "-register-all".
#[local] Open Scope string_scope.
#[local] Open Scope Z_scope.
#[local] Open Scope list_scope.

(** ** Exceptions and results *)

(** [fastapi.HTTPException(status_code, detail)]. *)
Record HTTPException := mkHTTP { status_code : Z; detail : string }.

Inductive exn :=
| Http (e : HTTPException)              (* raise HTTPException(...)             *)
| RequestValidationError (loc : string) (* rejected by the declared schema: 422 *)
| AttributeError (msg : string)
| ValueError (msg : string)
| OverflowError (msg : string)
| TypeError (msg : string)
| IntegrityError (msg : string)
| UnsupportedBind (msg : string).       (* a non-text value bound to a text column *)

Inductive result (A : Type) :=
| Ok (a : A)
| Raise (e : exn).
Arguments Ok {A} a.
Arguments Raise {A} e.

Definition rbind {A B} (r : result A) (k : A -> result B) : result B :=
  match r with
  | Ok a => k a
  | Raise e => Raise e
  end.

Notation "'let?' x := c 'in' k" := (rbind c (fun x => k))
  (at level 10, x pattern, c at level 100, k at level 200).

Definition HTTP_400_BAD_REQUEST : Z := 400.
Definition HTTP_404_NOT_FOUND : Z := 404.

(** The HTTP status a client sees: FastAPI answers 422 to a request its
    declared parameters reject and 500 to any other exception a handler lets
    escape. *)
Definition response_status (e : exn) : Z :=
  match e with
  | Http h => status_code h
  | RequestValidationError _ => 422
  | _ => 500
  end.

(** ** Time *)

(** [datetime.datetime]: civil fields and [tzinfo] ([None] for a naive value,
    otherwise a fixed offset from UTC, in microseconds). *)
Record datetime := mkDatetime {
  year : Z; month : Z; day : Z;
  hour : Z; minute : Z; second : Z; microsecond : Z;
  tzinfo : option Z
}.

(** [timezone.utc]. *)
Definition utc : option Z := Some 0.

(** [dt.replace(tzinfo=tz)]. *)
Definition replace_tzinfo (dt : datetime) (tz : option Z) : datetime :=
  mkDatetime (year dt) (month dt) (day dt) (hour dt) (minute dt) (second dt)
             (microsecond dt) tz.

(** ** JSON documents *)

Inductive JSON :=
| JNull
| JBool (b : bool)
| JInt (z : Z)
| JFloat (f : spec_float)
| JStr (s : string)
| JList (l : list JSON)
| JDict (d : list (string * JSON)).

Definition dict := list (string * JSON).

(** [d[k]] when present: the first binding of [k]. *)
Fixpoint lookup (d : dict) (k : string) : option JSON :=
  match d with
  | [] => None
  | (k', v) :: d' => if String.eqb k' k then Some v else lookup d' k
  end.

(** [d.get(k, default)]. *)
Definition dict_get_default (d : dict) (k : string) (default : JSON) : JSON :=
  match lookup d k with
  | Some v => v
  | None => default
  end.

(** [d.get(k)]: Python's [None] when the key is missing. *)
Definition dict_get (d : dict) (k : string) : JSON := dict_get_default d k JNull.

(** [x.get(k)] on an arbitrary value: only a dict has the attribute. *)
Definition attr_get (x : JSON) (k : string) : result JSON :=
  match x with
  | JDict d => Ok (dict_get d k)
  | JNull => Raise (AttributeError "'NoneType' object has no attribute 'get'")
  | JBool _ => Raise (AttributeError "'bool' object has no attribute 'get'")
  | JInt _ => Raise (AttributeError "'int' object has no attribute 'get'")
  | JFloat _ => Raise (AttributeError "'float' object has no attribute 'get'")
  | JStr _ => Raise (AttributeError "'str' object has no attribute 'get'")
  | JList _ => Raise (AttributeError "'list' object has no attribute 'get'")
  end.

Definition float_is_zero (f : spec_float) : bool :=
  match f with
  | S754_zero _ => true
  | _ => false
  end.

(** Python truthiness, as [not x] and [x or y] use it. *)
Definition truthy (x : JSON) : bool :=
  match x with
  | JNull => false
  | JBool b => b
  | JInt z => negb (z =? 0)
  | JFloat f => negb (float_is_zero f)
  | JStr s => negb (String.eqb s "")
  | JList l => match l with [] => false | _ => true end
  | JDict d => match d with [] => false | _ => true end
  end.

(** [x or y]. *)
Definition py_or (x y : JSON) : JSON := if truthy x then x else y.

(** ** Tables ([app/models.py]) *)

Module User.
Record t := mk {
  id : Z;
  email : string;
  full_name : option string;
  hashed_password : string;
  is_active : bool
}.
End User.

Module Machine.
Record t := mk {
  id : Z;
  mac_address : string;
  name : option string;
  type : string;
  owner_id : Z;
  created_at : datetime;
  updated_at : datetime
}.
End Machine.

Module MachineConfiguration.
Record t := mk {
  id : Z;
  machine_id : Z;
  raw_payload : dict;
  created_at : datetime;
  updated_at : datetime
}.
End MachineConfiguration.

Module MonitoringData.
Record t := mk {
  id : Z;
  machine_id : Z;
  timestamp : datetime;
  metrics : dict;
  reference_id : string;
  created_at : datetime;
  updated_at : datetime
}.
End MonitoringData.

(** The committed rows of the four tables, in insertion order.  The module
    that builds the engine and the session factory ([app/database.py]) is not
    among the sources; a session is taken to be an ordinary transactional
    session over the tables of [app/models.py]. *)
Record Session := mkSession {
  users : list User.t;
  machines : list Machine.t;
  machine_configurations : list MachineConfiguration.t;
  monitoring_data : list MonitoringData.t
}.

(** ** Handlers as computations over the database *)

Definition M (A : Type) : Type := Session -> result A * Session.

Definition ret {A} (a : A) : M A := fun s => (Ok a, s).

Definition raise {A} (e : exn) : M A := fun s => (Raise e, s).

Definition bind {A B} (m : M A) (k : A -> M B) : M B :=
  fun s =>
    match m s with
    | (Ok a, s') => k a s'
    | (Raise e, s') => (Raise e, s')
    end.

(** A pure step that may raise. *)
Definition lift {A} (r : result A) : M A := fun s => (r, s).

(** [await session.scalar(select(...))] and the like: a read. *)
Definition query {A} (f : Session -> A) : M A := fun s => (Ok (f s), s).

(** [await session.commit()] of the pending change [f]. *)
Definition commit (f : Session -> Session) : M unit := fun s => (Ok tt, f s).

Notation "'do' x <- c ; k" := (bind c (fun x => k))
  (at level 10, x pattern, c at level 100, k at level 200).

(** An integer primary key left to the database: one more than the largest
    key in the table. *)
Definition next_id (ids : list Z) : Z := 1 + fold_right Z.max 0 ids.

(** [session.scalar(select(T).where(p))]: the first matching row, or [None]. *)
Definition scalar {T} (p : T -> bool) (rows : list T) : option T := find p rows.

Definition with_machines (ms : list Machine.t) (db : Session) : Session :=
  mkSession (users db) ms (machine_configurations db) (monitoring_data db).

Definition with_machine_configurations
    (cs : list MachineConfiguration.t) (db : Session) : Session :=
  mkSession (users db) (machines db) cs (monitoring_data db).

Definition with_monitoring_data (ds : list MonitoringData.t) (db : Session) : Session :=
  mkSession (users db) (machines db) (machine_configurations db) ds.

(** ** The ownership gate ([app/dependencies.py]) *)

Definition machine_not_found : exn :=
  Http (mkHTTP HTTP_404_NOT_FOUND "Machine not found").

Definition ensure_machine_ownership (mac_address : string) (user : User.t) : M Machine.t :=
  do machine <- query (fun session =>
      scalar (fun m => String.eqb (Machine.mac_address m) mac_address
                       && (Machine.owner_id m =? User.id user))
             (machines session));
  match machine with
  | None => raise machine_not_found
  | Some machine => ret machine
  end.

(** ** Machine registry ([_get_or_create_machine] in [app/api/routes.py]) *)

Definition option_string_eqb (a b : option string) : bool :=
  match a, b with
  | Some x, Some y => String.eqb x y
  | None, None => true
  | _, _ => false
  end.

Definition machine_conflict : exn :=
  Http (mkHTTP HTTP_400_BAD_REQUEST "Machine belongs to another user").

Definition set_name (m : Machine.t) (n : string) : Machine.t :=
  Machine.mk (Machine.id m) (Machine.mac_address m) (Some n) (Machine.type m)
             (Machine.owner_id m) (Machine.created_at m) (Machine.updated_at m).

Definition set_type (m : Machine.t) (ty : string) : Machine.t :=
  Machine.mk (Machine.id m) (Machine.mac_address m) (Machine.name m) ty
             (Machine.owner_id m) (Machine.created_at m) (Machine.updated_at m).

(** The [onupdate] hook of [TimestampMixin.updated_at], run when the UPDATE of
    a changed row is emitted. *)
Definition onupdate_machine (now : datetime) (m : Machine.t) : Machine.t :=
  Machine.mk (Machine.id m) (Machine.mac_address m) (Machine.name m) (Machine.type m)
             (Machine.owner_id m) (Machine.created_at m) now.

(** The UPDATE of one row: the row with that primary key is replaced. *)
Definition update_machine (m : Machine.t) (rows : list Machine.t) : list Machine.t :=
  map (fun r => if Machine.id r =? Machine.id m then m else r) rows.

Definition _get_or_create_machine
    (now : datetime) (user : User.t) (mac_address name machine_type : string)
  : M Machine.t :=
  do machine <- query (fun session =>
      scalar (fun m => String.eqb (Machine.mac_address m) mac_address)
             (machines session));
  match machine with
  | Some machine =>
      if negb (Machine.owner_id machine =? User.id user) then raise machine_conflict
      else
        let updated := false in
        let '(machine, updated) :=
          if negb (option_string_eqb (Machine.name machine) (Some name))
          then (set_name machine name, true) else (machine, updated) in
        let '(machine, updated) :=
          if negb (String.eqb (Machine.type machine) machine_type)
          then (set_type machine machine_type, true) else (machine, updated) in
        if updated then
          let machine := onupdate_machine now machine in
          do _ <- commit (fun session =>
                  with_machines (update_machine machine (machines session)) session);
          ret machine
        else ret machine
  | None =>
      do ids <- query (fun session => map Machine.id (machines session));
      let machine :=
        Machine.mk (next_id ids) mac_address (Some name) machine_type
                   (User.id user) now now in
      do _ <- commit (fun session =>
              with_machines (machines session ++ [machine]) session);
      ret machine
  end.

(** ** Timestamps of metric records *)

(** [s.replace(old, new)] for a one-character [old]: every occurrence. *)
Fixpoint replace (old : ascii) (new : string) (s : string) : string :=
  match s with
  | EmptyString => EmptyString
  | String c s' =>
      if Ascii.eqb c old then (new ++ replace old new s')%string
      else String c (replace old new s')
  end.

Definition digit_of (c : ascii) : option Z :=
  let n := Z.of_N (N_of_ascii c) in
  if (48 <=? n) && (n <=? 57) then Some (n - 48) else None.

(** Reads exactly [n] decimal digits. *)
Fixpoint parse_digits (n : nat) (acc : Z) (s : string) : option (Z * string) :=
  match n with
  | O => Some (acc, s)
  | S n' =>
      match s with
      | EmptyString => None
      | String c s' =>
          match digit_of c with
          | Some d => parse_digits n' (acc * 10 + d) s'
          | None => None
          end
      end
  end.

(** [YYYY-MM-DD], and what follows it. *)
Definition parse_isoformat_date (s : string) : option (Z * Z * Z * string) :=
  match parse_digits 4 0 s with
  | Some (y, String c1 s1) =>
      if negb (Ascii.eqb c1 "-") then None else
      match parse_digits 2 0 s1 with
      | Some (m, String c2 s2) =>
          if negb (Ascii.eqb c2 "-") then None else
          match parse_digits 2 0 s2 with
          | Some (d, rest) => Some (y, m, d, rest)
          | None => None
          end
      | _ => None
      end
  | _ => None
  end.

(** [.fff] or [.ffffff], after the point. *)
Definition parse_fraction (s : string) : option Z :=
  match String.length s with
  | 3%nat =>
      match parse_digits 3 0 s with
      | Some (v, _) => Some (v * 1000)
      | None => None
      end
  | 6%nat =>
      match parse_digits 6 0 s with
      | Some (v, _) => Some v
      | None => None
      end
  | _ => None
  end.

(** [HH[:MM[:SS[.fff[fff]]]]]. *)
Definition parse_hh_mm_ss_ff (s : string) : option (Z * Z * Z * Z) :=
  match parse_digits 2 0 s with
  | None => None
  | Some (h, EmptyString) => Some (h, 0, 0, 0)
  | Some (h, String c1 s1) =>
      if negb (Ascii.eqb c1 ":") then None else
      match parse_digits 2 0 s1 with
      | None => None
      | Some (m, EmptyString) => Some (h, m, 0, 0)
      | Some (m, String c2 s2) =>
          if negb (Ascii.eqb c2 ":") then None else
          match parse_digits 2 0 s2 with
          | None => None
          | Some (sec, EmptyString) => Some (h, m, sec, 0)
          | Some (sec, String c3 s3) =>
              if negb (Ascii.eqb c3 ".") then None else
              match parse_fraction s3 with
              | Some us => Some (h, m, sec, us)
              | None => None
              end
          end
      end
  end.

(** Splits a time string at its first ['+'] or ['-']: the time part, and the
    sign ([true] for ['-']) with the offset part when there is one. *)
Fixpoint split_offset (s : string) : string * option (bool * string) :=
  match s with
  | EmptyString => (EmptyString, None)
  | String c s' =>
      if Ascii.eqb c "+" then (EmptyString, Some (false, s'))
      else if Ascii.eqb c "-" then (EmptyString, Some (true, s'))
      else let '(t, z) := split_offset s' in (String c t, z)
  end.

(** [HH[:MM[:SS[.fff[fff]]]][+HH:MM[:SS[.ffffff]]]]; the offset in
    microseconds. *)
Definition parse_isoformat_time (s : string) : option (Z * Z * Z * Z * option Z) :=
  let '(timestr, tz) := split_offset s in
  match parse_hh_mm_ss_ff timestr with
  | None => None
  | Some (h, m, sec, us) =>
      match tz with
      | None => Some (h, m, sec, us, None)
      | Some (negative, tzstr) =>
          let n := String.length tzstr in
          if negb (Nat.eqb n 5 || Nat.eqb n 8 || Nat.eqb n 15) then None else
          match parse_hh_mm_ss_ff tzstr with
          | None => None
          | Some (th, tm, ts, tus) =>
              let off := (th * 3600 + tm * 60 + ts) * 1000000 + tus in
              Some (h, m, sec, us, Some (if negative then - off else off))
          end
      end
  end.

Definition is_leap (y : Z) : bool :=
  (y mod 4 =? 0) && (negb (y mod 100 =? 0) || (y mod 400 =? 0)).

Definition days_in_month (y m : Z) : Z :=
  if m =? 2 then (if is_leap y then 29 else 28)
  else if (m =? 4) || (m =? 6) || (m =? 9) || (m =? 11) then 30
  else 31.

(** The range checks of the [datetime] and [timezone] constructors. *)
Definition valid_datetime (dt : datetime) : bool :=
  (1 <=? year dt) && (year dt <=? 9999)
  && (1 <=? month dt) && (month dt <=? 12)
  && (1 <=? day dt) && (day dt <=? days_in_month (year dt) (month dt))
  && (0 <=? hour dt) && (hour dt <=? 23)
  && (0 <=? minute dt) && (minute dt <=? 59)
  && (0 <=? second dt) && (second dt <=? 59)
  && (0 <=? microsecond dt) && (microsecond dt <=? 999999)
  && match tzinfo dt with
     | None => true
     | Some off => (- 86400000000 <? off) && (off <? 86400000000)
     end.

Definition invalid_isoformat : exn := ValueError "Invalid isoformat string".

(** [datetime.fromisoformat], for the format the library documents up to
    Python 3.10: [YYYY-MM-DD[*HH[:MM[:SS[.fff[fff]]]][+HH:MM[:SS[.ffffff]]]]],
    [*] being any one character.  A literal ["Z"] suffix is not part of it.
    Later versions read further ISO 8601 forms, and these ones the same. *)
Definition fromisoformat (s : string) : result datetime :=
  match parse_isoformat_date s with
  | None => Raise invalid_isoformat
  | Some (y, mo, d, rest) =>
      let fields :=
        match rest with
        | EmptyString => Some (0, 0, 0, 0, None)
        | String _ tstr => parse_isoformat_time tstr
        end in
      match fields with
      | None => Raise invalid_isoformat
      | Some (h, mi, sec, us, tz) =>
          let dt := mkDatetime y mo d h mi sec us tz in
          if valid_datetime dt then Ok dt
          else Raise (ValueError "field out of range")
      end
  end.

(** How two values of a [DateTime] column compare.  SQLite, the database of
    [Settings.database_url], keeps the civil fields of a timestamp as text,
    without its offset; values compare by those fields, here counted in
    microseconds of the proleptic Gregorian calendar. *)
Definition days_before_year (y : Z) : Z :=
  let p := y - 1 in p * 365 + p / 4 - p / 100 + p / 400.

Definition days_before_month (y m : Z) : Z :=
  fold_right Z.add 0 (map (days_in_month y) (map Z.of_nat (seq 1 (Z.to_nat (m - 1))))).

Definition civil_microseconds (dt : datetime) : Z :=
  let days := days_before_year (year dt) + days_before_month (year dt) (month dt) + day dt in
  ((days * 24 + hour dt) * 60 + minute dt) * 60 * 1000000
  + second dt * 1000000 + microsecond dt.
Arguments civil_microseconds : simpl never.

(** ** Metrics store: [update_machine_status] *)

Definition mac_missing : exn :=
  Http (mkHTTP HTTP_400_BAD_REQUEST "MAC address missing in payload").

(** The value bound to the [mac_address] comparison of the gate, which is
    declared for [str]: another truthy value is not followed into the SQL
    layer. *)
Definition as_text (x : JSON) : result string :=
  match x with
  | JStr s => Ok s
  | _ => Raise (UnsupportedBind "mac_address")
  end.

(** Line 191: [payload.data.get("machine_info", {}).get("mac")
    or payload.data.get("mac_address")]. *)
Definition payload_mac (data : dict) : result JSON :=
  let? nested := attr_get (dict_get_default data "machine_info" (JDict [])) "mac" in
  Ok (py_or nested (dict_get data "mac_address")).

(** Lines 197-201. [utcnow] is the reading of [datetime.utcnow()]. *)
Definition payload_timestamp (utcnow : datetime) (data : dict) : result datetime :=
  let timestamp_str := dict_get data "timestamp" in
  match timestamp_str with
  | JStr s => fromisoformat (replace "Z" "+00:00" s)
  | _ => Ok (replace_tzinfo utcnow utc)
  end.

Module StatusResponse.
Record t := mk {
  status : string;
  reference_id : string;
  timestamp : datetime
}.
End StatusResponse.

(** [now] is the reading of [datetime.now(timezone.utc)] that fills the
    [created_at] and [updated_at] defaults, [uuid4_hex] the value of
    [uuid.uuid4().hex] that fills [reference_id]. *)
Definition update_machine_status
    (utcnow now : datetime) (uuid4_hex : string)
    (data : dict) (current_user : User.t) : M StatusResponse.t :=
  do mac <- lift (payload_mac data);
  if negb (truthy mac) then raise mac_missing else
  do mac <- lift (as_text mac);
  do machine <- ensure_machine_ownership mac current_user;
  do timestamp <- lift (payload_timestamp utcnow data);
  do rows <- query monitoring_data;
  let metric_record :=
    MonitoringData.mk (next_id (map MonitoringData.id rows)) (Machine.id machine)
                      timestamp data uuid4_hex now now in
  if existsb (fun r => String.eqb (MonitoringData.reference_id r) uuid4_hex) rows
  then raise (IntegrityError "UNIQUE constraint failed: monitoring_data.reference_id")
  else
  do _ <- commit (fun session =>
          with_monitoring_data (monitoring_data session ++ [metric_record]) session);
  ret (StatusResponse.mk "success" (MonitoringData.reference_id metric_record)
                        (MonitoringData.timestamp metric_record)).

(** ** Metrics store: [list_machine_metrics] *)

Module MonitoringDataRead.
Record t := mk {
  timestamp : datetime;
  metrics : dict;
  reference_id : string
}.

(** [MonitoringDataRead.model_validate(record)]. *)
Definition model_validate (record : MonitoringData.t) : t :=
  mk (MonitoringData.timestamp record) (MonitoringData.metrics record)
     (MonitoringData.reference_id record).
End MonitoringDataRead.

Definition timestamp_key (r : MonitoringData.t) : Z :=
  civil_microseconds (MonitoringData.timestamp r).

(** [ORDER BY timestamp DESC]; rows of equal timestamp keep insertion order. *)
Fixpoint insert_desc (r : MonitoringData.t) (rows : list MonitoringData.t)
  : list MonitoringData.t :=
  match rows with
  | [] => [r]
  | x :: rows' =>
      if timestamp_key x <=? timestamp_key r
      then r :: x :: rows'
      else x :: insert_desc r rows'
  end.

Definition order_by_timestamp_desc (rows : list MonitoringData.t) : list MonitoringData.t :=
  fold_right insert_desc [] rows.

(** [LIMIT n] as SQLite, the database of [Settings.database_url], evaluates
    it: a negative [n] puts no upper bound on the number of rows. *)
Definition sql_limit {T} (n : Z) (rows : list T) : list T :=
  if n <? 0 then rows else firstn (Z.to_nat n) rows.

(** [Query(default=100, le=1000)]. *)
Definition limit_default : Z := 100.
Definition limit_le : Z := 1000.

(** The statement is built as select, order_by, where, where, limit; SQL
    evaluates the WHERE clauses, then ORDER BY, then LIMIT.  [limit] is the
    query parameter after its default; a [datetime] is always truthy, so
    [if start:] tests for [None]. *)

Definition list_machine_metrics
    (mac : string) (start end_ : option datetime) (limit : Z)
    (current_user : User.t) : M (list MonitoringDataRead.t) :=
  if negb (limit <=? limit_le) then raise (RequestValidationError "query.limit") else
  do machine <- ensure_machine_ownership mac current_user;
  do records <- query (fun session =>
    let stmt :=
      filter (fun r => MonitoringData.machine_id r =? Machine.id machine)
             (monitoring_data session) in
    let stmt :=
      match start with
      | Some start =>
          filter (fun r => civil_microseconds start <=? timestamp_key r) stmt
      | None => stmt
      end in
    let stmt :=
      match end_ with
      | Some end_ =>
          filter (fun r => timestamp_key r <=? civil_microseconds end_) stmt
      | None => stmt
      end in
    sql_limit limit (order_by_timestamp_desc stmt));
  ret (map MonitoringDataRead.model_validate records).

(** ** Aggregation engine: [aggregate_metrics] *)

(** Python's [float]: IEEE binary64. *)
Definition float := spec_float.
Definition prec : Z := 53.
Definition emax : Z := 1024.

Definition float_of_Z (z : Z) : float := binary_normalize prec emax z 0 false.

(** [isinstance(value, (int, float))]; [bool] is a subclass of [int]. *)
Definition is_int_or_float (value : JSON) : bool :=
  match value with
  | JBool _ | JInt _ | JFloat _ => true
  | _ => false
  end.

(** [float(value)] for a value that passed the test above. *)
Definition float_of (value : JSON) : result float :=
  match value with
  | JBool b => Ok (float_of_Z (if b then 1 else 0))
  | JInt z =>
      match float_of_Z z with
      | S754_infinity _ => Raise (OverflowError "int too large to convert to float")
      | f => Ok f
      end
  | JFloat f => Ok f
  | _ => Raise (TypeError "float() argument must be a string or a real number")
  end.

(** Lines 262-266: the first candidate holding a number is appended, and the
    loop over the candidates stops. *)
Fixpoint probe (value : dict) (candidates : list string) (values : list float)
  : result (list float) :=
  match candidates with
  | [] => Ok values
  | candidate :: candidates' =>
      let nested := dict_get value candidate in
      if is_int_or_float nested then
        let? x := float_of nested in Ok (values ++ [x])
      else probe value candidates' values
  end.

Definition candidates : list string := ["usage"; "percent"; "value"].

(** Lines 258-266: the body of the loop over the records. *)
Definition record_values (key : string) (record : MonitoringData.t) (values : list float)
  : result (list float) :=
  let value := dict_get (MonitoringData.metrics record) key in
  if is_int_or_float value then
    let? x := float_of value in Ok (values ++ [x])
  else
    match value with
    | JDict value => probe value candidates values
    | _ => Ok values
    end.

Fixpoint collect (key : string) (records : list MonitoringData.t) (values : list float)
  : result (list float) :=
  match records with
  | [] => Ok values
  | record :: records' =>
      let? values := record_values key record values in
      collect key records' values
  end.

(** [min] and [max] of a non-empty list: the first element is kept until a
    later one compares strictly below (above) it. *)
Definition py_min (x : float) (xs : list float) : float :=
  fold_left (fun cur y => if SFltb y cur then y else cur) xs x.

Definition py_max (x : float) (xs : list float) : float :=
  fold_left (fun cur y => if SFltb cur y then y else cur) xs x.

(** [statistics.mean] of a non-empty list of floats: the exact sum divided by
    the count and rounded once, to nearest with ties to even; a NaN or an
    infinity among the values goes through float arithmetic instead. *)
Definition exact_ratio (x : float) : Z * Z :=
  match x with
  | S754_finite s m e => (cond_Zopp s (Zpos m), e)
  | _ => (0, 0)
  end.

Definition add_exact (a b : Z * Z) : Z * Z :=
  let '(m1, e1) := a in
  let '(m2, e2) := b in
  let e := Z.min e1 e2 in
  (m1 * 2 ^ (e1 - e) + m2 * 2 ^ (e2 - e), e).

Definition is_finite (x : float) : bool :=
  match x with
  | S754_zero _ | S754_finite _ _ _ => true
  | _ => false
  end.

Definition round_ratio (m e n : Z) : float :=
  match m with
  | 0 => S754_zero false
  | _ =>
      let '(q, e', l) := SFdiv_core_binary prec emax (Z.abs m) e n 0 in
      binary_round_aux prec emax (m <? 0) q e' l
  end.

Definition mean (values : list float) : float :=
  let n := Z.of_nat (List.length values) in
  match filter (fun x => negb (is_finite x)) values with
  | [] =>
      let '(m, e) := fold_left add_exact (map exact_ratio values) (0, 0) in
      round_ratio m e n
  | x :: xs => SFdiv prec emax (fold_left (SFadd prec emax) xs x) (float_of_Z n)
  end.

Module MetricsAggregate.
Record t := mk {
  metric : string;
  minimum : option float;
  maximum : option float;
  average : option float
}.
End MetricsAggregate.

(** Lines 267-277. *)
Definition summarize (key : string) (values : list float) : MetricsAggregate.t :=
  match values with
  | [] => MetricsAggregate.mk key None None None
  | x :: xs =>
      MetricsAggregate.mk key (Some (py_min x xs)) (Some (py_max x xs))
                          (Some (mean values))
  end.

(** Lines 254-278: the loop over the requested keys. *)
Fixpoint aggregate (metric_keys : list string) (records : list MonitoringData.t)
    (aggregates : list MetricsAggregate.t) : result (list MetricsAggregate.t) :=
  match metric_keys with
  | [] => Ok aggregates
  | key :: metric_keys' =>
      let? values := collect key records [] in
      aggregate metric_keys' records (aggregates ++ [summarize key values])
  end.

(** [Query(default=["cpu", "memory", "disk"])]. *)
Definition metric_keys_default : list string := ["cpu"; "memory"; "disk"].

Definition aggregate_metrics
    (mac : string) (metric_keys : list string) (current_user : User.t)
  : M (list MetricsAggregate.t) :=
  do machine <- ensure_machine_ownership mac current_user;
  do records <- query (fun session =>
    filter (fun r => MonitoringData.machine_id r =? Machine.id machine)
           (monitoring_data session));
  lift (aggregate metric_keys records []).

(** ** Configuration store *)

(** The integer a finite float holds exactly, if it holds one. *)
Definition float_as_int (f : float) : option Z :=
  match f with
  | S754_zero _ => Some 0
  | S754_finite s m e =>
      let v := cond_Zopp s (Zpos m) in
      if 0 <=? e then Some (v * 2 ^ e)
      else if v mod 2 ^ (- e) =? 0 then Some (v / 2 ^ (- e)) else None
  | _ => None
  end.

(** *** The request schema [MachineConfigPayload] ([app/schemas.py]) *)

Module MachineConfigPayload.
Record t := mk {
  name : string;
  mac : string;
  type : string;
  notify : bool;
  frequency : Z;
  start_with_os : bool;
  status : dict;
  model_extra : dict          (* [extra="allow"]: the fields not declared *)
}.

(** A declared field is read under its alias and, because of
    [populate_by_name=True], under its attribute name when the alias is
    absent; the key that was read is recorded. *)
Definition lookup_field (data : dict) (alias field_name : string)
  : option (string * JSON) :=
  match lookup data alias with
  | Some v => Some (alias, v)
  | None =>
      match lookup data field_name with
      | Some v => Some (field_name, v)
      | None => None
      end
  end.

Definition ascii_lower (c : ascii) : ascii :=
  let n := N_of_ascii c in
  if ((65 <=? n) && (n <=? 90))%N then ascii_of_N (n + 32) else c.

Fixpoint lower (s : string) : string :=
  match s with
  | EmptyString => EmptyString
  | String c s' => String (ascii_lower c) (lower s')
  end.

Definition mem (k : string) (ks : list string) : bool :=
  existsb (String.eqb k) ks.

(** The conversions of the validator's default (lax) mode, for the values a
    JSON body can hold.  A value outside them is rejected. *)
Definition validate_str (v : JSON) : option string :=
  match v with
  | JStr s => Some s
  | _ => None
  end.

Definition validate_bool (v : JSON) : option bool :=
  match v with
  | JBool b => Some b
  | JInt 0 => Some false
  | JInt 1 => Some true
  | JFloat f =>
      if SFeqb f (float_of_Z 0) then Some false
      else if SFeqb f (float_of_Z 1) then Some true
      else None
  | JStr s =>
      if String.eqb s "0" || mem (lower s) ["f"; "n"; "no"; "off"; "false"]
      then Some false
      else if String.eqb s "1" || mem (lower s) ["t"; "y"; "on"; "yes"; "true"]
      then Some true
      else None
  | _ => None
  end.

Fixpoint digits_value (acc : Z) (s : string) : option Z :=
  match s with
  | EmptyString => Some acc
  | String c s' =>
      match digit_of c with
      | Some d => digits_value (acc * 10 + d) s'
      | None => None
      end
  end.

Definition str_as_int (s : string) : option Z :=
  match s with
  | EmptyString => None
  | String c s' =>
      if Ascii.eqb c "-" then
        match s' with
        | EmptyString => None
        | _ => option_map Z.opp (digits_value 0 s')
        end
      else digits_value 0 s
  end.

Definition validate_int (v : JSON) : option Z :=
  match v with
  | JInt z => Some z
  | JBool b => Some (if b then 1 else 0)
  | JFloat f => float_as_int f
  | JStr s => str_as_int s
  | _ => None
  end.

Definition validate_dict (v : JSON) : option dict :=
  match v with
  | JDict d => Some d
  | _ => None
  end.

Definition field {A} (data : dict) (alias field_name : string)
    (validator : JSON -> option A) : result (string * A) :=
  match lookup_field data alias field_name with
  | None => Raise (RequestValidationError alias)
  | Some (used, v) =>
      match validator v with
      | Some a => Ok (used, a)
      | None => Raise (RequestValidationError alias)
      end
  end.

(** Validation of a request body against the schema. *)
Definition model_validate (data : dict) : result t :=
  let? (k1, name) := field data "Nome" "name" validate_str in
  let? (k2, mac) := field data "MAC" "mac" validate_str in
  let? (k3, type) := field data "type" "type" validate_str in
  let? (k4, notify) := field data "Notificar" "notify" validate_bool in
  let? (k5, frequency) := field data "Frequency" "frequency" validate_int in
  let? (k6, start_with_os) := field data "iniciarSO" "start_with_os" validate_bool in
  let? (k7, status) := field data "status" "status" validate_dict in
  let used := [k1; k2; k3; k4; k5; k6; k7] in
  Ok (mk name mac type notify frequency start_with_os status
         (filter (fun kv => negb (mem (fst kv) used)) data)).

(** [config_data.model_dump(by_alias=True)]. *)
Definition model_dump_by_alias (p : t) : dict :=
  [ ("Nome", JStr (name p));
    ("MAC", JStr (mac p));
    ("type", JStr (type p));
    ("Notificar", JBool (notify p));
    ("Frequency", JInt (frequency p));
    ("iniciarSO", JBool (start_with_os p));
    ("status", JDict (status p)) ] ++ model_extra p.
End MachineConfigPayload.

(** *** Python's [==] on documents

    The unit of work compares a newly assigned column value with the loaded
    one by [==] and emits no UPDATE when they are equal. *)

Inductive number :=
| NInt (z : Z)
| NFloat (f : float).

Definition as_number (v : JSON) : option number :=
  match v with
  | JBool b => Some (NInt (if b then 1 else 0))
  | JInt z => Some (NInt z)
  | JFloat f => Some (NFloat f)
  | _ => None
  end.

Definition number_eqb (a b : number) : bool :=
  match a, b with
  | NInt x, NInt y => x =? y
  | NFloat f, NFloat g => SFeqb f g
  | NInt x, NFloat f | NFloat f, NInt x =>
      match float_as_int f with
      | Some y => x =? y
      | None => false
      end
  end.

Fixpoint py_eq (a b : JSON) {struct a} : bool :=
  match a, b with
  | JNull, JNull => true
  | JStr s, JStr t => String.eqb s t
  | JList la, JList lb =>
      (fix all2 (la lb : list JSON) {struct la} : bool :=
         match la, lb with
         | [], [] => true
         | x :: la', y :: lb' => py_eq x y && all2 la' lb'
         | _, _ => false
         end) la lb
  | JDict da, JDict db =>
      Nat.eqb (List.length da) (List.length db)
      && (fix all (da : list (string * JSON)) {struct da} : bool :=
            match da with
            | [] => true
            | (k, v) :: da' =>
                match lookup db k with
                | Some w => py_eq v w
                | None => false
                end && all da'
            end) da
  | _, _ =>
      match as_number a, as_number b with
      | Some x, Some y => number_eqb x y
      | _, _ => false
      end
  end.

(** *** [update_machine_config] and [get_machine_config] *)

Module ConfigUpdateResponse.
Record t := mk {
  status : string;
  data : dict;
  updated_at : datetime
}.
End ConfigUpdateResponse.

Module MachineConfigResponse.
Record t := mk {
  data : dict;
  updated_at : datetime
}.
End MachineConfigResponse.

(** The UPDATE of one row of [machine_configurations]. *)
Definition update_configuration (c : MachineConfiguration.t)
    (rows : list MachineConfiguration.t) : list MachineConfiguration.t :=
  map (fun r => if MachineConfiguration.id r =? MachineConfiguration.id c then c else r)
      rows.

(** [payload] is the [data] member of the request body. *)
Definition update_machine_config
    (now : datetime) (payload : dict) (current_user : User.t)
  : M ConfigUpdateResponse.t :=
  do config_data <- lift (MachineConfigPayload.model_validate payload);
  do machine <- ensure_machine_ownership (MachineConfigPayload.mac config_data) current_user;
  let raw_payload := MachineConfigPayload.model_dump_by_alias config_data in
  do configuration <- query (fun session =>
      scalar (fun c => MachineConfiguration.machine_id c =? Machine.id machine)
             (machine_configurations session));
  do configuration <-
    match configuration with
    | Some configuration =>
        if py_eq (JDict raw_payload) (JDict (MachineConfiguration.raw_payload configuration))
        then ret configuration           (* no net change: nothing is flushed *)
        else
          let configuration :=
            MachineConfiguration.mk
              (MachineConfiguration.id configuration)
              (MachineConfiguration.machine_id configuration)
              raw_payload
              (MachineConfiguration.created_at configuration)
              now in
          do _ <- commit (fun session =>
                  with_machine_configurations
                    (update_configuration configuration (machine_configurations session))
                    session);
          ret configuration
    | None =>
        do ids <- query (fun session =>
                map MachineConfiguration.id (machine_configurations session));
        let configuration :=
          MachineConfiguration.mk (next_id ids) (Machine.id machine) raw_payload now now in
        do _ <- commit (fun session =>
                with_machine_configurations
                  (machine_configurations session ++ [configuration]) session);
        ret configuration
    end;
  ret (ConfigUpdateResponse.mk "success"
         (MachineConfiguration.raw_payload configuration)
         (MachineConfiguration.updated_at configuration)).

Definition configuration_not_found : exn :=
  Http (mkHTTP HTTP_404_NOT_FOUND "Configuration not found").

Definition get_machine_config (mac : string) (current_user : User.t)
  : M MachineConfigResponse.t :=
  do machine <- ensure_machine_ownership mac current_user;
  do configuration <- query (fun session =>
      scalar (fun c => MachineConfiguration.machine_id c =? Machine.id machine)
             (machine_configurations session));
  match configuration with
  | None => raise configuration_not_found
  | Some configuration =>
      ret (MachineConfigResponse.mk
             (MachineConfiguration.raw_payload configuration)
             (MachineConfiguration.updated_at configuration))
  end.

(** *** The selection rule in the words of the specification

    For a nested value, the field to use is the first of [usage], [percent],
    [value] that holds a number; [selected] is the one value, if any, that a
    record's document contributes for a key. *)
Definition first_numeric_field (value : dict) : option string :=
  if is_int_or_float (dict_get value "usage") then Some "usage"
  else if is_int_or_float (dict_get value "percent") then Some "percent"
  else if is_int_or_float (dict_get value "value") then Some "value"
  else None.

Definition selected (key : string) (metrics : dict) : option JSON :=
  let value := dict_get metrics key in
  if is_int_or_float value then Some value
  else
    match value with
    | JDict nested =>
        match first_numeric_field nested with
        | Some candidate => Some (dict_get nested candidate)
        | None => None
        end
    | _ => None
    end.

(** [1.0] and [0.0]. *)
Definition one : float := S754_finite false 4503599627370496 (-52).

(** *** Timestamps as [datetime.isoformat] prints them

    [YYYY-MM-DDTHH:MM:SS], for a naive value without microseconds. *)
Definition digit_char (k : Z) : ascii := ascii_of_N (Z.to_N (48 + k)).

Definition two_digits (n : Z) (rest : string) : string :=
  String (digit_char (n / 10)) (String (digit_char (n mod 10)) rest).

Definition four_digits (n : Z) (rest : string) : string :=
  String (digit_char (n / 1000))
    (String (digit_char (n / 100 mod 10))
       (String (digit_char (n / 10 mod 10))
          (String (digit_char (n mod 10)) rest))).

Definition isoformat_seconds (y mo d h mi sec : Z) (rest : string) : string :=
  four_digits y (String "-" (two_digits mo (String "-" (two_digits d
    (String "T" (two_digits h (String ":" (two_digits mi (String ":"
      (two_digits sec rest))))))))))%char.

(** The order of the rows of a query result: newest first. *)
Definition newest_first (a b : MonitoringData.t) : Prop :=
  timestamp_key b <= timestamp_key a.

(** *** Reading a configuration back, in the words of the specification *)

(** The document arrives under the schema's aliases, each declared field
    holding a value of its declared JSON type. *)
Definition supplied_by_alias (payload : dict) : Prop :=
  (exists v, lookup payload "Nome" = Some (JStr v))
  /\ (exists v, lookup payload "MAC" = Some (JStr v))
  /\ (exists v, lookup payload "type" = Some (JStr v))
  /\ (exists v, lookup payload "Notificar" = Some (JBool v))
  /\ (exists v, lookup payload "Frequency" = Some (JInt v))
  /\ (exists v, lookup payload "iniciarSO" = Some (JBool v))
  /\ (exists v, lookup payload "status" = Some (JDict v)).

(** What is read back after writing [payload] holds, under every field name,
    the value the caller wrote under that name. *)
Definition reads_back_verbatim
    (now : datetime) (payload : dict) (user : User.t) (session : Session) : Prop :=
  forall config_data written session' read session'',
    MachineConfigPayload.model_validate payload = Ok config_data ->
    update_machine_config now payload user session = (Ok written, session') ->
    get_machine_config (MachineConfigPayload.mac config_data) user session'
      = (Ok read, session'') ->
    forall k, lookup (MachineConfigResponse.data read) k = lookup payload k.

(** The declared fields whose alias differs from the attribute name. *)
Definition renamed_fields : list (string * string) :=
  [("Nome", "name"); ("MAC", "mac"); ("Notificar", "notify");
   ("Frequency", "frequency"); ("iniciarSO", "start_with_os")].

(** ** Invariants and a sample database

    The sample follows [tests/test_api.py]: one registered user who logged in
    from the machine [AA:BB:CC:DD:EE:FF], and a second user. *)

(** No two rows of [machines] carry the same MAC address (the column is
    declared [unique=True]). *)
Definition mac_unique (session : Session) : Prop :=
  NoDup (map Machine.mac_address (machines session)).

Definition t0 : datetime := mkDatetime 2024 5 20 10 0 0 0 utc.
Definition t1 : datetime := mkDatetime 2024 5 20 10 45 0 0 utc.

Definition ops : User.t := User.mk 1 "ops@example.com" (Some "Ops User") "$2b$12$ops" true.
Definition eve : User.t := User.mk 2 "eve@example.com" None "$2b$12$eve" true.

Definition desktop : Machine.t :=
  Machine.mk 1 "AA:BB:CC:DD:EE:FF" (Some "Desktop-01") "pc" 1 t0 t0.

Definition session0 : Session := mkSession [ops; eve] [desktop] [] [].

(** [n] metric records of [desktop], submitted newest first: one per minute,
    back from midnight. *)
Definition sample_record (i : nat) : MonitoringData.t :=
  let k := Z.of_nat i in
  MonitoringData.mk k 1 (mkDatetime 2024 5 20 ((1440 - k) / 60) ((1440 - k) mod 60) 0 0 utc)
                    [("mac_address", JStr "AA:BB:CC:DD:EE:FF"); ("cpu", JInt (k mod 100))]
                    (four_digits k "0000000000000000000000000000") t1 t1.

Definition session_with_records (n : nat) : Session :=
  mkSession [ops; eve] [desktop] [] (map sample_record (seq 1 n)).

(** The configuration of [tests/test_api.py], and the same one with the
    display name sent under the attribute name instead of the alias. *)
Definition config_by_alias : dict :=
  [("Nome", JStr "Desktop Principal"); ("MAC", JStr "AA:BB:CC:DD:EE:FF");
   ("type", JStr "pc"); ("Notificar", JBool true); ("Frequency", JInt 30);
   ("iniciarSO", JBool true);
   ("status", JDict [("CPU", JBool true); ("RAM", JBool true); ("DISCO", JBool true)])].

Definition config_by_name : dict :=
  [("name", JStr "Desktop Principal"); ("MAC", JStr "AA:BB:CC:DD:EE:FF");
   ("type", JStr "pc"); ("Notificar", JBool true); ("Frequency", JInt 30);
   ("iniciarSO", JBool true);
   ("status", JDict [("CPU", JBool true); ("RAM", JBool true); ("DISCO", JBool true)])].

(** The metric document of [tests/test_api.py]: [cpu = 52.3],
    [memory = 61.4], [disk = {usage: 73.9}]. *)
Definition f52_3 : float := S754_finite false 7360570640983654 (-47).
Definition f61_4 : float := S754_finite false 8641281785017139 (-47).
Definition f73_9 : float := S754_finite false 5200250194729370 (-46).

Definition metric_payload : dict :=
  [("timestamp", JStr "2024-05-20T10:33:00Z");
   ("machine_info", JDict [("mac", JStr "AA:BB:CC:DD:EE:FF"); ("hostname", JStr "desktop")]);
   ("cpu", JFloat f52_3);
   ("memory", JFloat f61_4);
   ("disk", JDict [("usage", JFloat f73_9)])].

Definition metric_record : MonitoringData.t :=
  MonitoringData.mk 1 1 (mkDatetime 2024 5 20 10 33 0 0 utc) metric_payload
                    "0f1e2d3c4b5a69788796a5b4c3d2e1f0" t1 t1.

Definition session1 : Session := mkSession [ops; eve] [desktop] [] [metric_record].

(** A record of [desktop] whose [cpu] is the integer [2 ** 1024], one past
    what a float can hold. *)
Definition huge_record : MonitoringData.t :=
  MonitoringData.mk 2 1 (mkDatetime 2024 5 20 10 34 0 0 utc)
                    [("mac_address", JStr "AA:BB:CC:DD:EE:FF"); ("cpu", JInt (2 ^ 1024))]
                    "00000000000000000000000000000002" t1 t1.

Definition session2 : Session :=
  mkSession [ops; eve] [desktop] [] [metric_record; huge_record].

Definition config_data0 : MachineConfigPayload.t :=
  MachineConfigPayload.mk "Desktop Principal" "AA:BB:CC:DD:EE:FF" "pc" true 30 true
    [("CPU", JBool true); ("RAM", JBool true); ("DISCO", JBool true)] [].

Ltac unfold_M := unfold bind, ret, raise, lift, query, commit in *.

(** Linear arithmetic with division and remainder by constants. *)
Ltac div_lia := Z.to_euclidean_division_equations; lia.

(** * Accounts, the machine routes and the router

    The handlers of [app/api/routes.py] that open an account, log a machine
    in and list machines, the authentication dependency of
    [app/dependencies.py], and the table of routes that ties a handler to its
    dependencies. *)

Definition HTTP_401_UNAUTHORIZED : Z := 401.

(** ** [app/security.py]

    Its four functions are one-line calls into [passlib] (bcrypt) and [jose]
    (JWT).  The handlers are embedded against them as an interface; the
    algorithms are not modelled.  [get_password_hash] takes the salt bcrypt
    draws, [create_access_token] and [verify_token] the reading of the clock
    the expiry is computed from and checked against; [extra] holds the
    keyword arguments of [create_access_token], in order. *)
Module Security.
Record t := mk {
  get_password_hash : string -> string -> string;
  verify_password : string -> string -> bool;
  create_access_token : datetime -> string -> dict -> string;
  verify_token : datetime -> string -> result dict
}.
End Security.

(** ** Request and response schemas ([app/schemas.py]) *)

Module UserCreate.
Record t := mk {
  email : string;
  full_name : option string;
  password : string
}.
End UserCreate.

Module UserRead.
Record t := mk {
  email : string;
  full_name : option string;
  id : Z
}.

Definition model_validate (user : User.t) : t :=
  mk (User.email user) (User.full_name user) (User.id user).
End UserRead.

Module Token.
Record t := mk {
  token : string;
  type : string
}.
End Token.

Module LoginRequest.
Record t := mk {
  email : string;
  password : string;
  mac_address : string;
  username : string;
  c : string
}.
End LoginRequest.

Module MachineCreate.
Record t := mk {
  mac_address : string;
  name : option string;
  type : string
}.
End MachineCreate.

Module MachineRead.
Record t := mk {
  id : Z;
  mac_address : string;
  name : option string;
  type : string
}.

Definition model_validate (machine : Machine.t) : t :=
  mk (Machine.id machine) (Machine.mac_address machine) (Machine.name machine)
     (Machine.type machine).
End MachineRead.

(** ** Accounts: [register_user] and [login] *)

Definition with_users (us : list User.t) (db : Session) : Session :=
  mkSession us (machines db) (machine_configurations db) (monitoring_data db).

Definition email_registered : exn :=
  Http (mkHTTP HTTP_400_BAD_REQUEST "Email already registered").

Definition invalid_credentials : exn :=
  Http (mkHTTP HTTP_401_UNAUTHORIZED "Invalid credentials").

(** Lines 41-52.  [is_active] takes its column default. *)
Definition register_user (security : Security.t) (salt : string) (user_in : UserCreate.t)
  : M UserRead.t :=
  do existing_user <- query (fun session =>
      scalar (fun u => String.eqb (User.email u) (UserCreate.email user_in))
             (users session));
  match existing_user with
  | Some _ => raise email_registered
  | None =>
      do ids <- query (fun session => map User.id (users session));
      let user :=
        User.mk (next_id ids) (UserCreate.email user_in) (UserCreate.full_name user_in)
                (Security.get_password_hash security salt (UserCreate.password user_in))
                true in
      do _ <- commit (fun session => with_users (users session ++ [user]) session);
      ret (UserRead.model_validate user)
  end.

(** [needle in haystack], on strings. *)
Fixpoint contains (needle haystack : string) : bool :=
  String.prefix needle haystack
  || match haystack with
     | EmptyString => false
     | String _ rest => contains needle rest
     end.

(** Line 92.  Strings are byte strings here; [str.lower] changes other
    characters than [A-Z] as well, but none of them into a letter of
    ["server"], so the test is decided by the ASCII letters. *)
Definition machine_type_of (c : string) : string :=
  if contains "server" (MachineConfigPayload.lower c) then "server" else "pc".

(** Lines 86-113. *)
Definition login (security : Security.t) (utcnow now : datetime) (request : LoginRequest.t)
  : M Token.t :=
  do user <- query (fun session =>
      scalar (fun u => String.eqb (User.email u) (LoginRequest.email request))
             (users session));
  match user with
  | None => raise invalid_credentials
  | Some user =>
      if negb (Security.verify_password security (LoginRequest.password request)
                                        (User.hashed_password user))
      then raise invalid_credentials
      else
        let machine_type := machine_type_of (LoginRequest.c request) in
        do machine <- _get_or_create_machine now user (LoginRequest.mac_address request)
                        (LoginRequest.username request) machine_type;
        let token :=
          Security.create_access_token security utcnow (User.email user)
            [("machine_mac", JStr (Machine.mac_address machine));
             ("machine_type", JStr (Machine.type machine));
             ("user_id", JInt (User.id user))] in
        ret (Token.mk token (Machine.type machine))
  end.

(** ** Authentication: [get_current_user] ([app/dependencies.py]) *)

Definition unauthorized (detail : string) : exn :=
  Http (mkHTTP HTTP_401_UNAUTHORIZED detail).

(** The value bound to the comparison with [User.email], a text column:
    another value is not followed into the SQL layer. *)
Definition email_as_text (x : JSON) : result string :=
  match x with
  | JStr s => Ok s
  | _ => Raise (UnsupportedBind "email")
  end.

(** Lines 15-36.  [credentials] is the bearer token of the [Authorization]
    header, [None] without one ([HTTPBearer(auto_error=False)]). *)
Definition get_current_user (security : Security.t) (utcnow : datetime)
    (credentials : option string) : M User.t :=
  match credentials with
  | None => raise (unauthorized "Missing credentials")
  | Some token =>
      match Security.verify_token security utcnow token with
      | Raise _ => raise (unauthorized "Invalid token")
      | Ok payload =>
          let email := dict_get payload "sub" in
          match email with
          | JNull => raise (unauthorized "Invalid token payload")
          | _ =>
              do email <- lift (email_as_text email);
              do user <- query (fun session =>
                  scalar (fun u => String.eqb (User.email u) email) (users session));
              match user with
              | None => raise (unauthorized "User not found")
              | Some user => ret user
              end
          end
      end
  end.

(** ** Machines: [register_machine] and [list_machines] *)

(** Line 126: [machine_in.name or machine_in.mac_address]. *)
Definition name_or_mac (machine_in : MachineCreate.t) : string :=
  match MachineCreate.name machine_in with
  | Some name => if negb (String.eqb name "") then name else MachineCreate.mac_address machine_in
  | None => MachineCreate.mac_address machine_in
  end.

(** Lines 116-129. *)
Definition register_machine (now : datetime) (machine_in : MachineCreate.t)
    (current_user : User.t) : M MachineRead.t :=
  do machine <- _get_or_create_machine now current_user
                  (MachineCreate.mac_address machine_in)
                  (name_or_mac machine_in)
                  (MachineCreate.type machine_in);
  ret (MachineRead.model_validate machine).

(** Lines 132-138. *)
Definition list_machines (current_user : User.t) : M (list MachineRead.t) :=
  do machines <- query (fun session =>
      filter (fun m => Machine.owner_id m =? User.id current_user) (machines session));
  ret (map MachineRead.model_validate machines).

(** ** The routes

    What each route of the router runs: the dependency [get_current_user]
    first where the handler declares it, then the handler with the query
    parameters after their defaults. *)

(** The readings a request takes from its environment. *)
Module Env.
Record t := mk {
  utcnow : datetime;          (* [datetime.utcnow()]            *)
  now : datetime;             (* [datetime.now(timezone.utc)]   *)
  uuid4_hex : string;         (* [uuid.uuid4().hex]             *)
  salt : string               (* the salt of [pwd_context.hash] *)
}.
End Env.

Inductive request :=
| PostRegister (user_in : UserCreate.t)
| PostLogin (body : LoginRequest.t)
| PostMachines (credentials : option string) (machine_in : MachineCreate.t)
| GetMachines (credentials : option string)
| PostUpdateConfig (credentials : option string) (data : dict)
| GetMachine (credentials : option string) (mac : string)
| PutStatus (credentials : option string) (data : dict)
| GetMetrics (credentials : option string) (mac : string)
             (start end_ : option datetime) (limit : option Z)
| GetAggregate (credentials : option string) (mac : string)
               (metric_keys : option (list string)).

Inductive response :=
| UserCreated (u : UserRead.t)
| LoggedIn (t : Token.t)
| MachineRegistered (m : MachineRead.t)
| Machines (ms : list MachineRead.t)
| ConfigUpdated (r : ConfigUpdateResponse.t)
| Config (r : MachineConfigResponse.t)
| StatusStored (r : StatusResponse.t)
| Metrics (rs : list MonitoringDataRead.t)
| Aggregates (rs : list MetricsAggregate.t).

Definition fmap {A B} (f : A -> B) (m : M A) : M B :=
  do a <- m; ret (f a).

(** [current_user: User = Depends(get_current_user)]. *)
Definition authenticated {A} (security : Security.t) (env : Env.t)
    (credentials : option string) (handler : User.t -> M A) : M A :=
  do current_user <- get_current_user security (Env.utcnow env) credentials;
  handler current_user.

Definition default {A} (x : option A) (d : A) : A :=
  match x with
  | Some a => a
  | None => d
  end.

Definition route (security : Security.t) (env : Env.t) (r : request) : M response :=
  match r with
  | PostRegister user_in =>
      fmap UserCreated (register_user security (Env.salt env) user_in)
  | PostLogin body =>
      fmap LoggedIn (login security (Env.utcnow env) (Env.now env) body)
  | PostMachines credentials machine_in =>
      fmap MachineRegistered
        (authenticated security env credentials (register_machine (Env.now env) machine_in))
  | GetMachines credentials =>
      fmap Machines (authenticated security env credentials list_machines)
  | PostUpdateConfig credentials data =>
      fmap ConfigUpdated
        (authenticated security env credentials (update_machine_config (Env.now env) data))
  | GetMachine credentials mac =>
      fmap Config (authenticated security env credentials (get_machine_config mac))
  | PutStatus credentials data =>
      fmap StatusStored
        (authenticated security env credentials
           (update_machine_status (Env.utcnow env) (Env.now env) (Env.uuid4_hex env) data))
  | GetMetrics credentials mac start end_ limit =>
      fmap Metrics
        (authenticated security env credentials
           (list_machine_metrics mac start end_ (default limit limit_default)))
  | GetAggregate credentials mac metric_keys =>
      fmap Aggregates
        (authenticated security env credentials
           (aggregate_metrics mac (default metric_keys metric_keys_default)))
  end.

(** The bearer token of a request to a route that declares the dependency
    [get_current_user]; [None] for the two routes that do not. *)
Definition credentials_of (r : request) : option (option string) :=
  match r with
  | PostRegister _ | PostLogin _ => None
  | PostMachines credentials _
  | GetMachines credentials
  | PostUpdateConfig credentials _
  | GetMachine credentials _
  | PutStatus credentials _
  | GetMetrics credentials _ _ _ _
  | GetAggregate credentials _ _ => Some credentials
  end.

(** The database after a sequence of requests. *)
Fixpoint serve (security : Security.t) (requests : list (Env.t * request))
    (session : Session) : Session :=
  match requests with
  | [] => session
  | (env, r) :: requests' => serve security requests' (snd (route security env r session))
  end.

Definition empty_database : Session := mkSession [] [] [] [].

(** ** The constraints of [app/models.py]

    Primary keys, the [unique=True] columns and the foreign keys. *)
Record consistent (session : Session) : Prop := {
  users_pk : NoDup (map User.id (users session));
  users_email : NoDup (map User.email (users session));
  machines_pk : NoDup (map Machine.id (machines session));
  machines_mac : mac_unique session;
  machines_owner :
    forall m, In m (machines session) ->
      In (Machine.owner_id m) (map User.id (users session));
  configurations_pk :
    NoDup (map MachineConfiguration.id (machine_configurations session));
  configurations_machine_unique :
    NoDup (map MachineConfiguration.machine_id (machine_configurations session));
  configurations_machine :
    forall c, In c (machine_configurations session) ->
      In (MachineConfiguration.machine_id c) (map Machine.id (machines session));
  monitoring_pk : NoDup (map MonitoringData.id (monitoring_data session));
  monitoring_reference :
    NoDup (map MonitoringData.reference_id (monitoring_data session));
  monitoring_machine :
    forall d, In d (monitoring_data session) ->
      In (MonitoringData.machine_id d) (map Machine.id (machines session))
}.

(** ** How a request may change the database

    The steps a handler commits, each with what the handler has checked
    before it. *)
Inductive transition (s : Session) : Session -> Prop :=
| unchanged : transition s s
| user_added (u : User.t) :
    ~ In (User.id u) (map User.id (users s)) ->
    ~ In (User.email u) (map User.email (users s)) ->
    transition s (with_users (users s ++ [u]) s)
| machine_added (m : Machine.t) :
    ~ In (Machine.id m) (map Machine.id (machines s)) ->
    ~ In (Machine.mac_address m) (map Machine.mac_address (machines s)) ->
    In (Machine.owner_id m) (map User.id (users s)) ->
    transition s (with_machines (machines s ++ [m]) s)
| machine_updated (old new : Machine.t) :
    In old (machines s) ->
    Machine.id new = Machine.id old ->
    Machine.mac_address new = Machine.mac_address old ->
    Machine.owner_id new = Machine.owner_id old ->
    Machine.created_at new = Machine.created_at old ->
    transition s (with_machines (update_machine new (machines s)) s)
| configuration_added (c : MachineConfiguration.t) :
    ~ In (MachineConfiguration.id c)
         (map MachineConfiguration.id (machine_configurations s)) ->
    ~ In (MachineConfiguration.machine_id c)
         (map MachineConfiguration.machine_id (machine_configurations s)) ->
    In (MachineConfiguration.machine_id c) (map Machine.id (machines s)) ->
    transition s (with_machine_configurations (machine_configurations s ++ [c]) s)
| configuration_updated (old new : MachineConfiguration.t) :
    In old (machine_configurations s) ->
    MachineConfiguration.id new = MachineConfiguration.id old ->
    MachineConfiguration.machine_id new = MachineConfiguration.machine_id old ->
    transition s
      (with_machine_configurations
         (update_configuration new (machine_configurations s)) s)
| record_added (d : MonitoringData.t) :
    ~ In (MonitoringData.id d) (map MonitoringData.id (monitoring_data s)) ->
    ~ In (MonitoringData.reference_id d)
         (map MonitoringData.reference_id (monitoring_data s)) ->
    In (MonitoringData.machine_id d) (map Machine.id (machines s)) ->
    transition s (with_monitoring_data (monitoring_data s ++ [d]) s).

(** A computation is atomic at [s] when it makes one of these steps, and
    none when it raises. *)
Definition atomic {A} (m : M A) (s : Session) : Prop :=
  transition s (snd (m s)) /\ (forall e, fst (m s) = Raise e -> snd (m s) = s).

(** ** What belongs to a user

    The machines a user owns, with the configurations and the metric records
    of those machines. *)
Definition owns (user_id : Z) (session : Session) (machine_id : Z) : bool :=
  existsb (fun m => (Machine.id m =? machine_id) && (Machine.owner_id m =? user_id))
          (machines session).

Definition data_of (user_id : Z) (session : Session)
  : list Machine.t * list MachineConfiguration.t * list MonitoringData.t :=
  (filter (fun m => Machine.owner_id m =? user_id) (machines session),
   filter (fun c => owns user_id session (MachineConfiguration.machine_id c))
          (machine_configurations session),
   filter (fun d => owns user_id session (MonitoringData.machine_id d))
          (monitoring_data session)).

(** The account a request acts for: the one [get_current_user] returns, for
    [login] the one whose password was accepted, and none for [register]. *)
Definition acting_user (security : Security.t) (env : Env.t) (r : request)
    (session : Session) : option User.t :=
  match r with
  | PostRegister _ => None
  | PostLogin body =>
      match scalar (fun u => String.eqb (User.email u) (LoginRequest.email body))
                   (users session) with
      | Some user =>
          if Security.verify_password security (LoginRequest.password body)
                                      (User.hashed_password user)
          then Some user else None
      | None => None
      end
  | PostMachines credentials _
  | GetMachines credentials
  | PostUpdateConfig credentials _
  | GetMachine credentials _
  | PutStatus credentials _
  | GetMetrics credentials _ _ _ _
  | GetAggregate credentials _ _ =>
      match fst (get_current_user security (Env.utcnow env) credentials session) with
      | Ok user => Some user
      | Raise _ => None
      end
  end.

(** ** Rate limiting and start-up ([app/main.py]) *)

Module Settings.
Record t := mk {
  rate_limit_requests : Z;
  rate_limit_window_seconds : Z;
  initial_admin_email : option string;
  initial_admin_password : option string
}.
End Settings.

(** The defaults of [app/core/config.py]. *)
Definition settings_default : Settings.t := Settings.mk 120 60 None None.

Module Request.
Record t := mk {
  path : string;                       (* [request.url.path]                     *)
  x_forwarded_for : option string;     (* [request.headers.get("X-Forwarded-For")] *)
  client_host : option string          (* [request.client.host], if any client   *)
}.
End Request.

(** [_rate_buckets]: a [defaultdict(list)], keys in insertion order. *)
Definition rate_buckets := list (string * list float).

Fixpoint bucket (buckets : rate_buckets) (identifier : string) : option (list float) :=
  match buckets with
  | [] => None
  | (k, hits) :: buckets' =>
      if String.eqb k identifier then Some hits else bucket buckets' identifier
  end.

(** [_rate_buckets[identifier]]: a missing key is inserted with [[]]. *)
Definition getitem (buckets : rate_buckets) (identifier : string)
  : list float * rate_buckets :=
  match bucket buckets identifier with
  | Some hits => (hits, buckets)
  | None => ([], buckets ++ [(identifier, [])])
  end.

(** [_rate_buckets[identifier] = hits]. *)
Fixpoint setitem (buckets : rate_buckets) (identifier : string) (hits : list float)
  : rate_buckets :=
  match buckets with
  | [] => [(identifier, hits)]
  | (k, v) :: buckets' =>
      if String.eqb k identifier then (k, hits) :: buckets'
      else (k, v) :: setitem buckets' identifier hits
  end.

(** [x < n] for a float and an int: Python compares the exact values. *)
Definition float_lt_int (x : float) (n : Z) : bool :=
  match x with
  | S754_nan => false
  | S754_infinity s => s
  | S754_zero _ => 0 <? n
  | S754_finite s m e =>
      let v := cond_Zopp s (Zpos m) in
      if 0 <=? e then v * 2 ^ e <? n else v <? n * 2 ^ (- e)
  end.

(** Line 42. *)
Definition identifier (request : Request.t) : string :=
  let fallback :=
    match Request.client_host request with
    | Some host => host
    | None => "anonymous"
    end in
  match Request.x_forwarded_for request with
  | Some forwarded => if negb (String.eqb forwarded "") then forwarded else fallback
  | None => fallback
  end.

Inductive verdict :=
| CallNext              (* [await call_next(request)]                            *)
| TooManyRequests.      (* [JSONResponse(429, {"detail": "Too Many Requests"})]  *)

(** Lines 37-51.  [now] is the reading of [monotonic()]. *)
Definition rate_limit_middleware (settings : Settings.t) (now : float)
    (request : Request.t) (buckets : rate_buckets) : verdict * rate_buckets :=
  if String.prefix "/docs" (Request.path request)
     || String.prefix "/openapi" (Request.path request)
  then (CallNext, buckets)
  else
    let identifier := identifier request in
    let window := Settings.rate_limit_window_seconds settings in
    let '(stored, buckets) := getitem buckets identifier in
    let hits :=
      filter (fun hit => float_lt_int (SFsub prec emax now hit) window) stored in
    if Z.of_nat (List.length hits) >=? Settings.rate_limit_requests settings
    then (TooManyRequests, buckets)
    else (CallNext, setitem buckets identifier (hits ++ [now])).

(** The buckets after a sequence of requests. *)
Fixpoint limited (settings : Settings.t) (requests : list (float * Request.t))
    (buckets : rate_buckets) : rate_buckets :=
  match requests with
  | [] => buckets
  | (now, request) :: requests' =>
      limited settings requests' (snd (rate_limit_middleware settings now request buckets))
  end.

(** The verdicts on a sequence of requests. *)
Fixpoint verdicts (settings : Settings.t) (requests : list (float * Request.t))
    (buckets : rate_buckets) : list verdict :=
  match requests with
  | [] => []
  | (now, request) :: requests' =>
      fst (rate_limit_middleware settings now request buckets)
      :: verdicts settings requests' (snd (rate_limit_middleware settings now request buckets))
  end.

(** The paths line 39 lets through unlimited. *)
Definition exempt (request : Request.t) : bool :=
  String.prefix "/docs" (Request.path request)
  || String.prefix "/openapi" (Request.path request).

(** Line 45: the test a recorded hit passes to stay in the window. *)
Definition in_window (settings : Settings.t) (now hit : float) : bool :=
  float_lt_int (SFsub prec emax now hit) (Settings.rate_limit_window_seconds settings).

(** Request times that fall within one window: each passes that test
    against every time before it. *)
Fixpoint one_window (settings : Settings.t) (earlier times : list float) : Prop :=
  match times with
  | [] => True
  | now :: times' =>
      Forall (fun hit => in_window settings now hit = true) earlier
      /\ one_window settings (earlier ++ [now]) times'
  end.

(** The hits recorded for an identifier. *)
Definition hits_of (buckets : rate_buckets) (identifier : string) : list float :=
  default (bucket buckets identifier) [].




(** ** Stand-ins for the security interface and a sample request

    An instance of the interface to evaluate the handlers with: the hash of
    a password is the password behind its salt, a token is its subject. *)
Definition plain_security : Security.t :=
  Security.mk
    (fun salt password => (salt ++ "$" ++ password)%string)
    (fun password hashed => contains ("$" ++ password)%string hashed)
    (fun _ subject _ => subject)
    (fun _ token => if String.eqb token "" then Raise (ValueError "Not enough segments")
                    else Ok [("sub", JStr token)]).

Definition register_ops : request :=
  PostRegister (UserCreate.mk "ops@example.com" (Some "Ops User") "s3cret").

Definition login_ops : LoginRequest.t :=
  LoginRequest.mk "ops@example.com" "s3cret" "AA:BB:CC:DD:EE:FF" "Desktop-01" "windows-pc".

(** [2.0] and [3.0], and the limiter set to two requests a minute. *)
Definition two : float := S754_finite false 4503599627370496 (-51).
Definition three : float := S754_finite false 6755399441055744 (-51).

Definition two_a_minute : Settings.t := Settings.mk 2 60 None None.

Definition get_health : Request.t :=
  Request.mk "/api/health" (Some "203.0.113.7") (Some "127.0.0.1").

Definition env0 : Env.t :=
  Env.mk (mkDatetime 2024 5 20 10 45 0 0 None) t1 "0f1e2d3c4b5a69788796a5b4c3d2e1f0" "salt".

(** * Properties *)

Lemma find_none_intro {T} (p : T -> bool) (rows : list T) :
  (forall r, In r rows -> p r = false) -> find p rows = None.
Proof.
  induction rows as [|r rows IH]; intros H; [reflexivity|].
  simpl. rewrite (H r (or_introl eq_refl)). apply IH.
  intros r' Hin. apply H. now right.
Qed.

(** ** C1: the ownership gate *)

Lemma In_mac_unique_owner (rows : list Machine.t) (m m' : Machine.t) :
  NoDup (map Machine.mac_address rows) ->
  In m rows -> In m' rows ->
  Machine.mac_address m = Machine.mac_address m' -> m = m'.
Proof.
  induction rows as [|r rows IH]; simpl; [tauto|].
  intros Hnd Hm Hm' Hmac. inversion Hnd as [|x l Hnotin Hnd']; subst.
  destruct Hm as [->|Hm], Hm' as [->|Hm'].
  - reflexivity.
  - exfalso. apply Hnotin. rewrite Hmac. now apply in_map.
  - exfalso. apply Hnotin. rewrite <- Hmac. now apply in_map.
  - now apply IH.
Qed.

(** C1. For every user [u] and MAC address [m], the ownership gate fails with
    the same exception, [HTTPException(404, "Machine not found")], when no
    machine has MAC [m] and when the machine with MAC [m] belongs to a user
    other than [u]; it leaves the database as it was. *)
Theorem ensure_machine_ownership_not_found
    (m : string) (u : User.t) (session : Session) :
  (forall r, In r (machines session) -> Machine.mac_address r <> m)
  \/ (mac_unique session /\
      exists r, In r (machines session) /\ Machine.mac_address r = m
                /\ Machine.owner_id r <> User.id u) ->
  ensure_machine_ownership m u session
    = (Raise (Http (mkHTTP 404 "Machine not found")), session).
Proof.
  intros H. unfold ensure_machine_ownership. unfold_M. unfold scalar.
  match goal with |- context [find ?p ?l] => assert (Hnone : find p l = None) end.
  { apply find_none_intro. intros r Hin.
    destruct (String.eqb_spec (Machine.mac_address r) m) as [Hmac|Hmac]; [|reflexivity].
    destruct H as [Habs | [Huniq (r' & Hin' & Hmac' & Hown)]].
    - exfalso. exact (Habs r Hin Hmac).
    - assert (r = r') by (eapply In_mac_unique_owner; eauto; congruence). subst r'.
      simpl. apply Z.eqb_neq. assumption. }
  rewrite Hnone. reflexivity.
Qed.

Lemma ensure_machine_ownership_not_found_witness :
  (mac_unique session0
   /\ exists r, In r (machines session0)
               /\ Machine.mac_address r = "AA:BB:CC:DD:EE:FF"
               /\ Machine.owner_id r <> User.id eve)
  /\ ensure_machine_ownership "AA:BB:CC:DD:EE:FF" eve session0
     = (Raise (Http (mkHTTP 404 "Machine not found")), session0)
  /\ ensure_machine_ownership "11:22:33:44:55:66" eve session0
     = (Raise (Http (mkHTTP 404 "Machine not found")), session0).
Proof.
  assert (H : mac_unique session0
              /\ exists r, In r (machines session0)
                          /\ Machine.mac_address r = "AA:BB:CC:DD:EE:FF"
                          /\ Machine.owner_id r <> User.id eve).
  { split.
    - unfold mac_unique. simpl. constructor; [intros [] | constructor].
    - exists desktop. simpl. repeat split; [now left | lia]. }
  split; [exact H|]. split.
  - apply ensure_machine_ownership_not_found. right. exact H.
  - apply ensure_machine_ownership_not_found. left.
    intros r [<-|[]]. simpl. apply String.eqb_neq. reflexivity.
Defined.

(** The gate is not shut for everyone: the owner gets the machine. *)
Lemma ensure_machine_ownership_owner (r : Machine.t) (u : User.t) (session : Session) :
  mac_unique session -> In r (machines session) -> Machine.owner_id r = User.id u ->
  ensure_machine_ownership (Machine.mac_address r) u session = (Ok r, session).
Proof.
  intros Huniq Hin Hown. unfold ensure_machine_ownership. unfold_M. unfold scalar.
  destruct (find _ (machines session)) as [r'|] eqn:Hfind.
  - apply find_some in Hfind as [Hin' Hp]. apply andb_true_iff in Hp as [Hmac _].
    apply String.eqb_eq in Hmac.
    now rewrite (In_mac_unique_owner _ _ _ Huniq Hin' Hin Hmac).
  - apply find_none with (x := r) in Hfind; [|assumption].
    rewrite String.eqb_refl, Hown, Z.eqb_refl in Hfind. discriminate.
Qed.

(** ** C2, C5: the machine registry *)

Lemma find_mac_unique (rows : list Machine.t) (r : Machine.t) :
  NoDup (map Machine.mac_address rows) -> In r rows ->
  find (fun m => String.eqb (Machine.mac_address m) (Machine.mac_address r)) rows
    = Some r.
Proof.
  intros Hnd Hin.
  destruct (find _ rows) as [r'|] eqn:Hfind.
  - apply find_some in Hfind as [Hin' Heq]. apply String.eqb_eq in Heq.
    f_equal. eapply In_mac_unique_owner; eauto.
  - apply find_none with (x := r) in Hfind; [|assumption].
    rewrite String.eqb_refl in Hfind. discriminate.
Qed.

(** C2. In every state where the machine with MAC [m] belongs to user [a], a
    call by any other user [b] raises
    [HTTPException(400, "Machine belongs to another user")] and the database,
    hence the stored machine's name, type and owner, is unchanged. *)
Theorem get_or_create_machine_conflict
    (now : datetime) (session : Session) (a b : User.t) (r : Machine.t)
    (name machine_type : string) :
  mac_unique session ->
  In r (machines session) ->
  Machine.owner_id r = User.id a ->
  User.id b <> User.id a ->
  _get_or_create_machine now b (Machine.mac_address r) name machine_type session
    = (Raise (Http (mkHTTP 400 "Machine belongs to another user")), session).
Proof.
  intros Huniq Hin Hown Hneq.
  unfold _get_or_create_machine. unfold_M. unfold scalar.
  rewrite (find_mac_unique _ _ Huniq Hin).
  rewrite Hown.
  destruct (Z.eqb_spec (User.id a) (User.id b)) as [E|E]; [congruence|].
  reflexivity.
Qed.

Lemma get_or_create_machine_conflict_witness :
  mac_unique session0
  /\ In desktop (machines session0)
  /\ Machine.owner_id desktop = User.id ops
  /\ User.id eve <> User.id ops
  /\ _get_or_create_machine t1 eve "AA:BB:CC:DD:EE:FF" "Laptop" "server" session0
     = (Raise (Http (mkHTTP 400 "Machine belongs to another user")), session0).
Proof.
  assert (Hu : mac_unique session0).
  { unfold mac_unique. simpl. constructor; [intros [] | constructor]. }
  assert (Hin : In desktop (machines session0)) by (simpl; now left).
  assert (Hneq : User.id eve <> User.id ops) by (simpl; lia).
  split; [exact Hu|]. split; [exact Hin|]. split; [reflexivity|]. split; [exact Hneq|].
  exact (get_or_create_machine_conflict t1 session0 ops eve desktop "Laptop" "server"
           Hu Hin eq_refl Hneq).
Defined.

Lemma find_update_machine (p : Machine.t -> bool) (m m' : Machine.t) rows :
  find p rows = Some m -> p m' = true -> Machine.id m' = Machine.id m ->
  find p (update_machine m' rows) = Some m'.
Proof.
  intros Hfind Hp Hid. induction rows as [|r rows IH]; [discriminate|].
  simpl in *. destruct (Z.eqb_spec (Machine.id r) (Machine.id m')) as [E|E].
  - now rewrite Hp.
  - destruct (p r) eqn:Epr.
    + injection Hfind as ->. congruence.
    + now apply IH.
Qed.

Lemma find_app_new {T} (p : T -> bool) (rows : list T) (x : T) :
  find p rows = None -> p x = true -> find p (rows ++ [x]) = Some x.
Proof.
  intros Hnone Hp. induction rows as [|r rows IH]; simpl in *.
  - now rewrite Hp.
  - destruct (p r); [discriminate|]. now apply IH.
Qed.

(** C5. A second call with the inputs of a first successful call returns the
    same machine row (same id, same [updated_at]) and commits nothing: the
    database after it is the database before it, whatever the clock shows. *)
Theorem get_or_create_machine_idempotent
    (now now' : datetime) (user : User.t) (mac_address name machine_type : string)
    (session session1 : Session) (machine : Machine.t) :
  _get_or_create_machine now user mac_address name machine_type session
    = (Ok machine, session1) ->
  _get_or_create_machine now' user mac_address name machine_type session1
    = (Ok machine, session1).
Proof.
  unfold _get_or_create_machine. unfold_M. unfold scalar.
  destruct (find _ (machines session)) as [m0|] eqn:Hfind.
  - destruct (Z.eqb_spec (Machine.owner_id m0) (User.id user)) as [Hown|Hown];
      simpl; [|discriminate].
    pose proof (find_some _ _ Hfind) as [_ Hmac].
    destruct (option_string_eqb (Machine.name m0) (Some name)) eqn:Hname; simpl;
      destruct (String.eqb (Machine.type m0) machine_type) eqn:Hty; simpl;
      intros H; injection H as <- <-.
    + (* nothing to update: the first call committed nothing either *)
      rewrite Hfind.
      destruct (Z.eqb_spec (Machine.owner_id m0) (User.id user)); [|contradiction].
      simpl. rewrite Hname. simpl. rewrite Hty. reflexivity.
    + simpl. erewrite find_update_machine; eauto. simpl.
      destruct (Z.eqb_spec (Machine.owner_id m0) (User.id user)); [|contradiction].
      simpl. rewrite Hname. simpl. rewrite String.eqb_refl. reflexivity.
    + simpl. erewrite find_update_machine; eauto. simpl.
      destruct (Z.eqb_spec (Machine.owner_id m0) (User.id user)); [|contradiction].
      simpl. rewrite String.eqb_refl. simpl. rewrite Hty. reflexivity.
    + simpl. erewrite find_update_machine; eauto. simpl.
      destruct (Z.eqb_spec (Machine.owner_id m0) (User.id user)); [|contradiction].
      simpl. rewrite String.eqb_refl. simpl. rewrite String.eqb_refl. reflexivity.
  - intros H; injection H as <- <-. simpl.
    erewrite find_app_new; eauto; [|simpl; apply String.eqb_refl].
    simpl. rewrite Z.eqb_refl. simpl. rewrite String.eqb_refl. simpl.
    rewrite String.eqb_refl. reflexivity.
Qed.

Lemma get_or_create_machine_idempotent_witness :
  _get_or_create_machine t0 ops "AA:BB:CC:DD:EE:FF" "Desktop-01" "pc"
    (mkSession [ops; eve] [] [] []) = (Ok desktop, session0)
  /\ _get_or_create_machine t1 ops "AA:BB:CC:DD:EE:FF" "Desktop-01" "pc" session0
     = (Ok desktop, session0).
Proof.
  split; [reflexivity|].
  apply (get_or_create_machine_idempotent t0 t1 ops "AA:BB:CC:DD:EE:FF" "Desktop-01" "pc"
           (mkSession [ops; eve] [] [] [])).
  reflexivity.
Defined.

(** ** C10, C4: [update_machine_status] *)

(** The MAC of a submission whose [machine_info] is missing or is an object:
    the nested [mac] when it is truthy, the top-level [mac_address]
    otherwise. *)
Lemma payload_mac_nested_then_top_level (data : dict) :
  (lookup data "machine_info" = None
   \/ exists info, lookup data "machine_info" = Some (JDict info)) ->
  payload_mac data =
  Ok (let nested :=
        match lookup data "machine_info" with
        | Some (JDict info) => dict_get info "mac"
        | _ => JNull
        end in
      if truthy nested then nested else dict_get data "mac_address").
Proof.
  intros [H | [info H]]; unfold payload_mac, dict_get_default; rewrite H; reflexivity.
Qed.

(** A submission from which no truthy MAC is derived is refused with
    [HTTPException(400, "MAC address missing in payload")] before the gate
    runs, and nothing is stored. *)
Lemma update_machine_status_mac_missing
    (utcnow now : datetime) (uuid4_hex : string) (data : dict) (user : User.t)
    (session : Session) (mac : JSON) :
  payload_mac data = Ok mac -> truthy mac = false ->
  update_machine_status utcnow now uuid4_hex data user session
    = (Raise (Http (mkHTTP 400 "MAC address missing in payload")), session).
Proof.
  intros Hmac Hfalsy. unfold update_machine_status. unfold_M.
  rewrite Hmac, Hfalsy. reflexivity.
Qed.

(** C10 at [{"machine_info": null, "mac_address": "AA:BB:CC:DD:EE:FF"}], sent
    by the owner of that machine: the nested MAC is absent and the top-level
    one is present, yet the request ends in an [AttributeError] (status 500)
    instead of falling back; nothing is stored. *)
Theorem update_machine_status_machine_info_null :
  let data := [("machine_info", JNull); ("mac_address", JStr "AA:BB:CC:DD:EE:FF")] in
  exists e,
    update_machine_status t1 t1 "0f1e2d3c4b5a69788796a5b4c3d2e1f0" data ops session0
      = (Raise e, session0)
    /\ e = AttributeError "'NoneType' object has no attribute 'get'"
    /\ response_status e = 500.
Proof.
  eexists. split; [reflexivity | split; reflexivity].
Qed.

(** A timestamp that is not a string (or is missing) is replaced by the
    current UTC time. *)
Lemma payload_timestamp_not_str (utcnow : datetime) (data : dict) :
  (forall s, dict_get data "timestamp" <> JStr s) ->
  payload_timestamp utcnow data = Ok (replace_tzinfo utcnow utc).
Proof.
  intros H. unfold payload_timestamp.
  destruct (dict_get data "timestamp"); try reflexivity.
  exfalso. now eapply H.
Qed.

Lemma digit_of_digit_char (k : Z) : 0 <= k <= 9 -> digit_of (digit_char k) = Some k.
Proof.
  intros H.
  assert (E : k = 0 \/ k = 1 \/ k = 2 \/ k = 3 \/ k = 4 \/ k = 5 \/ k = 6 \/ k = 7
              \/ k = 8 \/ k = 9) by lia.
  repeat (destruct E as [->|E]; [reflexivity|]). now subst.
Qed.

Lemma digit_char_plain (k : Z) (c : ascii) :
  0 <= k <= 9 -> digit_of c = None -> Ascii.eqb (digit_char k) c = false.
Proof.
  intros H Hc. destruct (Ascii.eqb_spec (digit_char k) c) as [<-|]; [|reflexivity].
  rewrite digit_of_digit_char in Hc by assumption. discriminate.
Qed.

Lemma parse_two_digits (n : Z) (rest : string) :
  0 <= n < 100 -> parse_digits 2 0 (two_digits n rest) = Some (n, rest).
Proof.
  intros H. unfold two_digits. cbn [parse_digits].
  rewrite !digit_of_digit_char by div_lia. do 2 f_equal. div_lia.
Qed.

Lemma parse_four_digits (n : Z) (rest : string) :
  0 <= n < 10000 -> parse_digits 4 0 (four_digits n rest) = Some (n, rest).
Proof.
  intros H. unfold four_digits. cbn [parse_digits].
  rewrite !digit_of_digit_char by div_lia. do 2 f_equal. div_lia.
Qed.

Lemma replace_two_digits (n : Z) (rest : string) :
  0 <= n < 100 ->
  replace "Z" "+00:00" (two_digits n rest) = two_digits n (replace "Z" "+00:00" rest).
Proof.
  intros H. unfold two_digits. cbn [replace].
  rewrite !digit_char_plain by (div_lia || reflexivity). reflexivity.
Qed.

Lemma replace_four_digits (n : Z) (rest : string) :
  0 <= n < 10000 ->
  replace "Z" "+00:00" (four_digits n rest) = four_digits n (replace "Z" "+00:00" rest).
Proof.
  intros H. unfold four_digits. cbn [replace].
  rewrite !digit_char_plain by (div_lia || reflexivity). reflexivity.
Qed.

Lemma split_offset_two_digits (n : Z) (rest : string) :
  0 <= n < 100 ->
  split_offset (two_digits n rest)
  = (two_digits n (fst (split_offset rest)), snd (split_offset rest)).
Proof.
  intros H. unfold two_digits. cbn [split_offset].
  rewrite !digit_char_plain by (div_lia || reflexivity).
  now destruct (split_offset rest).
Qed.

Lemma valid_datetime_bounds (y mo d h mi sec us : Z) (tz : option Z) :
  valid_datetime (mkDatetime y mo d h mi sec us tz) = true ->
  1 <= y <= 9999 /\ 1 <= mo <= 12 /\ 1 <= d <= 31
  /\ 0 <= h <= 23 /\ 0 <= mi <= 59 /\ 0 <= sec <= 59.
Proof.
  unfold valid_datetime. cbn [year month day hour minute second microsecond tzinfo].
  rewrite !andb_true_iff, !Z.leb_le. intros H.
  assert (days_in_month y mo <= 31).
  { unfold days_in_month.
    repeat match goal with |- context [if ?b then _ else _] => destruct b end; lia. }
  lia.
Qed.

Lemma parse_hh_mm_ss (h mi sec : Z) :
  0 <= h < 100 -> 0 <= mi < 100 -> 0 <= sec < 100 ->
  parse_hh_mm_ss_ff
    (two_digits h (String ":" (two_digits mi (String ":" (two_digits sec ""))))%char)
  = Some (h, mi, sec, 0).
Proof.
  intros Hh Hmi Hsec. unfold parse_hh_mm_ss_ff.
  rewrite parse_two_digits by assumption. cbn [Ascii.eqb Bool.eqb negb].
  rewrite parse_two_digits by assumption. cbn [Ascii.eqb Bool.eqb negb].
  rewrite parse_two_digits by assumption. reflexivity.
Qed.

(** Parsing undoes printing: a timestamp printed to the second and given the
    offset [+00:00] is read back with the same fields, in UTC. *)
Lemma fromisoformat_isoformat_utc (y mo d h mi sec : Z) :
  valid_datetime (mkDatetime y mo d h mi sec 0 utc) = true ->
  fromisoformat (isoformat_seconds y mo d h mi sec "+00:00")
  = Ok (mkDatetime y mo d h mi sec 0 utc).
Proof.
  intros Hvalid.
  pose proof (valid_datetime_bounds _ _ _ _ _ _ _ _ Hvalid) as (Hy & Hmo & Hd & Hh & Hmi & Hs).
  unfold fromisoformat, isoformat_seconds, parse_isoformat_date.
  rewrite parse_four_digits by lia. cbn [Ascii.eqb Bool.eqb negb].
  rewrite parse_two_digits by lia. cbn [Ascii.eqb Bool.eqb negb].
  rewrite parse_two_digits by lia.
  unfold parse_isoformat_time.
  rewrite split_offset_two_digits by lia. cbn [split_offset Ascii.eqb Bool.eqb].
  rewrite split_offset_two_digits by lia. cbn [split_offset Ascii.eqb Bool.eqb].
  rewrite split_offset_two_digits by lia. cbn [split_offset Ascii.eqb Bool.eqb fst snd].
  rewrite parse_hh_mm_ss by lia.
  change (valid_datetime (mkDatetime y mo d h mi sec 0 utc)) with
    (valid_datetime (mkDatetime y mo d h mi sec 0 (Some 0))) in Hvalid.
  cbn. now rewrite Hvalid.
Qed.

Lemma replace_isoformat_Z (y mo d h mi sec : Z) :
  1 <= y <= 9999 /\ 1 <= mo <= 12 /\ 1 <= d <= 31
  /\ 0 <= h <= 23 /\ 0 <= mi <= 59 /\ 0 <= sec <= 59 ->
  replace "Z" "+00:00" (isoformat_seconds y mo d h mi sec "Z")
  = isoformat_seconds y mo d h mi sec "+00:00".
Proof.
  intros (Hy & Hmo & Hd & Hh & Hmi & Hs). unfold isoformat_seconds.
  rewrite replace_four_digits by lia. cbn [replace Ascii.eqb Bool.eqb].
  repeat (rewrite replace_two_digits by lia; cbn [replace Ascii.eqb Bool.eqb]).
  reflexivity.
Qed.

Lemma payload_timestamp_Z (utcnow : datetime) (data : dict) (y mo d h mi sec : Z) :
  dict_get data "timestamp" = JStr (isoformat_seconds y mo d h mi sec "Z") ->
  valid_datetime (mkDatetime y mo d h mi sec 0 utc) = true ->
  payload_timestamp utcnow data = Ok (mkDatetime y mo d h mi sec 0 utc).
Proof.
  intros Hts Hvalid. unfold payload_timestamp. rewrite Hts.
  rewrite replace_isoformat_Z by (eapply valid_datetime_bounds; eassumption).
  now apply fromisoformat_isoformat_utc.
Qed.

(** What a submission stores once its MAC and timestamp are settled: one new
    row holding the timestamp, the whole document and the fresh reference
    id, which the response repeats. *)
Lemma update_machine_status_stores
    (utcnow now : datetime) (uuid4_hex : string) (data : dict) (user : User.t)
    (session : Session) (mac : string) (machine : Machine.t) (timestamp : datetime) :
  payload_mac data = Ok (JStr mac) -> mac <> "" ->
  ensure_machine_ownership mac user session = (Ok machine, session) ->
  payload_timestamp utcnow data = Ok timestamp ->
  existsb (fun r => String.eqb (MonitoringData.reference_id r) uuid4_hex)
          (monitoring_data session) = false ->
  update_machine_status utcnow now uuid4_hex data user session
  = (Ok (StatusResponse.mk "success" uuid4_hex timestamp),
     with_monitoring_data
       (monitoring_data session
        ++ [MonitoringData.mk (next_id (map MonitoringData.id (monitoring_data session)))
                              (Machine.id machine) timestamp data uuid4_hex now now])
       session).
Proof.
  intros Hmac Hne Hgate Hts Hfresh. unfold update_machine_status.
  unfold bind at 1. unfold lift at 1. rewrite Hmac.
  cbn [truthy]. destruct (String.eqb_spec mac "") as [|_]; [contradiction|].
  cbn [negb as_text]. unfold bind at 1. unfold lift at 1.
  unfold bind at 1. rewrite Hgate.
  unfold bind at 1. unfold lift at 1. rewrite Hts.
  unfold_M. rewrite Hfresh. reflexivity.
Qed.

(** The first half of C4: a timestamp printed to the second with a ["Z"]
    suffix is stored with the same fields and the offset [+00:00]. *)
Lemma update_machine_status_Z_suffix
    (utcnow now : datetime) (uuid4_hex : string) (data : dict) (user : User.t)
    (session : Session) (mac : string) (machine : Machine.t) (y mo d h mi sec : Z) :
  payload_mac data = Ok (JStr mac) -> mac <> "" ->
  ensure_machine_ownership mac user session = (Ok machine, session) ->
  dict_get data "timestamp" = JStr (isoformat_seconds y mo d h mi sec "Z") ->
  valid_datetime (mkDatetime y mo d h mi sec 0 utc) = true ->
  existsb (fun r => String.eqb (MonitoringData.reference_id r) uuid4_hex)
          (monitoring_data session) = false ->
  exists record session',
    update_machine_status utcnow now uuid4_hex data user session
      = (Ok (StatusResponse.mk "success" uuid4_hex (mkDatetime y mo d h mi sec 0 (Some 0))),
         session')
    /\ monitoring_data session' = monitoring_data session ++ [record]
    /\ MonitoringData.timestamp record = mkDatetime y mo d h mi sec 0 (Some 0)
    /\ MonitoringData.machine_id record = Machine.id machine
    /\ MonitoringData.metrics record = data.
Proof.
  intros Hmac Hne Hgate Hts Hvalid Hfresh. do 2 eexists. split.
  - eapply update_machine_status_stores; eauto.
    eapply payload_timestamp_Z; eauto.
  - repeat split.
Qed.

(** The submission of [tests/test_api.py]: ["2024-05-20T10:33:00Z"] is stored
    as 2024-05-20T10:33:00+00:00. *)
Example update_machine_status_test_payload :
  isoformat_seconds 2024 5 20 10 33 0 "Z" = "2024-05-20T10:33:00Z"
  /\ update_machine_status t1 t1 "0f1e2d3c4b5a69788796a5b4c3d2e1f0" metric_payload ops
       session0
     = (Ok (StatusResponse.mk "success" "0f1e2d3c4b5a69788796a5b4c3d2e1f0"
              (mkDatetime 2024 5 20 10 33 0 0 (Some 0))), session1).
Proof. split; reflexivity. Qed.

(** The second half, where it holds: without a string under [timestamp] the
    record is stamped with the current UTC time. *)
Lemma update_machine_status_no_timestamp
    (utcnow now : datetime) (uuid4_hex : string) (data : dict) (user : User.t)
    (session : Session) (mac : string) (machine : Machine.t) :
  payload_mac data = Ok (JStr mac) -> mac <> "" ->
  ensure_machine_ownership mac user session = (Ok machine, session) ->
  (forall s, dict_get data "timestamp" <> JStr s) ->
  existsb (fun r => String.eqb (MonitoringData.reference_id r) uuid4_hex)
          (monitoring_data session) = false ->
  exists session',
    update_machine_status utcnow now uuid4_hex data user session
      = (Ok (StatusResponse.mk "success" uuid4_hex (replace_tzinfo utcnow utc)), session').
Proof.
  intros Hmac Hne Hgate Hts Hfresh. eexists.
  eapply update_machine_status_stores; eauto.
  now apply payload_timestamp_not_str.
Qed.


(** C4 at a submission of the machine's owner whose timestamp is the string
    ["yesterday"]: it carries no parseable timestamp, yet the record is not
    stamped with the current UTC time; the request ends in a [ValueError]
    (status 500) and no record is stored. *)
Theorem update_machine_status_unparseable_timestamp :
  let data := [("mac_address", JStr "AA:BB:CC:DD:EE:FF"); ("timestamp", JStr "yesterday")] in
  exists e,
    update_machine_status t1 t1 "0f1e2d3c4b5a69788796a5b4c3d2e1f0" data ops session0
      = (Raise e, session0)
    /\ e = ValueError "Invalid isoformat string"
    /\ response_status e = 500
    /\ monitoring_data session0 = [].
Proof.
  eexists. repeat split; reflexivity.
Qed.

(** ** C6, C9: which value a record contributes *)

Lemma probe_first_numeric_field (value : dict) (values : list float) :
  probe value candidates values =
  match first_numeric_field value with
  | Some candidate => let? x := float_of (dict_get value candidate) in Ok (values ++ [x])
  | None => Ok values
  end.
Proof.
  unfold candidates, first_numeric_field. simpl.
  destruct (is_int_or_float (dict_get value "usage")); [reflexivity|].
  destruct (is_int_or_float (dict_get value "percent")); [reflexivity|].
  destruct (is_int_or_float (dict_get value "value")); reflexivity.
Qed.

Lemma record_values_selected (key : string) (record : MonitoringData.t)
    (values : list float) :
  record_values key record values =
  match selected key (MonitoringData.metrics record) with
  | Some v => let? x := float_of v in Ok (values ++ [x])
  | None => Ok values
  end.
Proof.
  unfold record_values, selected.
  destruct (is_int_or_float (dict_get (MonitoringData.metrics record) key)); [reflexivity|].
  destruct (dict_get (MonitoringData.metrics record) key); try reflexivity.
  rewrite probe_first_numeric_field. destruct (first_numeric_field d); reflexivity.
Qed.

(** The selection rule of C6, as far as [float] succeeds.  From one record and
    one key the loop body appends at most one value.  A value that is a
    number is the one appended, through [float]; a nested document
    contributes its first numeric field among [usage], [percent], [value] and
    no other; any other value, or a nested document without such a field,
    leaves the list as it is, without an error.  A document with
    [disk = {percent: 10, usage: 20}] contributes [20.0] for [disk]. *)
Lemma record_values_selects_one
    (key : string) (record : MonitoringData.t) (values : list float) :
  let value := dict_get (MonitoringData.metrics record) key in
  (is_int_or_float value = true ->
   record_values key record values = (let? x := float_of value in Ok (values ++ [x])))
  /\ (forall nested, value = JDict nested ->
      record_values key record values =
      match first_numeric_field nested with
      | Some candidate =>
          let? x := float_of (dict_get nested candidate) in Ok (values ++ [x])
      | None => Ok values
      end)
  /\ (is_int_or_float value = false -> (forall nested, value <> JDict nested) ->
      record_values key record values = Ok values)
  /\ (forall values', record_values key record values = Ok values' ->
      exists picked, values' = values ++ picked /\ (List.length picked <= 1)%nat)
  /\ (MonitoringData.metrics record
        = [("disk", JDict [("percent", JInt 10); ("usage", JInt 20)])] ->
      record_values "disk" record values = Ok (values ++ [float_of_Z 20])).
Proof.
  cbv zeta. repeat split.
  - intros Hnum. unfold record_values. now rewrite Hnum.
  - intros nested Hval. unfold record_values. rewrite Hval. simpl.
    apply probe_first_numeric_field.
  - intros Hnum Hnot. unfold record_values. rewrite Hnum.
    destruct (dict_get (MonitoringData.metrics record) key); try reflexivity.
    exfalso. now eapply Hnot.
  - intros values'. rewrite record_values_selected.
    destruct (selected key (MonitoringData.metrics record)) as [v|].
    + destruct (float_of v) as [x|e]; simpl; [|discriminate].
      intros H; injection H as <-. exists [x]. split; [reflexivity | simpl; lia].
    + intros H; injection H as <-. exists []. split; [now rewrite app_nil_r | simpl; lia].
  - intros Hdoc. unfold record_values. rewrite Hdoc. reflexivity.
Qed.

(** [float] never fails on a boolean or on a float, nor on an integer it can
    hold. *)
Lemma float_of_returns (value : JSON) :
  is_int_or_float value = true ->
  (forall z, value = JInt z -> forall s, float_of_Z z <> S754_infinity s) ->
  exists x, float_of value = Ok x.
Proof.
  destruct value; try discriminate; intros _ Hint; simpl; eauto.
  specialize (Hint z eq_refl).
  destruct (float_of_Z z) eqn:E; eauto. now destruct (Hint s).
Qed.

Example record_values_test_document :
  record_values "disk" metric_record [] = Ok [f73_9]
  /\ record_values "cpu" metric_record [] = Ok [f52_3]
  /\ record_values "timestamp" metric_record [] = Ok []
  /\ record_values "gpu" metric_record [] = Ok [].
Proof. repeat split. Qed.

(** C6 at a record whose [cpu] is the integer [2 ** 1024]: the value is a
    numeric scalar, yet it is not included; [float] raises [OverflowError],
    the loop body with it, and the aggregation of the machine's records ends
    in status 500. *)
Theorem record_values_int_out_of_range :
  is_int_or_float (dict_get (MonitoringData.metrics huge_record) "cpu") = true
  /\ record_values "cpu" huge_record [f52_3]
     = Raise (OverflowError "int too large to convert to float")
  /\ exists e,
       aggregate_metrics "AA:BB:CC:DD:EE:FF" ["cpu"] ops session2 = (Raise e, session2)
       /\ e = OverflowError "int too large to convert to float"
       /\ response_status e = 500.
Proof.
  split; [reflexivity|]. split; [reflexivity|].
  eexists. repeat split; reflexivity.
Qed.



(** ** C7: keys without values *)

Lemma aggregate_spec (records : list MonitoringData.t) (metric_keys : list string) :
  forall aggregates result,
    aggregate metric_keys records aggregates = Ok result ->
    exists summaries,
      result = aggregates ++ summaries
      /\ Forall2 (fun key a => exists values,
                    collect key records [] = Ok values /\ a = summarize key values)
                 metric_keys summaries.
Proof.
  induction metric_keys as [|key keys IH]; simpl; intros aggregates result H.
  - injection H as <-. exists []. split; [now rewrite app_nil_r | constructor].
  - destruct (collect key records []) as [values|e] eqn:Hcollect; simpl in H; [|discriminate].
    apply IH in H as (summaries & -> & Hall).
    exists (summarize key values :: summaries). split.
    + now rewrite <- app_assoc.
    + constructor; [|assumption]. now exists values.
Qed.

Lemma aggregate_returns (records : list MonitoringData.t) (metric_keys : list string) :
  (forall key, In key metric_keys -> exists values, collect key records [] = Ok values) ->
  forall aggregates, exists result, aggregate metric_keys records aggregates = Ok result.
Proof.
  induction metric_keys as [|key keys IH]; simpl; intros Hall aggregates.
  - now eexists.
  - destruct (Hall key (or_introl eq_refl)) as [values ->]. simpl.
    apply IH. intros k Hk. apply Hall. now right.
Qed.

(** A collection fails only where [float] does. *)
Lemma collect_returns (key : string) (records : list MonitoringData.t) :
  (forall record v,
     In record records -> selected key (MonitoringData.metrics record) = Some v ->
     exists x, float_of v = Ok x) ->
  forall values, exists values', collect key records values = Ok values'.
Proof.
  induction records as [|record records IH]; simpl; intros Hconv values.
  - now eexists.
  - rewrite record_values_selected.
    destruct (selected key (MonitoringData.metrics record)) as [v|] eqn:Hsel.
    + destruct (Hconv record v (or_introl eq_refl) Hsel) as [x ->]. simpl.
      apply IH. intros r w Hr. apply Hconv. now right.
    + simpl. apply IH. intros r w Hr. apply Hconv. now right.
Qed.

Lemma summarize_metric (key : string) (values : list float) :
  MetricsAggregate.metric (summarize key values) = key.
Proof. now destruct values. Qed.

(** Whenever the aggregate of a machine's records is returned, it holds one
    entry per requested key, in the order requested, and the entry of a key
    for which no record contributed a value reports no minimum, no maximum
    and no average; the database is not written. *)
Theorem aggregate_metrics_empty_key
    (mac : string) (metric_keys : list string) (user : User.t)
    (session session' : Session) (result : list MetricsAggregate.t) :
  aggregate_metrics mac metric_keys user session = (Ok result, session') ->
  exists machine,
    ensure_machine_ownership mac user session = (Ok machine, session)
    /\ session' = session
    /\ map MetricsAggregate.metric result = metric_keys
    /\ forall (i : nat) (key : string),
         nth_error metric_keys i = Some key ->
         collect key
           (filter (fun r => MonitoringData.machine_id r =? Machine.id machine)
                   (monitoring_data session)) [] = Ok [] ->
         nth_error result i = Some (MetricsAggregate.mk key None None None).
Proof.
  unfold aggregate_metrics, ensure_machine_ownership. unfold_M.
  destruct (scalar _ (machines session)) as [machine|]; [|discriminate].
  destruct (aggregate metric_keys _ []) as [r|e] eqn:Hagg; [|discriminate].
  intros H; injection H as <- <-.
  apply aggregate_spec in Hagg as (summaries & -> & Hall). simpl.
  exists machine. repeat split.
  - clear -Hall. induction Hall as [|key a keys summaries (values & _ & ->) _ IH]; simpl.
    + reflexivity.
    + now rewrite summarize_metric, IH.
  - revert Hall. generalize summaries as l. clear.
    induction metric_keys as [|k keys IH]; intros l Hall i key Hnth Hempty.
    + destruct i; discriminate.
    + inversion Hall as [|? a ? l' (values & Hvalues & ->) Hall']; subst.
      destruct i as [|i]; simpl in *.
      * injection Hnth as ->. rewrite Hempty in Hvalues. now injection Hvalues as <-.
      * now apply (IH l' Hall' i key).
Qed.

Lemma aggregate_metrics_empty_key_witness :
  aggregate_metrics "AA:BB:CC:DD:EE:FF" ["cpu"; "gpu"; "disk"] ops session1
    = (Ok [MetricsAggregate.mk "cpu" (Some f52_3) (Some f52_3) (Some f52_3);
           MetricsAggregate.mk "gpu" None None None;
           MetricsAggregate.mk "disk" (Some f73_9) (Some f73_9) (Some f73_9)],
       session1)
  /\ collect "gpu" [metric_record] [] = Ok []
  /\ exists machine,
       ensure_machine_ownership "AA:BB:CC:DD:EE:FF" ops session1 = (Ok machine, session1)
       /\ forall (i : nat) (key : string),
            nth_error ["cpu"; "gpu"; "disk"] i = Some key ->
            collect key
              (filter (fun r => MonitoringData.machine_id r =? Machine.id machine)
                      (monitoring_data session1)) [] = Ok [] ->
            nth_error [MetricsAggregate.mk "cpu" (Some f52_3) (Some f52_3) (Some f52_3);
                       MetricsAggregate.mk "gpu" None None None;
                       MetricsAggregate.mk "disk" (Some f73_9) (Some f73_9) (Some f73_9)] i
            = Some (MetricsAggregate.mk key None None None).
Proof.
  split; [reflexivity|]. split; [reflexivity|].
  destruct (aggregate_metrics_empty_key "AA:BB:CC:DD:EE:FF" ["cpu"; "gpu"; "disk"] ops
              session1 session1 _ eq_refl) as (machine & Hgate & _ & _ & Hempty).
  exists machine. split; assumption.
Defined.

(** The aggregate is returned whenever [float] accepts every value the
    records of the machine select for a requested key; it then has the
    entries above. *)
Lemma aggregate_metrics_returns
    (mac : string) (metric_keys : list string) (user : User.t) (session : Session)
    (machine : Machine.t) :
  ensure_machine_ownership mac user session = (Ok machine, session) ->
  let records :=
    filter (fun r => MonitoringData.machine_id r =? Machine.id machine)
           (monitoring_data session) in
  (forall key record v,
     In key metric_keys -> In record records ->
     selected key (MonitoringData.metrics record) = Some v ->
     exists x, float_of v = Ok x) ->
  exists result,
    aggregate_metrics mac metric_keys user session = (Ok result, session)
    /\ map MetricsAggregate.metric result = metric_keys
    /\ forall (i : nat) (key : string),
         nth_error metric_keys i = Some key ->
         collect key records [] = Ok [] ->
         nth_error result i = Some (MetricsAggregate.mk key None None None).
Proof.
  intros Hgate records Hconv.
  destruct (aggregate_returns records metric_keys) with (aggregates := @nil MetricsAggregate.t)
    as [result Hagg].
  { intros key Hkey. apply collect_returns. intros record v Hr Hs.
    now apply (Hconv key record v). }
  assert (aggregate_metrics mac metric_keys user session = (Ok result, session)) as Hcall.
  { unfold aggregate_metrics. unfold bind at 1. rewrite Hgate.
    unfold_M. fold records. now rewrite Hagg. }
  exists result. split; [exact Hcall|].
  destruct (aggregate_metrics_empty_key mac metric_keys user session session result Hcall)
    as (machine' & Hgate' & _ & Hkeys & Hempty).
  rewrite Hgate in Hgate'. injection Hgate' as <-.
  split; [exact Hkeys | exact Hempty].
Qed.

(** C7 at the request for the keys [gpu] and [cpu] by the owner of a machine
    one of whose records holds the integer [2 ** 1024] under [cpu]: no
    record holds anything under [gpu], so the value set of [gpu] is empty,
    and the request reports nothing for it.  The conversion of the [cpu]
    value raises [OverflowError] and the aggregation as a whole ends in an
    error, status 500, where the claim has an entry for [gpu] without
    minimum, maximum and average, and one entry per requested key. *)
Theorem aggregate_metrics_empty_key_error :
  let records :=
    filter (fun r => MonitoringData.machine_id r =? Machine.id desktop)
           (monitoring_data session2) in
  ensure_machine_ownership "AA:BB:CC:DD:EE:FF" ops session2 = (Ok desktop, session2)
  /\ collect "gpu" records [] = Ok []
  /\ exists e,
       aggregate_metrics "AA:BB:CC:DD:EE:FF" ["gpu"; "cpu"] ops session2
         = (Raise e, session2)
       /\ e = OverflowError "int too large to convert to float"
       /\ response_status e = 500.
Proof.
  split; [reflexivity|]. split; [reflexivity|].
  eexists. split; [vm_compute; reflexivity|]. split; reflexivity.
Qed.

(** The scenario of the test suite, with the default keys. *)
Example aggregate_metrics_test_scenario :
  aggregate_metrics "AA:BB:CC:DD:EE:FF" metric_keys_default ops session1
  = (Ok [MetricsAggregate.mk "cpu" (Some f52_3) (Some f52_3) (Some f52_3);
         MetricsAggregate.mk "memory" (Some f61_4) (Some f61_4) (Some f61_4);
         MetricsAggregate.mk "disk" (Some f73_9) (Some f73_9) (Some f73_9)],
     session1).
Proof. reflexivity. Qed.

(** ** C3: [list_machine_metrics] *)

Lemma insert_desc_perm (r : MonitoringData.t) (rows : list MonitoringData.t) :
  Permutation (insert_desc r rows) (r :: rows).
Proof.
  induction rows as [|x rows IH]; cbn [insert_desc]; [reflexivity|].
  destruct (_ <=? _); [reflexivity|].
  rewrite IH. apply perm_swap.
Qed.

Lemma order_by_timestamp_desc_perm (rows : list MonitoringData.t) :
  Permutation (order_by_timestamp_desc rows) rows.
Proof.
  induction rows as [|r rows IH]; simpl; [reflexivity|].
  rewrite insert_desc_perm. now constructor.
Qed.

Lemma insert_desc_sorted (r : MonitoringData.t) (rows : list MonitoringData.t) :
  StronglySorted newest_first rows -> StronglySorted newest_first (insert_desc r rows).
Proof.
  induction rows as [|x rows IH]; cbn [insert_desc]; intros Hs.
  - repeat constructor.
  - inversion Hs as [|? ? Hs' Hall]; subst.
    destruct (Z.leb_spec (timestamp_key x)
                         (timestamp_key r)) as [Hle|Hlt].
    + constructor; [assumption|]. constructor; [exact Hle|].
      eapply Forall_impl; [|exact Hall]. unfold newest_first. intros; lia.
    + constructor; [now apply IH|].
      eapply Permutation_Forall; [symmetry; apply insert_desc_perm|].
      constructor; [unfold newest_first; lia | assumption].
Qed.

Lemma order_by_timestamp_desc_sorted (rows : list MonitoringData.t) :
  StronglySorted newest_first (order_by_timestamp_desc rows).
Proof.
  induction rows as [|r rows IH]; simpl; [constructor | now apply insert_desc_sorted].
Qed.

Lemma firstn_sorted {T} (R : T -> T -> Prop) (n : nat) (l : list T) :
  StronglySorted R l -> StronglySorted R (firstn n l).
Proof.
  revert l. induction n as [|n IH]; intros [|x l] Hs; simpl; try constructor.
  - inversion Hs; subst. now apply IH.
  - inversion Hs as [|? ? _ Hall]; subst.
    rewrite Forall_forall in *. intros y Hy. apply Hall.
    rewrite <- (firstn_skipn n l). apply in_or_app. now left.
Qed.

(** The rows a query selects before ordering and limiting. *)
Lemma list_machine_metrics_rows
    (mac : string) (start end_ : option datetime) (limit : Z) (user : User.t)
    (session : Session) (machine : Machine.t) :
  ensure_machine_ownership mac user session = (Ok machine, session) ->
  limit <= 1000 ->
  list_machine_metrics mac start end_ limit user session =
  (Ok (map MonitoringDataRead.model_validate
         (sql_limit limit (order_by_timestamp_desc
            (filter (fun r =>
                 (MonitoringData.machine_id r =? Machine.id machine)
                 && match start with
                    | Some s => civil_microseconds s <=? timestamp_key r
                    | None => true
                    end
                 && match end_ with
                    | Some e => timestamp_key r <=? civil_microseconds e
                    | None => true
                    end)
               (monitoring_data session))))), session).
Proof.
  intros Hgate Hle. unfold list_machine_metrics, limit_le.
  destruct (Z.leb_spec limit 1000); [|lia]. simpl.
  unfold bind at 1. rewrite Hgate. unfold_M.
  do 3 f_equal. f_equal. f_equal.
  assert (Hff : forall (p q : MonitoringData.t -> bool) l,
             filter q (filter p l) = filter (fun r => p r && q r) l).
  { intros p q l. induction l as [|x l IH]; simpl; [reflexivity|].
    destruct (p x); simpl; [destruct (q x); now rewrite IH | apply IH]. }
  destruct start, end_; rewrite ?Hff; apply filter_ext; intros r;
    destruct (MonitoringData.machine_id r =? Machine.id machine);
    cbn [andb]; rewrite ?andb_true_r; reflexivity.
Qed.

(** What the claim says, for a limit between 0 and the ceiling: the rows
    returned belong to the machine, lie in the closed window, come newest
    first, and are at most [limit]. *)
Lemma list_machine_metrics_in_range
    (mac : string) (start end_ : option datetime) (limit : Z) (user : User.t)
    (session : Session) (machine : Machine.t) :
  ensure_machine_ownership mac user session = (Ok machine, session) ->
  0 <= limit <= 1000 ->
  exists rows,
    list_machine_metrics mac start end_ limit user session
      = (Ok (map MonitoringDataRead.model_validate rows), session)
    /\ Z.of_nat (List.length rows) <= limit
    /\ StronglySorted newest_first rows
    /\ forall r, In r rows ->
         In r (monitoring_data session)
         /\ MonitoringData.machine_id r = Machine.id machine
         /\ (forall s, start = Some s -> civil_microseconds s <= timestamp_key r)
         /\ (forall e, end_ = Some e -> timestamp_key r <= civil_microseconds e).
Proof.
  intros Hgate [H0 Hle]. eexists.
  split; [apply list_machine_metrics_rows; [eassumption | lia]|].
  unfold sql_limit. destruct (Z.ltb_spec limit 0); [lia|].
  split; [|split].
  - rewrite length_firstn. lia.
  - apply firstn_sorted, order_by_timestamp_desc_sorted.
  - intros r Hin.
    assert (Hin' : In r (order_by_timestamp_desc
                     (filter (fun r =>
                        (MonitoringData.machine_id r =? Machine.id machine)
                        && match start with
                           | Some s => civil_microseconds s <=? timestamp_key r
                           | None => true
                           end
                        && match end_ with
                           | Some e => timestamp_key r <=? civil_microseconds e
                           | None => true
                           end)
                      (monitoring_data session)))).
    { rewrite <- (firstn_skipn (Z.to_nat limit)). apply in_or_app. now left. }
    eapply Permutation_in in Hin'; [|apply order_by_timestamp_desc_perm].
    apply filter_In in Hin' as [Hmem Hp].
    apply andb_true_iff in Hp as [Hp He]. apply andb_true_iff in Hp as [Hm Hs].
    repeat split; [assumption | now apply Z.eqb_eq | |].
    + intros s ->. now apply Z.leb_le.
    + intros e ->. now apply Z.leb_le.
Qed.

(** A limit above the ceiling is rejected, before the gate runs. *)
Lemma list_machine_metrics_above_ceiling
    (mac : string) (start end_ : option datetime) (limit : Z) (user : User.t)
    (session : Session) :
  1000 < limit ->
  list_machine_metrics mac start end_ limit user session
    = (Raise (RequestValidationError "query.limit"), session).
Proof.
  intros H. unfold list_machine_metrics, limit_le.
  destruct (Z.leb_spec limit 1000); [lia | reflexivity].
Qed.

(** A negative limit passes the declared bound and lifts the limit: every
    row of the window is returned, however many there are. *)
Lemma list_machine_metrics_negative
    (mac : string) (limit : Z) (user : User.t) (session : Session) (machine : Machine.t) :
  ensure_machine_ownership mac user session = (Ok machine, session) ->
  limit < 0 ->
  exists rows,
    list_machine_metrics mac None None limit user session
      = (Ok (map MonitoringDataRead.model_validate rows), session)
    /\ Permutation rows
         (filter (fun r => MonitoringData.machine_id r =? Machine.id machine)
                 (monitoring_data session)).
Proof.
  intros Hgate Hneg. eexists. split.
  - apply list_machine_metrics_rows; [eassumption | lia].
  - unfold sql_limit. destruct (Z.ltb_spec limit 0); [|lia].
    rewrite order_by_timestamp_desc_perm.
    erewrite filter_ext; [reflexivity|]. intros r. simpl. now rewrite !andb_true_r.
Qed.

(** C3 at [limit = -1], asked by the owner of a machine with 1001 stored
    records: the request is accepted and answers all 1001 records, more than
    the limit asked for and more than the ceiling of 1000. *)
Theorem list_machine_metrics_negative_limit :
  match fst (list_machine_metrics "AA:BB:CC:DD:EE:FF" None None (-1) ops
               (session_with_records 1001)) with
  | Ok records => List.length records = 1001%nat
  | Raise _ => False
  end.
Proof. vm_compute. reflexivity. Qed.

(** ** C8: writing a configuration and reading it back *)

Lemma ensure_machine_ownership_frame
    (mac : string) (user : User.t) (session session' : Session) (machine : Machine.t) :
  ensure_machine_ownership mac user session = (Ok machine, session) ->
  machines session' = machines session ->
  ensure_machine_ownership mac user session' = (Ok machine, session').
Proof.
  unfold ensure_machine_ownership. unfold_M. intros H ->.
  destruct (scalar _ (machines session)); [|discriminate].
  now injection H as ->.
Qed.

Lemma find_update_configuration
    (p : MachineConfiguration.t -> bool) (c c' : MachineConfiguration.t) rows :
  find p rows = Some c -> p c' = true ->
  MachineConfiguration.id c' = MachineConfiguration.id c ->
  find p (update_configuration c' rows) = Some c'.
Proof.
  intros Hfind Hp Hid. induction rows as [|r rows IH]; [discriminate|].
  simpl in *.
  destruct (Z.eqb_spec (MachineConfiguration.id r) (MachineConfiguration.id c')) as [E|E].
  - now rewrite Hp.
  - destruct (p r) eqn:Epr.
    + injection Hfind as ->. congruence.
    + now apply IH.
Qed.

Lemma lookup_filter_keep (f : string * JSON -> bool) (d : dict) (k : string) :
  (forall v, f (k, v) = true) -> lookup (filter f d) k = lookup d k.
Proof.
  intros Hf. induction d as [|[k' v'] d IH]; [reflexivity|].
  simpl. destruct (String.eqb_spec k' k) as [->|Hne].
  - rewrite Hf. simpl. now rewrite String.eqb_refl.
  - destruct (f (k', v')); simpl; [|assumption].
    destruct (String.eqb_spec k' k); [contradiction | assumption].
Qed.

Lemma lookup_filter_drop (f : string * JSON -> bool) (d : dict) (k : string) :
  (forall v, f (k, v) = false) -> lookup (filter f d) k = None.
Proof.
  intros Hf. induction d as [|[k' v'] d IH]; [reflexivity|].
  simpl. destruct (f (k', v')) eqn:Ef; [|assumption].
  simpl. destruct (String.eqb_spec k' k) as [->|Hne]; [|assumption].
  rewrite Hf in Ef. discriminate.
Qed.

Lemma field_by_alias {A} (data : dict) (alias field_name : string)
    (validator : JSON -> option A) (v : JSON) (a : A) :
  lookup data alias = Some v -> validator v = Some a ->
  MachineConfigPayload.field data alias field_name validator = Ok (alias, a).
Proof.
  intros Hl Hv. unfold MachineConfigPayload.field, MachineConfigPayload.lookup_field.
  now rewrite Hl, Hv.
Qed.

Lemma field_used {A} (data : dict) (alias field_name : string)
    (validator : JSON -> option A) (used : string) (a : A) :
  MachineConfigPayload.field data alias field_name validator = Ok (used, a) ->
  (used = alias /\ lookup data alias <> None)
  \/ (used = field_name /\ lookup data alias = None /\ lookup data field_name <> None).
Proof.
  unfold MachineConfigPayload.field, MachineConfigPayload.lookup_field.
  destruct (lookup data alias) as [v|] eqn:Ha.
  - destruct (validator v); [|discriminate]. intros H; injection H as <- _.
    left. split; [reflexivity | discriminate].
  - destruct (lookup data field_name) as [v|] eqn:Hn; [|discriminate].
    destruct (validator v); [|discriminate]. intros H; injection H as <- _.
    right. repeat split; discriminate.
Qed.

(** The shape of an accepted document: which key each declared field was
    read from, and what is left over. *)
Lemma model_validate_inv (payload : dict) (config_data : MachineConfigPayload.t) :
  MachineConfigPayload.model_validate payload = Ok config_data ->
  exists k1 k2 k3 k4 k5 k6 k7,
    MachineConfigPayload.field payload "Nome" "name" MachineConfigPayload.validate_str
      = Ok (k1, MachineConfigPayload.name config_data)
    /\ MachineConfigPayload.field payload "MAC" "mac" MachineConfigPayload.validate_str
      = Ok (k2, MachineConfigPayload.mac config_data)
    /\ MachineConfigPayload.field payload "type" "type" MachineConfigPayload.validate_str
      = Ok (k3, MachineConfigPayload.type config_data)
    /\ MachineConfigPayload.field payload "Notificar" "notify"
         MachineConfigPayload.validate_bool
      = Ok (k4, MachineConfigPayload.notify config_data)
    /\ MachineConfigPayload.field payload "Frequency" "frequency"
         MachineConfigPayload.validate_int
      = Ok (k5, MachineConfigPayload.frequency config_data)
    /\ MachineConfigPayload.field payload "iniciarSO" "start_with_os"
         MachineConfigPayload.validate_bool
      = Ok (k6, MachineConfigPayload.start_with_os config_data)
    /\ MachineConfigPayload.field payload "status" "status"
         MachineConfigPayload.validate_dict
      = Ok (k7, MachineConfigPayload.status config_data)
    /\ MachineConfigPayload.model_extra config_data
       = filter (fun kv => negb (MachineConfigPayload.mem (fst kv)
                                   [k1; k2; k3; k4; k5; k6; k7])) payload.
Proof.
  unfold MachineConfigPayload.model_validate. intros H.
  repeat match type of H with
         | rbind ?r _ = Ok _ =>
             let k := fresh "k" in let v := fresh "v" in
             destruct r as [[k v]|]; simpl in H; [|discriminate]
         end.
  injection H as <-. simpl. do 7 eexists. repeat split; reflexivity.
Qed.

(** A document supplied under the aliases with values of the declared types
    is accepted. *)
Lemma supplied_by_alias_accepted (payload : dict) :
  supplied_by_alias payload ->
  exists config_data, MachineConfigPayload.model_validate payload = Ok config_data.
Proof.
  intros ([v1 H1] & [v2 H2] & [v3 H3] & [v4 H4] & [v5 H5] & [v6 H6] & [v7 H7]).
  unfold MachineConfigPayload.model_validate.
  rewrite (field_by_alias _ _ _ _ _ v1 H1 eq_refl). simpl.
  rewrite (field_by_alias _ _ _ _ _ v2 H2 eq_refl). simpl.
  rewrite (field_by_alias _ _ _ _ _ v3 H3 eq_refl). simpl.
  rewrite (field_by_alias _ _ _ _ _ v4 H4 eq_refl). simpl.
  rewrite (field_by_alias _ _ _ _ _ v5 H5 eq_refl). simpl.
  rewrite (field_by_alias _ _ _ _ _ v6 H6 eq_refl). simpl.
  rewrite (field_by_alias _ _ _ _ _ v7 H7 eq_refl). simpl.
  now eexists.
Qed.

Lemma model_dump_supplied_by_alias (payload : dict) (config_data : MachineConfigPayload.t) :
  supplied_by_alias payload ->
  MachineConfigPayload.model_validate payload = Ok config_data ->
  forall k, lookup (MachineConfigPayload.model_dump_by_alias config_data) k
            = lookup payload k.
Proof.
  intros ([v1 H1] & [v2 H2] & [v3 H3] & [v4 H4] & [v5 H5] & [v6 H6] & [v7 H7]) Hvalid k.
  unfold MachineConfigPayload.model_validate in Hvalid.
  rewrite (field_by_alias _ _ _ _ _ v1 H1 eq_refl) in Hvalid. simpl in Hvalid.
  rewrite (field_by_alias _ _ _ _ _ v2 H2 eq_refl) in Hvalid. simpl in Hvalid.
  rewrite (field_by_alias _ _ _ _ _ v3 H3 eq_refl) in Hvalid. simpl in Hvalid.
  rewrite (field_by_alias _ _ _ _ _ v4 H4 eq_refl) in Hvalid. simpl in Hvalid.
  rewrite (field_by_alias _ _ _ _ _ v5 H5 eq_refl) in Hvalid. simpl in Hvalid.
  rewrite (field_by_alias _ _ _ _ _ v6 H6 eq_refl) in Hvalid. simpl in Hvalid.
  rewrite (field_by_alias _ _ _ _ _ v7 H7 eq_refl) in Hvalid. simpl in Hvalid.
  injection Hvalid as <-. unfold MachineConfigPayload.model_dump_by_alias.
  cbn [app lookup MachineConfigPayload.name MachineConfigPayload.mac
       MachineConfigPayload.type MachineConfigPayload.notify
       MachineConfigPayload.frequency MachineConfigPayload.start_with_os
       MachineConfigPayload.status MachineConfigPayload.model_extra].
  destruct (String.eqb_spec "Nome" k) as [<-|N1]; [now rewrite H1|].
  destruct (String.eqb_spec "MAC" k) as [<-|N2]; [now rewrite H2|].
  destruct (String.eqb_spec "type" k) as [<-|N3]; [now rewrite H3|].
  destruct (String.eqb_spec "Notificar" k) as [<-|N4]; [now rewrite H4|].
  destruct (String.eqb_spec "Frequency" k) as [<-|N5]; [now rewrite H5|].
  destruct (String.eqb_spec "iniciarSO" k) as [<-|N6]; [now rewrite H6|].
  destruct (String.eqb_spec "status" k) as [<-|N7]; [now rewrite H7|].
  apply lookup_filter_keep. intros v. unfold MachineConfigPayload.mem.
  cbn [fst existsb].
  repeat match goal with
         | |- context [String.eqb k ?a] =>
             destruct (String.eqb_spec k a); [congruence|]
         end.
  reflexivity.
Qed.

Lemma model_dump_renamed (payload : dict) (config_data : MachineConfigPayload.t) :
  MachineConfigPayload.model_validate payload = Ok config_data ->
  forall alias field_name,
    In (alias, field_name) renamed_fields ->
    lookup payload alias = None ->
    lookup payload field_name <> None ->
    lookup (MachineConfigPayload.model_dump_by_alias config_data) alias <> None
    /\ lookup (MachineConfigPayload.model_dump_by_alias config_data) field_name = None.
Proof.
  intros Hvalid alias field_name Hin Hnoalias Hname.
  apply model_validate_inv in Hvalid
    as (k1 & k2 & k3 & k4 & k5 & k6 & k7 & F1 & F2 & F3 & F4 & F5 & F6 & F7 & Hextra).
  apply field_used in F1, F2, F4, F5, F6.
  unfold MachineConfigPayload.model_dump_by_alias. rewrite Hextra.
  unfold renamed_fields in Hin. simpl in Hin.
  destruct Hin as [E|[E|[E|[E|[E|[]]]]]]; injection E as <- <-; split;
    try (simpl; discriminate).
  - destruct F1 as [[_ F]|[-> _]]; [contradiction|].
    simpl. apply lookup_filter_drop. intros v. simpl. reflexivity.
  - destruct F2 as [[_ F]|[-> _]]; [contradiction|].
    simpl. apply lookup_filter_drop. intros v. simpl.
    now rewrite !orb_true_r.
  - destruct F4 as [[_ F]|[-> _]]; [contradiction|].
    simpl. apply lookup_filter_drop. intros v. simpl.
    now rewrite !orb_true_r.
  - destruct F5 as [[_ F]|[-> _]]; [contradiction|].
    simpl. apply lookup_filter_drop. intros v. simpl.
    now rewrite !orb_true_r.
  - destruct F6 as [[_ F]|[-> _]]; [contradiction|].
    simpl. apply lookup_filter_drop. intros v. simpl.
    now rewrite !orb_true_r.
Qed.

(** C8, as the code has it.  For every accepted document sent by the owner of
    the machine it names, the write succeeds and the read that follows
    returns exactly the document and the update time the write returned.
    When the machine has no stored document, or one that does not compare
    equal ([==]) to the dump of the validated payload, that document is the
    dump and owes nothing to what was stored before (the declared fields
    under their aliases, then the undeclared fields), and the update time is
    the time of the write.  When the stored document compares equal to the
    dump, nothing is written: the stored document, which may differ from the
    dump where [==] equates different values such as [1], [1.0] and [True],
    is returned with its old update time.  The dump of a document supplied
    under the aliases with values of the declared types holds the same value
    under every name; a field supplied under its attribute name instead is
    in the dump under its alias only. *)
Theorem update_then_get_machine_config
    (now : datetime) (payload : dict) (user : User.t) (session : Session)
    (config_data : MachineConfigPayload.t) (machine : Machine.t) :
  MachineConfigPayload.model_validate payload = Ok config_data ->
  ensure_machine_ownership (MachineConfigPayload.mac config_data) user session
    = (Ok machine, session) ->
  let raw_payload := MachineConfigPayload.model_dump_by_alias config_data in
  exists written session',
    update_machine_config now payload user session = (Ok written, session')
    /\ get_machine_config (MachineConfigPayload.mac config_data) user session'
       = (Ok (MachineConfigResponse.mk (ConfigUpdateResponse.data written)
                                       (ConfigUpdateResponse.updated_at written)),
          session')
    /\ match scalar (fun c => MachineConfiguration.machine_id c =? Machine.id machine)
                    (machine_configurations session) with
       | Some stored =>
           if py_eq (JDict raw_payload) (JDict (MachineConfiguration.raw_payload stored))
           then ConfigUpdateResponse.data written = MachineConfiguration.raw_payload stored
                /\ ConfigUpdateResponse.updated_at written
                   = MachineConfiguration.updated_at stored
                /\ session' = session
           else ConfigUpdateResponse.data written = raw_payload
                /\ ConfigUpdateResponse.updated_at written = now
       | None =>
           ConfigUpdateResponse.data written = raw_payload
           /\ ConfigUpdateResponse.updated_at written = now
       end
    /\ (supplied_by_alias payload -> forall k, lookup raw_payload k = lookup payload k)
    /\ (forall alias field_name,
          In (alias, field_name) renamed_fields ->
          lookup payload alias = None ->
          lookup payload field_name <> None ->
          lookup raw_payload alias <> None /\ lookup raw_payload field_name = None).
Proof.
  intros Hvalid Hgate raw_payload.
  assert (Hread : forall stored session',
             machines session' = machines session ->
             scalar (fun c => MachineConfiguration.machine_id c =? Machine.id machine)
                    (machine_configurations session') = Some stored ->
             get_machine_config (MachineConfigPayload.mac config_data) user session'
             = (Ok (MachineConfigResponse.mk
                      (MachineConfiguration.raw_payload stored)
                      (MachineConfiguration.updated_at stored)), session')).
  { intros stored session' Hm Hs. unfold get_machine_config.
    unfold bind at 1. rewrite (ensure_machine_ownership_frame _ _ _ _ _ Hgate Hm).
    unfold_M. now rewrite Hs. }
  unfold update_machine_config.
  unfold bind at 1. unfold lift at 1. rewrite Hvalid.
  unfold bind at 1. rewrite Hgate.
  unfold bind at 1. unfold query at 1. fold raw_payload.
  destruct (scalar _ (machine_configurations session)) as [stored|] eqn:Hstored.
  - destruct (py_eq (JDict raw_payload) (JDict (MachineConfiguration.raw_payload stored)))
      eqn:Heq.
    + (* nothing is written: the stored document is returned *)
      unfold_M. do 2 eexists. split; [reflexivity|]. cbn [ConfigUpdateResponse.data
        ConfigUpdateResponse.updated_at].
      split; [now apply Hread|]. split; [|split].
      * repeat split; reflexivity.
      * intros Hal. now apply model_dump_supplied_by_alias.
      * now apply model_dump_renamed.
    + unfold_M. do 2 eexists. split; [reflexivity|]. cbn [ConfigUpdateResponse.data
        ConfigUpdateResponse.updated_at].
      split; [|split; [|split]].
      * erewrite Hread; [reflexivity | reflexivity |].
        cbn [machine_configurations with_machine_configurations].
        unfold scalar in *. eapply find_update_configuration; eauto.
        cbn [MachineConfiguration.machine_id].
        now apply find_some in Hstored as [_ ?].
      * split; reflexivity.
      * intros Hal. now apply model_dump_supplied_by_alias.
      * now apply model_dump_renamed.
  - unfold_M. do 2 eexists. split; [reflexivity|]. cbn [ConfigUpdateResponse.data
        ConfigUpdateResponse.updated_at].
    split; [|split; [|split]].
    + erewrite Hread; [reflexivity | reflexivity |].
      cbn [machine_configurations with_machine_configurations].
      unfold scalar in *. apply find_app_new; [assumption|].
      cbn [MachineConfiguration.machine_id]. apply Z.eqb_refl.
    + split; reflexivity.
    + intros Hal. now apply model_dump_supplied_by_alias.
    + now apply model_dump_renamed.
Qed.

Lemma update_then_get_machine_config_witness :
  MachineConfigPayload.model_validate config_by_alias = Ok config_data0
  /\ ensure_machine_ownership "AA:BB:CC:DD:EE:FF" ops session0 = (Ok desktop, session0)
  /\ supplied_by_alias config_by_alias
  /\ exists written session',
       update_machine_config t1 config_by_alias ops session0 = (Ok written, session')
       /\ get_machine_config "AA:BB:CC:DD:EE:FF" ops session'
          = (Ok (MachineConfigResponse.mk (ConfigUpdateResponse.data written)
                                          (ConfigUpdateResponse.updated_at written)),
             session')
       /\ ConfigUpdateResponse.data written = config_by_alias
       /\ ConfigUpdateResponse.updated_at written = t1
       /\ forall k, lookup (ConfigUpdateResponse.data written) k
                    = lookup config_by_alias k.
Proof.
  assert (Hal : supplied_by_alias config_by_alias).
  { unfold supplied_by_alias. repeat split; eexists; reflexivity. }
  split; [reflexivity|]. split; [reflexivity|]. split; [exact Hal|].
  destruct (update_then_get_machine_config t1 config_by_alias ops session0
              config_data0 desktop eq_refl eq_refl)
    as (written & session' & Hput & Hget & Hreplace & Hverbatim & _).
  exists written, session'. split; [exact Hput|]. split; [exact Hget|].
  simpl in Hreplace. destruct Hreplace as [Hdata Htime].
  split; [exact Hdata|]. split; [exact Htime|]. intros k. rewrite Hdata. reflexivity.
Defined.

(** The stored document is kept when the new one compares equal to it: over
    a stored configuration whose [status] holds [CPU = 1], the configuration
    of the test suite, with [CPU = True], is answered with the stored
    document and its old update time, and that is what is read back. *)
Example update_machine_config_equal_document_kept :
  let stored_document :=
    [("Nome", JStr "Desktop Principal"); ("MAC", JStr "AA:BB:CC:DD:EE:FF");
     ("type", JStr "pc"); ("Notificar", JBool true); ("Frequency", JInt 30);
     ("iniciarSO", JBool true);
     ("status", JDict [("CPU", JInt 1); ("RAM", JBool true); ("DISCO", JBool true)])] in
  let session :=
    mkSession [ops; eve] [desktop] [MachineConfiguration.mk 1 1 stored_document t0 t0] [] in
  update_machine_config t1 config_by_alias ops session
    = (Ok (ConfigUpdateResponse.mk "success" stored_document t0), session)
  /\ get_machine_config "AA:BB:CC:DD:EE:FF" ops session
     = (Ok (MachineConfigResponse.mk stored_document t0), session)
  /\ lookup stored_document "status" <> lookup config_by_alias "status".
Proof. vm_compute. repeat split. discriminate. Qed.

(** C8 as stated fails on the configuration of the test suite when its
    display name is sent under the attribute name [name], which the schema
    accepts: what the caller wrote under [name] is read back under [Nome]. *)
Lemma config_by_name_not_verbatim :
  ~ reads_back_verbatim t1 config_by_name ops session0.
Proof.
  intros H.
  destruct (MachineConfigPayload.model_validate config_by_name) as [c|e] eqn:Ev;
    [|vm_compute in Ev; discriminate].
  destruct (update_machine_config t1 config_by_name ops session0)
    as [[written|e] session'] eqn:Eu; [|vm_compute in Eu; discriminate].
  destruct (get_machine_config (MachineConfigPayload.mac c) ops session')
    as [[read|e] session''] eqn:Eg.
  - specialize (H c written session' read session'' Ev Eu Eg "name").
    vm_compute in Ev. injection Ev as <-.
    vm_compute in Eu. injection Eu as <- <-.
    vm_compute in Eg. injection Eg as <- <-.
    vm_compute in H. discriminate.
  - vm_compute in Ev. injection Ev as <-.
    vm_compute in Eu. injection Eu as <- <-.
    vm_compute in Eg. discriminate.
Qed.

(** A put replaces, it does not merge: after a document with an undeclared
    field [note], a document without it leaves no [note] behind. *)
Example update_machine_config_replaces :
  let with_note := config_by_alias ++ [("note", JStr "rack 4")] in
  match update_machine_config t0 with_note ops session0 with
  | (Ok written1, session1') =>
      lookup (ConfigUpdateResponse.data written1) "note" = Some (JStr "rack 4")
      /\ match update_machine_config t1 config_by_alias ops session1' with
         | (Ok written2, session2') =>
             get_machine_config "AA:BB:CC:DD:EE:FF" ops session2'
             = (Ok (MachineConfigResponse.mk config_by_alias t1), session2')
             /\ List.length (machine_configurations session2') = 1%nat
         | (Raise _, _) => False
         end
  | (Raise _, _) => False
  end.
Proof. vm_compute. repeat split. Qed.

(** ** The flow of [tests/test_api.py]

    Login from a new machine, write and read its configuration, submit one
    metric document, list and aggregate: the assertions of
    [test_full_monitoring_flow], on the model. *)
Example test_full_monitoring_flow :
  let mac := "AA:BB:CC:DD:EE:FF" in
  let uuid := "0f1e2d3c4b5a69788796a5b4c3d2e1f0" in
  match _get_or_create_machine t0 ops mac "Desktop-01" "pc" (mkSession [ops; eve] [] [] []) with
  | (Ok machine, s1) =>
      Machine.type machine = "pc"
      /\ match update_machine_config t1 config_by_alias ops s1 with
         | (Ok stored_config, s2) =>
             lookup (ConfigUpdateResponse.data stored_config) "Nome"
               = Some (JStr "Desktop Principal")
             /\ match get_machine_config mac ops s2 with
                | (Ok fetched_config, s3) =>
                    lookup (MachineConfigResponse.data fetched_config) "MAC"
                      = Some (JStr mac)
                    /\ match update_machine_status t1 t1 uuid metric_payload ops s3 with
                       | (Ok metric_response, s4) =>
                           StatusResponse.reference_id metric_response = uuid
                           /\ match list_machine_metrics mac None None limit_default ops s4 with
                              | (Ok [metric], s5) =>
                                  lookup (MonitoringDataRead.metrics metric) "cpu"
                                    = Some (JFloat f52_3)
                                  /\ match aggregate_metrics mac ["cpu"; "memory"; "disk"]
                                             ops s5 with
                                     | (Ok (cpu_summary :: _), _) =>
                                         MetricsAggregate.metric cpu_summary = "cpu"
                                         /\ MetricsAggregate.average cpu_summary
                                            = Some f52_3
                                     | _ => False
                                     end
                              | _ => False
                              end
                       | _ => False
                       end
                | _ => False
                end
         | _ => False
         end
  | _ => False
  end.
Proof. vm_compute. repeat split. Qed.

(** A configuration written by a user who does not own the machine is
    refused by the gate, as if the machine did not exist. *)
Example test_machine_config_of_another_user :
  update_machine_config t1 config_by_alias eve session0
  = (Raise (Http (mkHTTP 404 "Machine not found")), session0).
Proof. reflexivity. Qed.

(** * Properties of the accounts, the router and the rate limiter *)

(** ** Keys *)

Lemma next_id_above (ids : list Z) (x : Z) : In x ids -> x < next_id ids.
Proof.
  unfold next_id. induction ids as [|y ids IH]; cbn [fold_right In]; [easy|].
  intros [->|H]; [lia|]. specialize (IH H). lia.
Qed.

Lemma next_id_fresh (ids : list Z) : ~ In (next_id ids) ids.
Proof. intros H. apply next_id_above in H. lia. Qed.

Lemma NoDup_app_fresh {A} (l : list A) (x : A) :
  NoDup l -> ~ In x l -> NoDup (l ++ [x]).
Proof.
  intros Hl Hx. induction Hl as [|y l Hy Hl IH]; simpl.
  - constructor; [easy | constructor].
  - constructor.
    + rewrite in_app_iff. intros [H|[->|[]]]; [easy|]. apply Hx. now left.
    + apply IH. intros H. apply Hx. now right.
Qed.

Lemma NoDup_map_injective {A B} (f : A -> B) (l : list A) (a b : A) :
  NoDup (map f l) -> In a l -> In b l -> f a = f b -> a = b.
Proof.
  induction l as [|x l IH]; simpl; [easy|].
  intros Hnd Ha Hb E. inversion Hnd as [|? ? Hx Hl]; subst.
  destruct Ha as [->|Ha], Hb as [->|Hb]; auto.
  - exfalso. apply Hx. rewrite E. now apply in_map.
  - exfalso. apply Hx. rewrite <- E. now apply in_map.
Qed.

(** The UPDATE of the row [old] by a row [new] of the same key leaves every
    column on which the two agree as it was. *)
Lemma map_update_row {A B} (key : A -> Z) (f : A -> B) (old new : A) (rows : list A) :
  NoDup (map key rows) -> In old rows -> key new = key old -> f new = f old ->
  map f (map (fun r => if key r =? key new then new else r) rows) = map f rows.
Proof.
  intros Hnd Hin Hk Hf. rewrite map_map. apply map_ext_in. intros r Hr.
  destruct (key r =? key new) eqn:E; [|reflexivity].
  apply Z.eqb_eq in E. rewrite Hk in E.
  rewrite (NoDup_map_injective key rows r old Hnd Hr Hin E). exact Hf.
Qed.

Lemma In_update_row {A} (key : A -> Z) (old new : A) (rows : list A) (r : A) :
  NoDup (map key rows) -> In old rows -> key new = key old ->
  In r (map (fun r => if key r =? key new then new else r) rows) ->
  r = new \/ (In r rows /\ r <> old).
Proof.
  intros Hnd Hin Hk H. apply in_map_iff in H. destruct H as [x [E Hx]].
  destruct (key x =? key new) eqn:K.
  - now left.
  - right. subst r. split; [easy|]. intros ->. rewrite Hk, Z.eqb_refl in K. discriminate.
Qed.

Lemma In_update_row_other {A} (key : A -> Z) (new : A) (rows : list A) (r : A) :
  In r rows -> key r <> key new ->
  In r (map (fun r => if key r =? key new then new else r) rows).
Proof.
  intros Hr Hk. apply in_map_iff. exists r. split; [|easy].
  destruct (key r =? key new) eqn:K; [|reflexivity]. apply Z.eqb_eq in K. contradiction.
Qed.

Lemma In_update_row_new {A} (key : A -> Z) (old new : A) (rows : list A) :
  In old rows -> key new = key old ->
  In new (map (fun r => if key r =? key new then new else r) rows).
Proof.
  intros Hin Hk. apply in_map_iff. exists old. split; [|easy].
  now rewrite Hk, Z.eqb_refl.
Qed.

Lemma find_none_all {T} (p : T -> bool) (rows : list T) (r : T) :
  find p rows = None -> In r rows -> p r = false.
Proof. intros H Hr. exact (find_none p rows H r Hr). Qed.

Lemma find_app_old {T} (p : T -> bool) (rows : list T) (x r : T) :
  find p rows = Some r -> find p (rows ++ [x]) = Some r.
Proof.
  induction rows as [|y rows IH]; simpl; [discriminate|].
  destruct (p y); [easy|]. exact IH.
Qed.

(** ** The constraints are kept by every step *)

Lemma transition_consistent (s s' : Session) :
  consistent s -> transition s s' -> consistent s'.
Proof.
  intros [Hu He Hm Hmac Hmo Hc Hcu Hcm Hd Hdr Hdm] T.
  destruct T as [ | u Hid Hem | m Hid Hmc Hown | old new Hin Eid Emac Eown _
                  | c Hid Hmid Hfk | old new Hin Eid Emid | d Hid Href Hfk ];
    constructor; unfold mac_unique in *; cbn [users machines machine_configurations
      monitoring_data with_users with_machines with_machine_configurations
      with_monitoring_data]; auto.
  - rewrite map_app. now apply NoDup_app_fresh.
  - rewrite map_app. now apply NoDup_app_fresh.
  - intros m Hm'. rewrite map_app, in_app_iff. left. now apply Hmo.
  - rewrite map_app. now apply NoDup_app_fresh.
  - rewrite map_app. now apply NoDup_app_fresh.
  - intros x Hx. apply in_app_iff in Hx. destruct Hx as [Hx|[<-|[]]]; auto.
  - intros x Hx. rewrite map_app, in_app_iff. left. now apply Hcm.
  - intros x Hx. rewrite map_app, in_app_iff. left. now apply Hdm.
  - unfold update_machine.
    rewrite (map_update_row Machine.id Machine.id old new); auto.
  - unfold update_machine.
    rewrite (map_update_row Machine.id Machine.mac_address old new); auto.
  - intros x Hx. unfold update_machine in Hx.
    apply (In_update_row Machine.id old new) in Hx; auto.
    destruct Hx as [->|[Hx _]]; [rewrite Eown|]; auto.
  - intros x Hx. unfold update_machine.
    rewrite (map_update_row Machine.id Machine.id old new); auto.
  - intros x Hx. unfold update_machine.
    rewrite (map_update_row Machine.id Machine.id old new); auto.
  - rewrite map_app. now apply NoDup_app_fresh.
  - rewrite map_app. now apply NoDup_app_fresh.
  - intros x Hx. apply in_app_iff in Hx. destruct Hx as [Hx|[<-|[]]]; auto.
  - unfold update_configuration.
    rewrite (map_update_row MachineConfiguration.id MachineConfiguration.id old new); auto.
  - unfold update_configuration.
    rewrite (map_update_row MachineConfiguration.id MachineConfiguration.machine_id old new);
      auto.
  - intros x Hx. unfold update_configuration in Hx.
    apply (In_update_row MachineConfiguration.id old new) in Hx; auto.
    destruct Hx as [->|[Hx _]]; [rewrite Emid|]; auto.
  - rewrite map_app. now apply NoDup_app_fresh.
  - rewrite map_app. now apply NoDup_app_fresh.
  - intros x Hx. apply in_app_iff in Hx. destruct Hx as [Hx|[<-|[]]]; auto.
Qed.

(** ** The machine registry, case by case *)

Lemma option_string_eqb_eq (a b : option string) :
  option_string_eqb a b = true -> a = b.
Proof.
  destruct a, b; simpl; try discriminate; auto.
  intros H. apply String.eqb_eq in H. now subst.
Qed.

Lemma get_or_create_machine_cases
    (now : datetime) (user : User.t) (mac_address name machine_type : string)
    (session : Session) :
  match find (fun m => String.eqb (Machine.mac_address m) mac_address)
             (machines session) with
  | None =>
      let machine :=
        Machine.mk (next_id (map Machine.id (machines session))) mac_address (Some name)
                   machine_type (User.id user) now now in
      _get_or_create_machine now user mac_address name machine_type session
      = (Ok machine, with_machines (machines session ++ [machine]) session)
  | Some found =>
      if negb (Machine.owner_id found =? User.id user) then
        _get_or_create_machine now user mac_address name machine_type session
        = (Raise machine_conflict, session)
      else if option_string_eqb (Machine.name found) (Some name)
              && String.eqb (Machine.type found) machine_type then
        _get_or_create_machine now user mac_address name machine_type session
        = (Ok found, session)
      else
        let machine :=
          Machine.mk (Machine.id found) (Machine.mac_address found) (Some name)
                     machine_type (Machine.owner_id found) (Machine.created_at found) now in
        _get_or_create_machine now user mac_address name machine_type session
        = (Ok machine, with_machines (update_machine machine (machines session)) session)
  end.
Proof.
  unfold _get_or_create_machine, scalar. unfold_M.
  destruct (find _ (machines session)) as [found|] eqn:F; [|reflexivity].
  destruct (negb (Machine.owner_id found =? User.id user)); [reflexivity|].
  destruct (option_string_eqb (Machine.name found) (Some name)) eqn:En; simpl;
    destruct (String.eqb (Machine.type found) machine_type) eqn:Et; simpl.
  - reflexivity.
  - apply option_string_eqb_eq in En. unfold onupdate_machine, set_type. simpl.
    now rewrite En.
  - apply String.eqb_eq in Et. unfold onupdate_machine, set_name. simpl.
    now rewrite Et.
  - reflexivity.
Qed.

(** ** Every handler is atomic *)

Lemma atomic_unchanged {A} (m : M A) (s : Session) : snd (m s) = s -> atomic m s.
Proof. intros E. split; rewrite E; [constructor | reflexivity]. Qed.

Lemma atomic_fmap {A B} (f : A -> B) (m : M A) (s : Session) :
  atomic m s -> atomic (fmap f m) s.
Proof.
  unfold atomic, fmap. unfold_M. destruct (m s) as [[a|e] s']; simpl; intros [T R];
    (split; [exact T|]); [discriminate | intros e' _; now apply (R e)].
Qed.

(** A dependency that only reads, followed by a handler. *)
Lemma atomic_bind_read {A B} (m : M A) (k : A -> M B) (s : Session) :
  snd (m s) = s -> (forall a, fst (m s) = Ok a -> atomic (k a) s) ->
  atomic (bind m k) s.
Proof.
  unfold atomic, bind. destruct (m s) as [[a|e] s']; simpl; intros -> H.
  - now apply H.
  - split; [constructor | reflexivity].
Qed.

Lemma get_current_user_reads (security : Security.t) (utcnow : datetime)
    (credentials : option string) (s : Session) :
  snd (get_current_user security utcnow credentials s) = s
  /\ forall user, fst (get_current_user security utcnow credentials s) = Ok user ->
       In user (users s).
Proof.
  unfold get_current_user. destruct credentials as [token|]; [|split; [easy|discriminate]].
  destruct (Security.verify_token security utcnow token) as [payload|e];
    [|split; [easy|discriminate]].
  unfold scalar. unfold_M.
  destruct (dict_get payload "sub") as [| | | |email| |]; simpl;
    try (split; [reflexivity | discriminate]).
  destruct (find _ (users s)) as [user|] eqn:F; simpl; [|split; [easy|discriminate]].
  split; [reflexivity|]. intros u [= <-]. now apply find_some in F.
Qed.

Lemma ensure_machine_ownership_reads (mac : string) (user : User.t) (s : Session) :
  snd (ensure_machine_ownership mac user s) = s
  /\ forall machine, fst (ensure_machine_ownership mac user s) = Ok machine ->
       In machine (machines s)
       /\ Machine.mac_address machine = mac
       /\ Machine.owner_id machine = User.id user.
Proof.
  unfold ensure_machine_ownership, scalar. unfold_M.
  destruct (find _ (machines s)) as [m|] eqn:F; simpl; [|split; [easy|discriminate]].
  split; [reflexivity|]. intros ? [= <-]. apply find_some in F. destruct F as [Hin Hp].
  apply andb_true_iff in Hp. destruct Hp as [Hm Ho].
  apply String.eqb_eq in Hm. apply Z.eqb_eq in Ho. auto.
Qed.

Lemma not_In_map_of_find_none {T B} (p : T -> bool) (f : T -> B) (rows : list T) (b : B) :
  find p rows = None -> (forall r, f r = b -> p r = true) -> ~ In b (map f rows).
Proof.
  intros F Hp H. apply in_map_iff in H. destruct H as [r [E Hr]].
  specialize (Hp r E). rewrite (find_none p rows F r Hr) in Hp. discriminate.
Qed.

Lemma register_user_atomic (security : Security.t) (salt : string)
    (user_in : UserCreate.t) (s : Session) :
  atomic (register_user security salt user_in) s.
Proof.
  unfold register_user, scalar.
  apply atomic_bind_read; [reflexivity|]. unfold query. simpl. intros [u|] [= F].
  - now apply atomic_unchanged.
  - unfold atomic. unfold_M. split; [|discriminate]. simpl. apply user_added; simpl.
    + apply next_id_fresh.
    + apply (not_In_map_of_find_none _ _ _ _ F). intros r ->. apply String.eqb_refl.
Qed.

Lemma get_or_create_machine_atomic
    (now : datetime) (user : User.t) (mac_address name machine_type : string)
    (s : Session) :
  In (User.id user) (map User.id (users s)) ->
  atomic (_get_or_create_machine now user mac_address name machine_type) s.
Proof.
  intros Hu.
  pose proof (get_or_create_machine_cases now user mac_address name machine_type s) as C.
  destruct (find _ (machines s)) as [found|] eqn:F.
  - destruct (negb (Machine.owner_id found =? User.id user)).
    + apply atomic_unchanged. now rewrite C.
    + destruct (_ && _).
      * apply atomic_unchanged. now rewrite C.
      * cbv zeta in C. unfold atomic. rewrite C. split; [|discriminate]. simpl.
        apply find_some in F. destruct F as [Hin _].
        now apply (machine_updated s found).
  - cbv zeta in C. unfold atomic. rewrite C. split; [|discriminate]. simpl.
    apply machine_added; simpl; auto.
    + apply next_id_fresh.
    + apply (not_In_map_of_find_none _ _ _ _ F). intros r ->. apply String.eqb_refl.
Qed.

Lemma login_atomic (security : Security.t) (utcnow now : datetime)
    (request : LoginRequest.t) (s : Session) :
  atomic (login security utcnow now request) s.
Proof.
  unfold login, scalar.
  apply atomic_bind_read; [reflexivity|]. intros [user|]; [|intros _; now apply atomic_unchanged].
  unfold query. simpl. intros [= F].
  destruct (negb _); [now apply atomic_unchanged|].
  apply find_some in F. destruct F as [Hin _].
  pose proof (get_or_create_machine_atomic now user (LoginRequest.mac_address request)
                (LoginRequest.username request)
                (machine_type_of (LoginRequest.c request)) s
                (in_map User.id _ _ Hin)) as [T R].
  unfold atomic, bind, ret.
  destruct (_get_or_create_machine _ _ _ _ _ s) as [[m|e] s']; simpl in *.
  - split; [exact T | discriminate].
  - split; [exact T | intros e' _; now apply (R e)].
Qed.

Lemma register_machine_atomic (now : datetime) (machine_in : MachineCreate.t)
    (current_user : User.t) (s : Session) :
  In current_user (users s) ->
  atomic (register_machine now machine_in current_user) s.
Proof.
  intros Hin. apply (atomic_fmap MachineRead.model_validate).
  apply get_or_create_machine_atomic. now apply in_map.
Qed.

Lemma update_machine_config_atomic (now : datetime) (payload : dict)
    (current_user : User.t) (s : Session) :
  atomic (update_machine_config now payload current_user) s.
Proof.
  unfold update_machine_config.
  apply atomic_bind_read; [reflexivity|]. intros config_data _.
  destruct (ensure_machine_ownership_reads (MachineConfigPayload.mac config_data)
              current_user s) as [Hs Hm].
  apply atomic_bind_read; [exact Hs|]. intros machine Hok.
  destruct (Hm machine Hok) as [Hin _].
  unfold scalar.
  apply atomic_bind_read; [reflexivity|]. unfold query. cbn [fst]. intros [c|] [= F].
  - unfold atomic. unfold_M. destruct (py_eq _ _); simpl.
    + split; [constructor | reflexivity].
    + split; [|discriminate]. apply find_some in F. destruct F as [Hc _].
      now apply (configuration_updated s c).
  - unfold atomic. unfold_M. split; [|discriminate]. simpl.
    apply configuration_added; simpl.
    + apply next_id_fresh.
    + apply (not_In_map_of_find_none _ _ _ _ F). intros r ->. apply Z.eqb_refl.
    + now apply in_map.
Qed.

Lemma update_machine_status_atomic (utcnow now : datetime) (uuid4_hex : string)
    (data : dict) (current_user : User.t) (s : Session) :
  atomic (update_machine_status utcnow now uuid4_hex data current_user) s.
Proof.
  unfold update_machine_status.
  apply atomic_bind_read; [reflexivity|]. intros mac _.
  destruct (negb (truthy mac)); [now apply atomic_unchanged|].
  apply atomic_bind_read; [reflexivity|]. intros mac' _.
  destruct (ensure_machine_ownership_reads mac' current_user s) as [Hs Hm].
  apply atomic_bind_read; [exact Hs|]. intros machine Hok.
  destruct (Hm machine Hok) as [Hin _].
  apply atomic_bind_read; [reflexivity|]. intros timestamp _.
  apply atomic_bind_read; [reflexivity|]. unfold query. simpl. intros rows [= <-].
  destruct (existsb _ (monitoring_data s)) eqn:E; [now apply atomic_unchanged|].
  unfold atomic. unfold_M. split; [|discriminate]. simpl. apply record_added; simpl.
  - apply next_id_fresh.
  - intros H. apply in_map_iff in H. destruct H as [r [Er Hr]].
    assert (existsb (fun r => String.eqb (MonitoringData.reference_id r) uuid4_hex)
                    (monitoring_data s) = true) as C.
    { apply existsb_exists. exists r. split; [easy|]. rewrite Er. apply String.eqb_refl. }
    rewrite C in E. discriminate.
  - now apply in_map.
Qed.

Lemma get_machine_config_reads (mac : string) (user : User.t) (s : Session) :
  snd (get_machine_config mac user s) = s.
Proof.
  unfold get_machine_config, bind.
  destruct (ensure_machine_ownership_reads mac user s) as [Hs _].
  destruct (ensure_machine_ownership mac user s) as [[m|e] s']; cbn [snd] in Hs; subst s';
    [|reflexivity].
  unfold query, scalar. cbv beta iota.
  destruct (find _ (machine_configurations s)); reflexivity.
Qed.

Lemma list_machine_metrics_reads (mac : string) (start end_ : option datetime)
    (limit : Z) (user : User.t) (s : Session) :
  snd (list_machine_metrics mac start end_ limit user s) = s.
Proof.
  unfold list_machine_metrics. destruct (negb _); [reflexivity|]. unfold bind.
  destruct (ensure_machine_ownership_reads mac user s) as [Hs _].
  destruct (ensure_machine_ownership mac user s) as [[m|e] s']; cbn [snd] in Hs; subst s';
    reflexivity.
Qed.

Lemma aggregate_metrics_reads (mac : string) (metric_keys : list string)
    (user : User.t) (s : Session) :
  snd (aggregate_metrics mac metric_keys user s) = s.
Proof.
  unfold aggregate_metrics, bind.
  destruct (ensure_machine_ownership_reads mac user s) as [Hs _].
  destruct (ensure_machine_ownership mac user s) as [[m|e] s']; cbn [snd] in Hs; subst s';
    reflexivity.
Qed.

Lemma route_atomic (security : Security.t) (env : Env.t) (r : request) (s : Session) :
  atomic (route security env r) s.
Proof.
  destruct r; cbn [route]; apply atomic_fmap; unfold authenticated;
    try (destruct (get_current_user_reads security (Env.utcnow env) credentials s)
           as [Hs Hu];
         apply atomic_bind_read; [exact Hs|]; intros user Hok; specialize (Hu user Hok)).
  - apply register_user_atomic.
  - apply login_atomic.
  - now apply register_machine_atomic.
  - now apply atomic_unchanged.
  - apply update_machine_config_atomic.
  - apply atomic_unchanged. apply get_machine_config_reads.
  - apply update_machine_status_atomic.
  - apply atomic_unchanged. apply list_machine_metrics_reads.
  - apply atomic_unchanged. apply aggregate_metrics_reads.
Qed.

(** ** The database across requests *)

Lemma route_consistent (security : Security.t) (env : Env.t) (r : request) (s : Session) :
  consistent s -> consistent (snd (route security env r s)).
Proof.
  intros H. apply (transition_consistent s); [exact H|]. apply route_atomic.
Qed.

Lemma empty_database_consistent : consistent empty_database.
Proof. constructor; unfold mac_unique; simpl; try constructor; intros ? []. Qed.

(** X1.  Whatever requests are served, in whatever order and with whatever
    outcome, the database keeps the constraints declared in [app/models.py]:
    primary keys, unique e-mail, MAC address, configuration per machine and
    reference id, and every foreign key pointing at an existing row.  (For
    the reference id the handler makes no check of its own: the unique index
    refuses a second record of the same id, the request ending in
    [IntegrityError] with nothing stored.) *)
Theorem serve_consistent
    (security : Security.t) (requests : list (Env.t * request)) (session : Session) :
  consistent session -> consistent (serve security requests session).
Proof.
  revert session. induction requests as [|[env r] requests IH]; intros session H; simpl.
  - exact H.
  - apply IH. now apply route_consistent.
Qed.

Lemma serve_consistent_witness :
  consistent empty_database
  /\ consistent
       (serve plain_security
          [(env0, register_ops); (env0, PostLogin login_ops); (env0, register_ops)]
          empty_database).
Proof.
  split; [exact empty_database_consistent|].
  apply serve_consistent. exact empty_database_consistent.
Defined.

Lemma session0_consistent : consistent session0.
Proof.
  constructor; unfold mac_unique; simpl;
    try (repeat (apply NoDup_cons; [simpl; intuition discriminate|]); apply NoDup_nil);
    intros x Hx; simpl in Hx; intuition (subst; simpl; auto).
Qed.

Lemma transition_machine_identity (s s' : Session) (m : Machine.t) :
  NoDup (map Machine.id (machines s)) -> transition s s' -> In m (machines s) ->
  exists m', In m' (machines s')
    /\ Machine.id m' = Machine.id m
    /\ Machine.mac_address m' = Machine.mac_address m
    /\ Machine.owner_id m' = Machine.owner_id m
    /\ Machine.created_at m' = Machine.created_at m.
Proof.
  intros Hnd T Hm.
  destruct T as [ | | x | old new Hin Eid Emac Eown Ecr | | | ];
    try (exists m; repeat split; assumption).
  - exists m. repeat split; auto. simpl. apply in_app_iff. now left.
  - simpl. destruct (Z.eq_dec (Machine.id m) (Machine.id new)) as [E|E].
    + assert (m = old) as ->.
      { apply (NoDup_map_injective Machine.id (machines s)); auto. congruence. }
      exists new. repeat split; auto.
      now apply (In_update_row_new Machine.id old).
    + exists m. repeat split; auto. now apply In_update_row_other.
Qed.

(** X2.  No sequence of requests reassigns a machine: a machine in the
    database is still there afterwards, with the primary key, MAC address,
    owner and creation time it had. *)
Theorem serve_keeps_machine_identity
    (security : Security.t) (requests : list (Env.t * request)) (session : Session)
    (machine : Machine.t) :
  consistent session -> In machine (machines session) ->
  exists machine',
    In machine' (machines (serve security requests session))
    /\ Machine.id machine' = Machine.id machine
    /\ Machine.mac_address machine' = Machine.mac_address machine
    /\ Machine.owner_id machine' = Machine.owner_id machine
    /\ Machine.created_at machine' = Machine.created_at machine.
Proof.
  revert session machine.
  induction requests as [|[env r] requests IH]; intros session machine H Hin; simpl.
  - exists machine. auto.
  - destruct (transition_machine_identity session (snd (route security env r session))
                machine (machines_pk _ H) (proj1 (route_atomic security env r session)) Hin)
      as [m1 [Hin1 [E1 [E2 [E3 E4]]]]].
    destruct (IH _ m1 (route_consistent security env r session H) Hin1)
      as [m2 [Hin2 [F1 [F2 [F3 F4]]]]].
    exists m2. repeat split; congruence.
Qed.

Lemma serve_keeps_machine_identity_witness :
  consistent session0 /\ In desktop (machines session0)
  /\ exists machine',
       In machine'
          (machines
             (serve plain_security
                [(env0, PostLogin (LoginRequest.mk "eve@example.com" "12$eve"
                                     "AA:BB:CC:DD:EE:FF" "Eve-01" "linux-server"));
                 (env0, PostLogin (LoginRequest.mk "ops@example.com" "12$ops"
                                     "AA:BB:CC:DD:EE:FF" "Rack-07" "linux-server"))]
                session0))
       /\ Machine.id machine' = Machine.id desktop
       /\ Machine.mac_address machine' = Machine.mac_address desktop
       /\ Machine.owner_id machine' = Machine.owner_id desktop
       /\ Machine.created_at machine' = Machine.created_at desktop.
Proof.
  split; [exact session0_consistent|]. split; [now left|].
  apply serve_keeps_machine_identity; [exact session0_consistent | now left].
Defined.

Lemma transition_append_only (s s' : Session) :
  transition s s' ->
  exists us ds,
    users s' = users s ++ us
    /\ monitoring_data s' = monitoring_data s ++ ds
    /\ (List.length us + List.length ds <= 1)%nat
    /\ (List.length (machines s) <= List.length (machines s'))%nat
    /\ (List.length (machine_configurations s)
        <= List.length (machine_configurations s'))%nat.
Proof.
  intros T. destruct T as [ | u | m | old new | c | old new | d ]; simpl.
  - exists [], []. rewrite !app_nil_r. auto.
  - exists [u], []. rewrite !app_nil_r. auto.
  - exists [], []. rewrite !app_nil_r, length_app. simpl. repeat split; auto; lia.
  - exists [], []. rewrite !app_nil_r. unfold update_machine. rewrite length_map. auto.
  - exists [], []. rewrite !app_nil_r, length_app. simpl. repeat split; auto; lia.
  - exists [], []. rewrite !app_nil_r. unfold update_configuration. rewrite length_map. auto.
  - exists [], [d]. rewrite !app_nil_r. auto.
Qed.

(** X3.  Accounts and metric records are only ever appended: after any
    sequence of requests the users and the metric records the database held
    are still there, unchanged and in place, followed by at most one new row
    per request; and no machine or configuration row is ever removed. *)
Theorem serve_appends_only
    (security : Security.t) (requests : list (Env.t * request)) (session : Session) :
  exists us ds,
    users (serve security requests session) = users session ++ us
    /\ monitoring_data (serve security requests session) = monitoring_data session ++ ds
    /\ (List.length us + List.length ds <= List.length requests)%nat
    /\ (List.length (machines session)
        <= List.length (machines (serve security requests session)))%nat
    /\ (List.length (machine_configurations session)
        <= List.length (machine_configurations (serve security requests session)))%nat.
Proof.
  revert session. induction requests as [|[env r] requests IH]; intros session; simpl.
  - exists [], []. rewrite !app_nil_r. auto.
  - destruct (transition_append_only _ _ (proj1 (route_atomic security env r session)))
      as [us1 [ds1 [E1 [E2 [L1 [L2 L3]]]]]].
    destruct (IH (snd (route security env r session)))
      as [us2 [ds2 [F1 [F2 [M1 [M2 M3]]]]]].
    exists (us1 ++ us2), (ds1 ++ ds2).
    rewrite F1, F2, E1, E2, <- !app_assoc, !length_app. repeat split; auto; lia.
Qed.

(** X4.  A request that fails changes nothing: when a route raises, whether
    an HTTP error, a validation error or an exception that escapes the
    handler, the database is the one the request found (the token is taken
    to be issued without error once the machine is stored). *)
Theorem route_failure_leaves_database
    (security : Security.t) (env : Env.t) (r : request) (session : Session) (e : exn) :
  fst (route security env r session) = Raise e ->
  snd (route security env r session) = session.
Proof.
  intros H. destruct (route_atomic security env r session) as [_ R]. exact (R e H).
Qed.

Lemma route_failure_leaves_database_witness :
  let r := PutStatus (Some "ops@example.com")
             [("mac_address", JStr "AA:BB:CC:DD:EE:FF"); ("timestamp", JStr "yesterday")] in
  fst (route plain_security env0 r session1) = Raise (ValueError "Invalid isoformat string")
  /\ snd (route plain_security env0 r session1) = session1.
Proof.
  intros r. split; [reflexivity|].
  apply (route_failure_leaves_database plain_security env0 r session1
           (ValueError "Invalid isoformat string")).
  reflexivity.
Defined.

(** X5.  Every route but [register] and [login] runs [get_current_user]
    before anything else: without a bearer token the answer is 401 "Missing
    credentials", with a token that does not verify 401 "Invalid token", and
    in both cases the handler is not entered and the database is not touched,
    however valid the rest of the request. *)
Theorem route_requires_credentials
    (security : Security.t) (env : Env.t) (r : request) (session : Session)
    (credentials : option string) :
  credentials_of r = Some credentials ->
  (credentials = None ->
   route security env r session = (Raise (unauthorized "Missing credentials"), session))
  /\ (forall token e,
        credentials = Some token ->
        Security.verify_token security (Env.utcnow env) token = Raise e ->
        route security env r session = (Raise (unauthorized "Invalid token"), session)).
Proof.
  intros Hc. split.
  - intros ->. destruct r; try discriminate; injection Hc as ->; reflexivity.
  - intros token e -> Hv.
    destruct r; try discriminate; injection Hc as ->;
      cbn [route]; unfold fmap, authenticated, bind, get_current_user;
      rewrite Hv; reflexivity.
Qed.

Lemma route_requires_credentials_witness :
  credentials_of (PostUpdateConfig None config_by_alias) = Some None
  /\ route plain_security env0 (PostUpdateConfig None config_by_alias) session0
     = (Raise (unauthorized "Missing credentials"), session0).
Proof.
  split; [reflexivity|].
  apply (route_requires_credentials plain_security env0
           (PostUpdateConfig None config_by_alias) session0 None); reflexivity.
Defined.

(** ** Authentication *)

(** X6.  [get_current_user] never writes, and it fails with 401 only: for a
    verified payload whose [sub] is absent or a string, the outcome is either
    a user stored in the database whose e-mail is that [sub], or an
    HTTPException with status 401. *)
Theorem get_current_user_outcome
    (security : Security.t) (utcnow : datetime) (credentials : option string)
    (session : Session) :
  (forall token payload,
     credentials = Some token ->
     Security.verify_token security utcnow token = Ok payload ->
     dict_get payload "sub" = JNull \/ exists email, dict_get payload "sub" = JStr email) ->
  snd (get_current_user security utcnow credentials session) = session
  /\ match fst (get_current_user security utcnow credentials session) with
     | Ok user =>
         In user (users session)
         /\ exists token payload,
              credentials = Some token
              /\ Security.verify_token security utcnow token = Ok payload
              /\ dict_get payload "sub" = JStr (User.email user)
     | Raise e => (exists detail, e = unauthorized detail) /\ response_status e = 401
     end.
Proof.
  intros Hsub. split; [apply get_current_user_reads|].
  unfold get_current_user. destruct credentials as [token|]; simpl; [|split; eauto].
  destruct (Security.verify_token security utcnow token) as [payload|e] eqn:V;
    simpl; [|split; eauto].
  destruct (Hsub token payload eq_refl V) as [E|[email E]]; rewrite E; simpl;
    [split; eauto|].
  unfold scalar. unfold_M. simpl.
  destruct (find _ (users session)) as [user|] eqn:F; simpl; [|split; eauto].
  apply find_some in F. destruct F as [Hin He]. apply String.eqb_eq in He.
  split; [exact Hin|]. exists token, payload. rewrite He. auto.
Qed.

Lemma get_current_user_outcome_witness :
  (forall token payload,
     Some "eve@example.com" = Some token ->
     Security.verify_token plain_security t1 token = Ok payload ->
     dict_get payload "sub" = JNull \/ exists email, dict_get payload "sub" = JStr email)
  /\ get_current_user plain_security t1 (Some "eve@example.com") session0 = (Ok eve, session0)
  /\ snd (get_current_user plain_security t1 (Some "eve@example.com") session0) = session0.
Proof.
  assert (forall token payload,
     Some "eve@example.com" = Some token ->
     Security.verify_token plain_security t1 token = Ok payload ->
     dict_get payload "sub" = JNull \/ exists email, dict_get payload "sub" = JStr email)
    as H.
  { intros token payload [= <-] V. vm_compute in V. injection V as <-.
    right. exists "eve@example.com". reflexivity. }
  split; [exact H|]. split; [reflexivity|].
  exact (proj1 (get_current_user_outcome plain_security t1 (Some "eve@example.com")
                  session0 H)).
Defined.

(** ** The machine registry *)

Lemma find_conj_first {T} (p q : T -> bool) (rows : list T) (r : T) :
  find p rows = Some r -> q r = true -> find (fun x => p x && q x) rows = Some r.
Proof.
  induction rows as [|x rows IH]; simpl; [discriminate|].
  destruct (p x) eqn:P; simpl.
  - intros [= ->] Q. now rewrite Q.
  - exact IH.
Qed.

(** What a successful call returns and leaves behind. *)
Lemma get_or_create_machine_result
    (now : datetime) (user : User.t) (mac_address name machine_type : string)
    (s s' : Session) (machine : Machine.t) :
  _get_or_create_machine now user mac_address name machine_type s = (Ok machine, s') ->
  Machine.mac_address machine = mac_address
  /\ Machine.name machine = Some name
  /\ Machine.type machine = machine_type
  /\ Machine.owner_id machine = User.id user
  /\ users s' = users s
  /\ machine_configurations s' = machine_configurations s
  /\ monitoring_data s' = monitoring_data s
  /\ ensure_machine_ownership mac_address user s' = (Ok machine, s').
Proof.
  pose proof (get_or_create_machine_cases now user mac_address name machine_type s) as C.
  destruct (find _ (machines s)) as [found|] eqn:F.
  - destruct (Machine.owner_id found =? User.id user) eqn:O; simpl in C;
      [|rewrite C; discriminate].
    pose proof F as F'. apply find_some in F'. destruct F' as [Hin Hmac].
    apply String.eqb_eq in Hmac. apply Z.eqb_eq in O.
    assert (find (fun m => String.eqb (Machine.mac_address m) mac_address
                           && (Machine.owner_id m =? User.id user)) (machines s)
            = Some found) as G.
    { apply find_conj_first; [exact F|]. now apply Z.eqb_eq. }
    destruct (_ && _) eqn:Same.
    + rewrite C. intros [= <- <-]. apply andb_true_iff in Same. destruct Same as [En Et].
      apply option_string_eqb_eq in En. apply String.eqb_eq in Et.
      repeat split; auto.
      unfold ensure_machine_ownership, scalar. unfold_M. now rewrite G.
    + cbv zeta in C. rewrite C. intros [= <- <-]. simpl. repeat split; auto.
      unfold ensure_machine_ownership, scalar. unfold_M. cbn [machines with_machines].
      rewrite (find_update_machine _ found _ _ G); [reflexivity| |reflexivity].
      simpl. rewrite Hmac, String.eqb_refl. simpl. now apply Z.eqb_eq.
  - cbv zeta in C. rewrite C. intros [= <- <-]. simpl. repeat split; auto.
    unfold ensure_machine_ownership, scalar. unfold_M. cbn [machines with_machines].
    rewrite (find_app_new _ _ _); [reflexivity| |].
    + apply find_none_intro. intros r Hr.
      now rewrite (find_none _ _ F r Hr).
    + simpl. now rewrite String.eqb_refl, Z.eqb_refl.
Qed.

(** A MAC address no machine carries: the row that is appended. *)
Lemma get_or_create_machine_new
    (now : datetime) (user : User.t) (mac_address name machine_type : string)
    (s : Session) :
  (forall m, In m (machines s) -> Machine.mac_address m <> mac_address) ->
  let machine :=
    Machine.mk (next_id (map Machine.id (machines s))) mac_address (Some name)
               machine_type (User.id user) now now in
  _get_or_create_machine now user mac_address name machine_type s
  = (Ok machine, with_machines (machines s ++ [machine]) s).
Proof.
  intros Hnew.
  pose proof (get_or_create_machine_cases now user mac_address name machine_type s) as C.
  rewrite find_none_intro in C; [exact C|].
  intros r Hr. apply String.eqb_neq. now apply Hnew.
Qed.

(** X7.  A MAC address nobody has registered is registered to the caller:
    the call succeeds, one row is appended, with a fresh primary key, the
    given MAC address, name and type and the caller as owner, the other rows
    staying as they were; the gate then admits the caller for that MAC and
    turns every other user away.  (Nothing is said of the two timestamps of
    the new row, which the column defaults fill.) *)
Theorem get_or_create_machine_creates
    (now : datetime) (user : User.t) (mac_address name machine_type : string)
    (session : Session) :
  (forall m, In m (machines session) -> Machine.mac_address m <> mac_address) ->
  exists machine session',
    _get_or_create_machine now user mac_address name machine_type session
      = (Ok machine, session')
    /\ machines session' = machines session ++ [machine]
    /\ Machine.mac_address machine = mac_address
    /\ Machine.name machine = Some name
    /\ Machine.type machine = machine_type
    /\ Machine.owner_id machine = User.id user
    /\ ~ In (Machine.id machine) (map Machine.id (machines session))
    /\ users session' = users session
    /\ machine_configurations session' = machine_configurations session
    /\ monitoring_data session' = monitoring_data session
    /\ ensure_machine_ownership mac_address user session' = (Ok machine, session')
    /\ forall other, User.id other <> User.id user ->
         ensure_machine_ownership mac_address other session'
           = (Raise machine_not_found, session').
Proof.
  intros Hnew.
  pose proof (get_or_create_machine_new now user mac_address name machine_type session Hnew)
    as C.
  cbv zeta in C.
  eexists. eexists. split; [exact C|].
  split; [reflexivity|]. split; [reflexivity|]. split; [reflexivity|].
  split; [reflexivity|]. split; [reflexivity|]. split; [apply next_id_fresh|].
  split; [reflexivity|]. split; [reflexivity|]. split; [reflexivity|].
  split.
  - now apply (get_or_create_machine_result now user mac_address name machine_type session).
  - intros other Ho. unfold ensure_machine_ownership, scalar. unfold_M.
    cbn [machines with_machines].
    rewrite find_none_intro; [reflexivity|].
    intros r Hr. apply in_app_iff in Hr. destruct Hr as [Hr|[<-|[]]].
    + apply andb_false_iff. left. apply String.eqb_neq. now apply Hnew.
    + apply andb_false_iff. right. simpl. apply Z.eqb_neq. congruence.
Qed.

Lemma get_or_create_machine_creates_witness :
  (forall m, In m (machines session0) -> Machine.mac_address m <> "11:22:33:44:55:66")
  /\ exists machine session',
       _get_or_create_machine t1 eve "11:22:33:44:55:66" "Laptop" "pc" session0
         = (Ok machine, session')
       /\ machines session' = machines session0 ++ [machine]
       /\ Machine.mac_address machine = "11:22:33:44:55:66"
       /\ Machine.name machine = Some "Laptop"
       /\ Machine.type machine = "pc"
       /\ Machine.owner_id machine = User.id eve
       /\ ~ In (Machine.id machine) (map Machine.id (machines session0))
       /\ users session' = users session0
       /\ machine_configurations session' = machine_configurations session0
       /\ monitoring_data session' = monitoring_data session0
       /\ ensure_machine_ownership "11:22:33:44:55:66" eve session' = (Ok machine, session')
       /\ forall other, User.id other <> User.id eve ->
            ensure_machine_ownership "11:22:33:44:55:66" other session'
              = (Raise machine_not_found, session').
Proof.
  assert (forall m, In m (machines session0) -> Machine.mac_address m <> "11:22:33:44:55:66")
    as H.
  { intros m [<-|[]]. discriminate. }
  split; [exact H|].
  exact (get_or_create_machine_creates t1 eve "11:22:33:44:55:66" "Laptop" "pc" session0 H).
Defined.

(** X8.  For a machine the caller owns the call is an update in place: the
    row keeps its primary key, MAC address, owner and creation time, takes
    the given name and type, and has its update time moved to the time of
    the call exactly when the name or the type changed; every other machine,
    and every other table, is left as it was. *)
Theorem get_or_create_machine_updates
    (now : datetime) (user : User.t) (name machine_type : string)
    (session : Session) (found : Machine.t) :
  consistent session -> In found (machines session) ->
  Machine.owner_id found = User.id user ->
  exists machine session',
    _get_or_create_machine now user (Machine.mac_address found) name machine_type session
      = (Ok machine, session')
    /\ machine = Machine.mk (Machine.id found) (Machine.mac_address found) (Some name)
                            machine_type (Machine.owner_id found) (Machine.created_at found)
                            (if option_string_eqb (Machine.name found) (Some name)
                                && String.eqb (Machine.type found) machine_type
                             then Machine.updated_at found else now)
    /\ In machine (machines session')
    /\ (forall m, In m (machines session) -> m <> found -> In m (machines session'))
    /\ List.length (machines session') = List.length (machines session)
    /\ users session' = users session
    /\ machine_configurations session' = machine_configurations session
    /\ monitoring_data session' = monitoring_data session.
Proof.
  intros Hc Hin Ho.
  pose proof (get_or_create_machine_cases now user (Machine.mac_address found) name
                machine_type session) as C.
  rewrite (find_mac_unique _ found (machines_mac _ Hc) Hin) in C.
  rewrite Ho, Z.eqb_refl in C. simpl in C.
  destruct (option_string_eqb (Machine.name found) (Some name)
            && String.eqb (Machine.type found) machine_type) eqn:Same.
  - exists found, session. split; [exact C|].
    apply andb_true_iff in Same. destruct Same as [En Et].
    apply option_string_eqb_eq in En. apply String.eqb_eq in Et.
    split; [destruct found; simpl in *; congruence|]. repeat split; auto.
  - eexists. eexists. split; [exact C|]. split; [now rewrite Ho|].
    cbn [machines users machine_configurations monitoring_data with_machines].
    split; [|split; [|split; [|auto]]].
    + now apply (In_update_row_new Machine.id found).
    + intros m Hm Hne. apply In_update_row_other; [exact Hm|]. simpl. intros E.
      apply Hne. now apply (NoDup_map_injective Machine.id (machines session));
        [apply (machines_pk _ Hc)| | |].
    + unfold update_machine. now rewrite length_map.
Qed.

Lemma get_or_create_machine_updates_witness :
  consistent session0 /\ In desktop (machines session0)
  /\ Machine.owner_id desktop = User.id ops
  /\ _get_or_create_machine t1 ops "AA:BB:CC:DD:EE:FF" "Rack-07" "pc" session0
     = (Ok (Machine.mk 1 "AA:BB:CC:DD:EE:FF" (Some "Rack-07") "pc" 1 t0 t1),
        mkSession [ops; eve] [Machine.mk 1 "AA:BB:CC:DD:EE:FF" (Some "Rack-07") "pc" 1 t0 t1]
                  [] [])
  /\ exists machine session',
       _get_or_create_machine t1 ops (Machine.mac_address desktop) "Rack-07" "pc" session0
         = (Ok machine, session')
       /\ machine = Machine.mk (Machine.id desktop) (Machine.mac_address desktop)
                               (Some "Rack-07") "pc" (Machine.owner_id desktop)
                               (Machine.created_at desktop)
                               (if option_string_eqb (Machine.name desktop) (Some "Rack-07")
                                   && String.eqb (Machine.type desktop) "pc"
                                then Machine.updated_at desktop else t1)
       /\ In machine (machines session')
       /\ (forall m, In m (machines session0) -> m <> desktop -> In m (machines session'))
       /\ List.length (machines session') = List.length (machines session0)
       /\ users session' = users session0
       /\ machine_configurations session' = machine_configurations session0
       /\ monitoring_data session' = monitoring_data session0.
Proof.
  split; [exact session0_consistent|]. split; [now left|]. split; [reflexivity|].
  split; [reflexivity|].
  exact (get_or_create_machine_updates t1 ops "Rack-07" "pc" session0 desktop
           session0_consistent (or_introl eq_refl) eq_refl).
Defined.

(** ** Registering and listing machines *)

Lemma register_machine_inv (now : datetime) (machine_in : MachineCreate.t)
    (user : User.t) (s s' : Session) (r : MachineRead.t) :
  register_machine now machine_in user s = (Ok r, s') ->
  exists machine,
    _get_or_create_machine now user (MachineCreate.mac_address machine_in)
      (name_or_mac machine_in) (MachineCreate.type machine_in) s = (Ok machine, s')
    /\ r = MachineRead.model_validate machine.
Proof.
  unfold register_machine, bind, ret.
  destruct (_get_or_create_machine _ _ _ _ _ s) as [[machine|e] s1]; [|discriminate].
  intros [= <- <-]. now exists machine.
Qed.

(** X9.  A machine registered without a name, or with an empty one, is named
    after its MAC address; with a name it keeps it.  The response carries the
    MAC address and the type of the request. *)
Theorem register_machine_name_defaults
    (now : datetime) (machine_in : MachineCreate.t) (user : User.t)
    (session session' : Session) (r : MachineRead.t) :
  register_machine now machine_in user session = (Ok r, session') ->
  MachineRead.mac_address r = MachineCreate.mac_address machine_in
  /\ MachineRead.type r = MachineCreate.type machine_in
  /\ (MachineCreate.name machine_in = None \/ MachineCreate.name machine_in = Some "" ->
      MachineRead.name r = Some (MachineCreate.mac_address machine_in))
  /\ (forall name, MachineCreate.name machine_in = Some name -> name <> "" ->
      MachineRead.name r = Some name).
Proof.
  intros H. apply register_machine_inv in H. destruct H as [machine [H ->]].
  apply get_or_create_machine_result in H.
  destruct H as [Hmac [Hname [Hty _]]]. simpl.
  split; [exact Hmac|]. split; [exact Hty|]. rewrite Hname. unfold name_or_mac. split.
  - intros [->| ->]; reflexivity.
  - intros name -> Hne. apply String.eqb_neq in Hne. now rewrite Hne.
Qed.

Lemma register_machine_name_defaults_witness :
  register_machine t1 (MachineCreate.mk "11:22:33:44:55:66" (Some "") "server") eve session0
  = (Ok (MachineRead.mk 2 "11:22:33:44:55:66" (Some "11:22:33:44:55:66") "server"),
     with_machines
       [desktop; Machine.mk 2 "11:22:33:44:55:66" (Some "11:22:33:44:55:66") "server" 2 t1 t1]
       session0)
  /\ MachineRead.name (MachineRead.mk 2 "11:22:33:44:55:66" (Some "11:22:33:44:55:66") "server")
     = Some "11:22:33:44:55:66".
Proof.
  split; [reflexivity|].
  refine (proj1 (proj2 (proj2 (register_machine_name_defaults t1
            (MachineCreate.mk "11:22:33:44:55:66" (Some "") "server") eve session0
            (with_machines
               [desktop;
                Machine.mk 2 "11:22:33:44:55:66" (Some "11:22:33:44:55:66") "server" 2 t1 t1]
               session0)
            (MachineRead.mk 2 "11:22:33:44:55:66" (Some "11:22:33:44:55:66") "server") _))) _).
  - reflexivity.
  - now right.
Defined.

(** X10.  A machine that was registered is listed: after a successful
    [register_machine] the caller's [list_machines] contains the response of
    the registration, and everything it lists is a machine the caller owns. *)
Theorem register_machine_then_list
    (now : datetime) (machine_in : MachineCreate.t) (user : User.t)
    (session session' : Session) (r : MachineRead.t) :
  register_machine now machine_in user session = (Ok r, session') ->
  exists listed,
    list_machines user session' = (Ok listed, session')
    /\ In r listed
    /\ forall x, In x listed ->
         exists m, In m (machines session')
                   /\ Machine.owner_id m = User.id user
                   /\ x = MachineRead.model_validate m.
Proof.
  intros H. apply register_machine_inv in H. destruct H as [machine [H ->]].
  apply get_or_create_machine_result in H.
  destruct H as [_ [_ [_ [_ [_ [_ [_ G]]]]]]].
  destruct (ensure_machine_ownership_reads (MachineCreate.mac_address machine_in) user
              session') as [_ Hm].
  rewrite G in Hm. destruct (Hm machine eq_refl) as [Hin [_ Ho]].
  eexists. split; [reflexivity|]. split.
  - apply in_map. apply filter_In. split; [exact Hin|]. now apply Z.eqb_eq.
  - intros x Hx. apply in_map_iff in Hx. destruct Hx as [m [<- Hf]].
    apply filter_In in Hf. destruct Hf as [Hmin Hmo]. apply Z.eqb_eq in Hmo.
    now exists m.
Qed.

Lemma register_machine_then_list_witness :
  register_machine t1 (MachineCreate.mk "11:22:33:44:55:66" None "pc") ops session0
  = (Ok (MachineRead.mk 2 "11:22:33:44:55:66" (Some "11:22:33:44:55:66") "pc"),
     with_machines
       [desktop; Machine.mk 2 "11:22:33:44:55:66" (Some "11:22:33:44:55:66") "pc" 1 t1 t1]
       session0)
  /\ exists listed,
       list_machines ops
         (with_machines
            [desktop; Machine.mk 2 "11:22:33:44:55:66" (Some "11:22:33:44:55:66") "pc" 1 t1 t1]
            session0)
       = (Ok listed,
          with_machines
            [desktop; Machine.mk 2 "11:22:33:44:55:66" (Some "11:22:33:44:55:66") "pc" 1 t1 t1]
            session0)
       /\ In (MachineRead.mk 2 "11:22:33:44:55:66" (Some "11:22:33:44:55:66") "pc") listed
       /\ forall x, In x listed ->
            exists m,
              In m (machines
                      (with_machines
                         [desktop;
                          Machine.mk 2 "11:22:33:44:55:66" (Some "11:22:33:44:55:66") "pc" 1
                                     t1 t1]
                         session0))
              /\ Machine.owner_id m = User.id ops
              /\ x = MachineRead.model_validate m.
Proof.
  split; [reflexivity|].
  apply (register_machine_then_list t1 (MachineCreate.mk "11:22:33:44:55:66" None "pc") ops
           session0).
  reflexivity.
Defined.

(** ** Logging in *)

(** X11.  An unknown e-mail and a wrong password are answered alike: when no
    account with the e-mail of the request accepts its password, [login]
    raises 401 "Invalid credentials" and registers no machine. *)
Theorem login_invalid_credentials
    (security : Security.t) (utcnow now : datetime) (request : LoginRequest.t)
    (session : Session) :
  (forall u, In u (users session) ->
     User.email u = LoginRequest.email request ->
     Security.verify_password security (LoginRequest.password request)
                              (User.hashed_password u) = false) ->
  login security utcnow now request session
  = (Raise (Http (mkHTTP 401 "Invalid credentials")), session).
Proof.
  intros H. unfold login, scalar. unfold_M.
  destruct (find _ (users session)) as [user|] eqn:F; [|reflexivity].
  apply find_some in F. destruct F as [Hin He]. apply String.eqb_eq in He.
  now rewrite (H user Hin He).
Qed.

Lemma login_invalid_credentials_witness :
  (forall u, In u (users session0) ->
     User.email u = "ops@example.com" ->
     Security.verify_password plain_security "guess" (User.hashed_password u) = false)
  /\ login plain_security t1 t1
       (LoginRequest.mk "ops@example.com" "guess" "AA:BB:CC:DD:EE:FF" "Desktop-01" "windows")
       session0
     = (Raise (Http (mkHTTP 401 "Invalid credentials")), session0)
  /\ login plain_security t1 t1
       (LoginRequest.mk "nobody@example.com" "guess" "AA:BB:CC:DD:EE:FF" "Desktop-01" "windows")
       session0
     = (Raise (Http (mkHTTP 401 "Invalid credentials")), session0).
Proof.
  assert (forall u, In u (users session0) ->
     User.email u = "ops@example.com" ->
     Security.verify_password plain_security "guess" (User.hashed_password u) = false) as H.
  { intros u [<-|[<-|[]]] E; [reflexivity | discriminate]. }
  split; [exact H|]. split; [|reflexivity].
  exact (login_invalid_credentials plain_security t1 t1
           (LoginRequest.mk "ops@example.com" "guess" "AA:BB:CC:DD:EE:FF" "Desktop-01"
                            "windows") session0 H).
Defined.

(** X12.  A successful login binds the machine to the account: the account
    is the stored one with the e-mail of the request and accepts its
    password; afterwards the gate admits it for the MAC address of the
    request, the machine carries the user name of the request as its name and
    the type derived from the reported operating system, and the response's
    [type] is that machine type (not a token type); the token is issued for
    the account's e-mail with the machine's MAC and type and the user id. *)
Theorem login_binds_machine
    (security : Security.t) (utcnow now : datetime) (request : LoginRequest.t)
    (session session' : Session) (token : Token.t) :
  login security utcnow now request session = (Ok token, session') ->
  exists user machine,
    In user (users session)
    /\ User.email user = LoginRequest.email request
    /\ Security.verify_password security (LoginRequest.password request)
                                (User.hashed_password user) = true
    /\ ensure_machine_ownership (LoginRequest.mac_address request) user session'
       = (Ok machine, session')
    /\ Machine.name machine = Some (LoginRequest.username request)
    /\ Machine.type machine = machine_type_of (LoginRequest.c request)
    /\ Token.type token = machine_type_of (LoginRequest.c request)
    /\ Token.token token
       = Security.create_access_token security utcnow (User.email user)
           [("machine_mac", JStr (LoginRequest.mac_address request));
            ("machine_type", JStr (machine_type_of (LoginRequest.c request)));
            ("user_id", JInt (User.id user))]
    /\ users session' = users session.
Proof.
  unfold login, scalar. unfold_M.
  destruct (find _ (users session)) as [user|] eqn:F; [|discriminate].
  destruct (Security.verify_password _ _ _) eqn:V; simpl; [|discriminate].
  destruct (_get_or_create_machine _ _ _ _ _ session) as [[machine|e] s1] eqn:G;
    [|discriminate].
  intros [= <- <-]. apply get_or_create_machine_result in G.
  destruct G as [Hmac [Hname [Hty [_ [Hu [_ [_ Hg]]]]]]].
  apply find_some in F. destruct F as [Hin He]. apply String.eqb_eq in He.
  exists user, machine. simpl. rewrite Hmac, Hty. repeat split; auto.
Qed.

Lemma login_binds_machine_witness :
  login plain_security t1 t1
    (LoginRequest.mk "ops@example.com" "12$ops" "AA:BB:CC:DD:EE:FF" "Rack-07" "Ubuntu Server")
    session0
  = (Ok (Token.mk "ops@example.com" "server"),
     with_machines [Machine.mk 1 "AA:BB:CC:DD:EE:FF" (Some "Rack-07") "server" 1 t0 t1]
                   session0)
  /\ exists user machine,
       In user (users session0)
       /\ User.email user = "ops@example.com"
       /\ Security.verify_password plain_security "12$ops" (User.hashed_password user) = true
       /\ ensure_machine_ownership "AA:BB:CC:DD:EE:FF" user
            (with_machines [Machine.mk 1 "AA:BB:CC:DD:EE:FF" (Some "Rack-07") "server" 1 t0 t1]
                           session0)
          = (Ok machine,
             with_machines [Machine.mk 1 "AA:BB:CC:DD:EE:FF" (Some "Rack-07") "server" 1 t0 t1]
                           session0)
       /\ Machine.name machine = Some "Rack-07"
       /\ Machine.type machine = machine_type_of "Ubuntu Server"
       /\ Token.type (Token.mk "ops@example.com" "server") = machine_type_of "Ubuntu Server"
       /\ Token.token (Token.mk "ops@example.com" "server")
          = Security.create_access_token plain_security t1 (User.email user)
              [("machine_mac", JStr "AA:BB:CC:DD:EE:FF");
               ("machine_type", JStr (machine_type_of "Ubuntu Server"));
               ("user_id", JInt (User.id user))]
       /\ users
            (with_machines [Machine.mk 1 "AA:BB:CC:DD:EE:FF" (Some "Rack-07") "server" 1 t0 t1]
                           session0)
          = users session0.
Proof.
  split; [reflexivity|].
  apply (login_binds_machine plain_security t1 t1
           (LoginRequest.mk "ops@example.com" "12$ops" "AA:BB:CC:DD:EE:FF" "Rack-07"
                            "Ubuntu Server") session0).
  reflexivity.
Defined.

(** ** The machine type reported at login *)

Lemma prefix_split (a b : string) :
  String.prefix a b = true <-> exists post, b = (a ++ post)%string.
Proof.
  revert b. induction a as [|c a IH]; intros b.
  - split; [intros _; now exists b | intros _; now destruct b].
  - destruct b as [|d b]; simpl.
    + split; [discriminate | intros [post H]; discriminate].
    + destruct (Ascii.ascii_dec c d) as [->|Hne].
      * rewrite IH. split; intros [post H]; exists post; congruence.
      * split; [discriminate | intros [post H]; congruence].
Qed.

Lemma contains_split (needle haystack : string) :
  contains needle haystack = true
  <-> exists pre post, haystack = (pre ++ needle ++ post)%string.
Proof.
  induction haystack as [|c h IH]; cbn [contains]; rewrite orb_true_iff, prefix_split.
  - split.
    + intros [[post H]|H]; [|discriminate]. now exists "", post.
    + intros [pre [post H]]. left. destruct pre; simpl in H.
      * now exists post.
      * discriminate.
  - rewrite IH. split.
    + intros [[post H]|[pre [post H]]].
      * now exists "", post.
      * exists (String c pre), post. simpl. now rewrite H.
    + intros [pre [post H]]. destruct pre as [|d pre]; simpl in H.
      * left. now exists post.
      * right. injection H as _ H. now exists pre, post.
Qed.

Lemma lower_app (a b : string) :
  MachineConfigPayload.lower (a ++ b)
  = (MachineConfigPayload.lower a ++ MachineConfigPayload.lower b)%string.
Proof. induction a as [|c a IH]; simpl; [reflexivity | now rewrite IH]. Qed.

(** X13.  The machine type of a login is ["server"] exactly when the reported
    operating system, in lower case, contains ["server"]: so whenever the
    word occurs in it in any mix of upper and lower case.  It is ["pc"] in
    every other case; no other type is ever assigned at login. *)
Theorem machine_type_of_server (c : string) :
  (machine_type_of c = "server"
   <-> exists pre post,
         MachineConfigPayload.lower c = (pre ++ "server" ++ post)%string)
  /\ (forall pre word post,
        c = (pre ++ word ++ post)%string ->
        MachineConfigPayload.lower word = "server" ->
        machine_type_of c = "server")
  /\ (machine_type_of c = "server" \/ machine_type_of c = "pc").
Proof.
  unfold machine_type_of. rewrite <- contains_split. split; [|split].
  - destruct (contains "server" (MachineConfigPayload.lower c)); split; auto; discriminate.
  - intros pre word post -> Hw.
    assert (contains "server" (MachineConfigPayload.lower (pre ++ word ++ post)) = true)
      as ->; [|reflexivity].
    apply contains_split. rewrite !lower_app, Hw. eauto.
  - destruct (contains "server" (MachineConfigPayload.lower c)); auto.
Qed.

Lemma machine_type_of_server_witness :
  "Windows SERVER 2022" = ("Windows " ++ "SERVER" ++ " 2022")%string
  /\ MachineConfigPayload.lower "SERVER" = "server"
  /\ machine_type_of "Windows SERVER 2022" = "server".
Proof.
  split; [reflexivity|]. split; [reflexivity|].
  apply (proj1 (proj2 (machine_type_of_server "Windows SERVER 2022"))
           "Windows " "SERVER" " 2022"); reflexivity.
Defined.

(** ** Accounts *)

Lemma register_user_inv (security : Security.t) (salt : string) (user_in : UserCreate.t)
    (s s' : Session) (r : UserRead.t) :
  register_user security salt user_in s = (Ok r, s') ->
  let user :=
    User.mk (next_id (map User.id (users s))) (UserCreate.email user_in)
            (UserCreate.full_name user_in)
            (Security.get_password_hash security salt (UserCreate.password user_in)) true in
  find (fun u => String.eqb (User.email u) (UserCreate.email user_in)) (users s) = None
  /\ r = UserRead.model_validate user
  /\ s' = with_users (users s ++ [user]) s.
Proof.
  unfold register_user, scalar. unfold_M.
  destruct (find _ (users s)) as [u|] eqn:F; [discriminate|].
  intros [= <- <-]. auto.
Qed.

(** X14.  An e-mail registers once: a successful registration answers with
    the e-mail and name of the request and a fresh id, stores the hash the
    password-hashing function returned and not the password of the request,
    and from then on every registration with that e-mail, whatever its
    password and name, is refused with 400 "Email already registered" and
    changes nothing. *)
Theorem register_user_once
    (security : Security.t) (salt : string) (user_in : UserCreate.t)
    (session session' : Session) (r : UserRead.t) :
  register_user security salt user_in session = (Ok r, session') ->
  UserRead.email r = UserCreate.email user_in
  /\ UserRead.full_name r = UserCreate.full_name user_in
  /\ ~ In (UserRead.id r) (map User.id (users session))
  /\ (exists user,
        users session' = users session ++ [user]
        /\ User.id user = UserRead.id r
        /\ User.email user = UserCreate.email user_in
        /\ User.hashed_password user
           = Security.get_password_hash security salt (UserCreate.password user_in)
        /\ User.is_active user = true)
  /\ forall salt' again,
       UserCreate.email again = UserCreate.email user_in ->
       register_user security salt' again session'
       = (Raise (Http (mkHTTP 400 "Email already registered")), session').
Proof.
  intros H. apply register_user_inv in H. cbv zeta in H. destruct H as [F [-> ->]].
  simpl. repeat split; auto.
  - apply next_id_fresh.
  - eexists. repeat split; reflexivity.
  - intros salt' again E. unfold register_user, scalar. unfold_M.
    cbn [users with_users]. rewrite E.
    rewrite (find_app_new _ _ _ F); [reflexivity|]. simpl. apply String.eqb_refl.
Qed.

Lemma register_user_once_witness :
  register_user plain_security "salt" (UserCreate.mk "new@example.com" None "s3cret") session0
  = (Ok (UserRead.mk "new@example.com" None 3),
     with_users [ops; eve; User.mk 3 "new@example.com" None "salt$s3cret" true] session0)
  /\ register_user plain_security "pepper"
       (UserCreate.mk "new@example.com" (Some "Someone Else") "other")
       (with_users [ops; eve; User.mk 3 "new@example.com" None "salt$s3cret" true] session0)
     = (Raise (Http (mkHTTP 400 "Email already registered")),
        with_users [ops; eve; User.mk 3 "new@example.com" None "salt$s3cret" true] session0).
Proof.
  split; [reflexivity|].
  refine (proj2 (proj2 (proj2 (proj2 (register_user_once plain_security "salt"
            (UserCreate.mk "new@example.com" None "s3cret") session0
            (with_users [ops; eve; User.mk 3 "new@example.com" None "salt$s3cret" true]
                        session0)
            (UserRead.mk "new@example.com" None 3) _))))
            "pepper" (UserCreate.mk "new@example.com" (Some "Someone Else") "other") _);
    reflexivity.
Defined.

(** X15.  An account that was just registered can log in: if the password
    check accepts the password against the hash stored at registration, a
    login with the same e-mail and password from a MAC address nobody has
    registered succeeds, creates the machine for the new account, and answers
    with the machine type derived from the reported operating system. *)
Theorem register_then_login
    (security : Security.t) (salt : string) (user_in : UserCreate.t)
    (utcnow now : datetime) (request : LoginRequest.t)
    (session session1 : Session) (r : UserRead.t) :
  register_user security salt user_in session = (Ok r, session1) ->
  Security.verify_password security (UserCreate.password user_in)
    (Security.get_password_hash security salt (UserCreate.password user_in)) = true ->
  LoginRequest.email request = UserCreate.email user_in ->
  LoginRequest.password request = UserCreate.password user_in ->
  (forall m, In m (machines session) ->
     Machine.mac_address m <> LoginRequest.mac_address request) ->
  exists token session2 machine,
    login security utcnow now request session1 = (Ok token, session2)
    /\ Token.type token = machine_type_of (LoginRequest.c request)
    /\ machines session2 = machines session ++ [machine]
    /\ Machine.owner_id machine = UserRead.id r
    /\ Machine.mac_address machine = LoginRequest.mac_address request
    /\ Machine.name machine = Some (LoginRequest.username request).
Proof.
  intros H V Ee Ep Hmac. apply register_user_inv in H. cbv zeta in H.
  destruct H as [F [-> ->]].
  set (user := User.mk _ _ _ _ _).
  pose proof (get_or_create_machine_new now user (LoginRequest.mac_address request)
                (LoginRequest.username request) (machine_type_of (LoginRequest.c request))
                (with_users (users session ++ [user]) session) Hmac) as G.
  cbv zeta in G. cbn [machines with_users] in G.
  set (machine := Machine.mk _ _ _ _ _ _ _) in G.
  set (s2 := with_machines _ _) in G.
  unfold login, scalar. unfold_M. cbn [users with_users]. rewrite Ee.
  rewrite (find_app_new _ _ user F); [|simpl; apply String.eqb_refl].
  rewrite Ep. cbn [User.hashed_password user]. rewrite V. cbn [negb].
  rewrite G.
  destruct (get_or_create_machine_result _ _ _ _ _ _ _ _ G) as [Rmac [Rname [Rty [Rown _]]]].
  eexists. exists s2, machine. split; [reflexivity|]. cbn [Token.type].
  repeat split; auto.
Qed.

Lemma register_then_login_witness :
  register_user plain_security "salt" (UserCreate.mk "ops@example.com" (Some "Ops User") "s3cret")
    empty_database
  = (Ok (UserRead.mk "ops@example.com" (Some "Ops User") 1),
     mkSession [User.mk 1 "ops@example.com" (Some "Ops User") "salt$s3cret" true] [] [] [])
  /\ Security.verify_password plain_security "s3cret"
       (Security.get_password_hash plain_security "salt" "s3cret") = true
  /\ exists token session2 machine,
       login plain_security t1 t1 login_ops
         (mkSession [User.mk 1 "ops@example.com" (Some "Ops User") "salt$s3cret" true] [] [] [])
       = (Ok token, session2)
       /\ Token.type token = machine_type_of (LoginRequest.c login_ops)
       /\ machines session2 = machines empty_database ++ [machine]
       /\ Machine.owner_id machine = 1
       /\ Machine.mac_address machine = LoginRequest.mac_address login_ops
       /\ Machine.name machine = Some (LoginRequest.username login_ops).
Proof.
  split; [reflexivity|]. split; [reflexivity|].
  apply (register_then_login plain_security "salt"
           (UserCreate.mk "ops@example.com" (Some "Ops User") "s3cret") t1 t1 login_ops
           empty_database
           (mkSession [User.mk 1 "ops@example.com" (Some "Ops User") "salt$s3cret" true]
                      [] [] [])
           (UserRead.mk "ops@example.com" (Some "Ops User") 1));
    try reflexivity.
  intros m [].
Defined.

(** X16.  The token of a login authenticates its account: if a token
    created for the e-mail of the login verifies and carries that e-mail as
    its subject, then after a successful login [get_current_user] accepts the
    token of the response and returns the stored account with that e-mail,
    and the gate admits that account for the MAC address it logged in
    from. *)
Theorem login_token_authenticates
    (security : Security.t) (utcnow now later : datetime) (request : LoginRequest.t)
    (session session' : Session) (token : Token.t) :
  (forall extra, exists payload,
     Security.verify_token security later
       (Security.create_access_token security utcnow (LoginRequest.email request) extra)
     = Ok payload
     /\ dict_get payload "sub" = JStr (LoginRequest.email request)) ->
  login security utcnow now request session = (Ok token, session') ->
  exists user machine,
    get_current_user security later (Some (Token.token token)) session'
      = (Ok user, session')
    /\ User.email user = LoginRequest.email request
    /\ ensure_machine_ownership (LoginRequest.mac_address request) user session'
       = (Ok machine, session').
Proof.
  intros Hjwt. unfold login, scalar. unfold_M.
  destruct (find _ (users session)) as [user|] eqn:F; [|discriminate].
  destruct (Security.verify_password _ _ _); simpl; [|discriminate].
  destruct (_get_or_create_machine _ _ _ _ _ session) as [[machine|e] s1] eqn:G;
    [|discriminate].
  intros [= <- <-]. apply get_or_create_machine_result in G.
  destruct G as [_ [_ [_ [_ [Hu [_ [_ Hg]]]]]]].
  pose proof F as F'. apply find_some in F'. destruct F' as [_ He].
  apply String.eqb_eq in He.
  destruct (Hjwt [("machine_mac", JStr (Machine.mac_address machine));
                  ("machine_type", JStr (Machine.type machine));
                  ("user_id", JInt (User.id user))]) as [payload [Hv Hs]].
  exists user, machine. cbn [Token.token]. unfold get_current_user.
  rewrite He, Hv, Hs. unfold scalar. unfold_M. cbn [email_as_text]. cbv beta.
  rewrite Hu, F. auto.
Qed.

Lemma login_token_authenticates_witness :
  (forall extra, exists payload,
     Security.verify_token plain_security t1
       (Security.create_access_token plain_security t0 (LoginRequest.email login_ops) extra)
     = Ok payload
     /\ dict_get payload "sub" = JStr (LoginRequest.email login_ops))
  /\ login plain_security t0 t0 login_ops
       (mkSession [User.mk 1 "ops@example.com" (Some "Ops User") "salt$s3cret" true] [] [] [])
     = (Ok (Token.mk "ops@example.com" "pc"),
        mkSession [User.mk 1 "ops@example.com" (Some "Ops User") "salt$s3cret" true]
                  [desktop] [] [])
  /\ exists user machine,
       get_current_user plain_security t1 (Some "ops@example.com")
         (mkSession [User.mk 1 "ops@example.com" (Some "Ops User") "salt$s3cret" true]
                    [desktop] [] [])
       = (Ok user,
          mkSession [User.mk 1 "ops@example.com" (Some "Ops User") "salt$s3cret" true]
                    [desktop] [] [])
       /\ User.email user = "ops@example.com"
       /\ ensure_machine_ownership "AA:BB:CC:DD:EE:FF" user
            (mkSession [User.mk 1 "ops@example.com" (Some "Ops User") "salt$s3cret" true]
                       [desktop] [] [])
          = (Ok machine,
             mkSession [User.mk 1 "ops@example.com" (Some "Ops User") "salt$s3cret" true]
                       [desktop] [] []).
Proof.
  assert (forall extra, exists payload,
     Security.verify_token plain_security t1
       (Security.create_access_token plain_security t0 (LoginRequest.email login_ops) extra)
     = Ok payload
     /\ dict_get payload "sub" = JStr (LoginRequest.email login_ops)) as H.
  { intros extra. eexists. split; reflexivity. }
  split; [exact H|]. split; [reflexivity|].
  apply (login_token_authenticates plain_security t0 t0 t1 login_ops
           (mkSession [User.mk 1 "ops@example.com" (Some "Ops User") "salt$s3cret" true]
                      [] [] [])
           (mkSession [User.mk 1 "ops@example.com" (Some "Ops User") "salt$s3cret" true]
                      [desktop] [] [])
           (Token.mk "ops@example.com" "pc") H).
  reflexivity.
Defined.

(** ** Configurations *)

Lemma ensure_machine_ownership_inv (mac : string) (user : User.t) (s s' : Session)
    (machine : Machine.t) :
  ensure_machine_ownership mac user s = (Ok machine, s') ->
  s' = s /\ In machine (machines s)
  /\ Machine.mac_address machine = mac /\ Machine.owner_id machine = User.id user.
Proof.
  intros H. destruct (ensure_machine_ownership_reads mac user s) as [Hs Hm].
  rewrite H in Hs, Hm. simpl in Hs. split; [exact Hs|]. now apply Hm.
Qed.

(** X17.  A machine that has just been registered has no configuration:
    in a database that keeps its constraints, registering a MAC address
    nobody has registered succeeds, and the owner's [get_machine_config] for
    it answers 404 "Configuration not found", not the 404 "Machine not found"
    of the gate. *)
Theorem registered_machine_not_configured
    (now : datetime) (machine_in : MachineCreate.t) (user : User.t) (session : Session) :
  consistent session ->
  (forall m, In m (machines session) ->
     Machine.mac_address m <> MachineCreate.mac_address machine_in) ->
  exists r session',
    register_machine now machine_in user session = (Ok r, session')
    /\ get_machine_config (MachineCreate.mac_address machine_in) user session'
       = (Raise (Http (mkHTTP 404 "Configuration not found")), session').
Proof.
  intros Hc Hnew.
  pose proof (get_or_create_machine_new now user (MachineCreate.mac_address machine_in)
                (name_or_mac machine_in) (MachineCreate.type machine_in) session Hnew) as G.
  cbv zeta in G.
  set (machine := Machine.mk _ _ _ _ _ _ _) in G.
  set (s' := with_machines _ _) in G.
  assert (~ In (Machine.id machine) (map Machine.id (machines session))) as Hfresh
    by apply next_id_fresh.
  assert (ensure_machine_ownership (MachineCreate.mac_address machine_in) user s'
          = (Ok machine, s')) as Hg
    by now apply (get_or_create_machine_result _ _ _ _ _ _ _ _ G).
  exists (MachineRead.model_validate machine), s'. split.
  - unfold register_machine, bind, ret. now rewrite G.
  - unfold get_machine_config, bind. rewrite Hg. unfold query, scalar, raise.
    assert (machine_configurations s' = machine_configurations session) as ->.
    { now apply (get_or_create_machine_result _ _ _ _ _ _ _ _ G). }
    rewrite find_none_intro; [reflexivity|].
    intros c Hin. apply Z.eqb_neq. intros E. apply Hfresh. rewrite <- E.
    now apply (configurations_machine _ Hc).
Qed.

Lemma registered_machine_not_configured_witness :
  consistent session0
  /\ (forall m, In m (machines session0) -> Machine.mac_address m <> "11:22:33:44:55:66")
  /\ exists r session',
       register_machine t1 (MachineCreate.mk "11:22:33:44:55:66" None "pc") eve session0
         = (Ok r, session')
       /\ get_machine_config "11:22:33:44:55:66" eve session'
          = (Raise (Http (mkHTTP 404 "Configuration not found")), session').
Proof.
  assert (forall m, In m (machines session0) -> Machine.mac_address m <> "11:22:33:44:55:66")
    as H.
  { intros m [<-|[]]. discriminate. }
  split; [exact session0_consistent|]. split; [exact H|].
  exact (registered_machine_not_configured t1
           (MachineCreate.mk "11:22:33:44:55:66" None "pc") eve session0
           session0_consistent H).
Defined.

(** X18.  Storing a configuration touches the configuration of that machine
    and nothing else: in a database that keeps its constraints, after a
    successful [update_machine_config] the machine named by the document has
    a configuration holding the document and update time of the response,
    the configurations of all other machines are exactly those from before,
    and users, machines and metric records are unchanged. *)
Theorem update_machine_config_touches_one
    (now : datetime) (payload : dict) (user : User.t) (session session' : Session)
    (r : ConfigUpdateResponse.t) :
  consistent session ->
  update_machine_config now payload user session = (Ok r, session') ->
  exists config_data machine c,
    MachineConfigPayload.model_validate payload = Ok config_data
    /\ ensure_machine_ownership (MachineConfigPayload.mac config_data) user session
       = (Ok machine, session)
    /\ In c (machine_configurations session')
    /\ MachineConfiguration.machine_id c = Machine.id machine
    /\ MachineConfiguration.raw_payload c = ConfigUpdateResponse.data r
    /\ MachineConfiguration.updated_at c = ConfigUpdateResponse.updated_at r
    /\ (forall c0, MachineConfiguration.machine_id c0 <> Machine.id machine ->
          (In c0 (machine_configurations session')
           <-> In c0 (machine_configurations session)))
    /\ users session' = users session
    /\ machines session' = machines session
    /\ monitoring_data session' = monitoring_data session.
Proof.
  intros Hc. unfold update_machine_config. unfold bind at 1. unfold lift at 1.
  destruct (MachineConfigPayload.model_validate payload) as [config_data|e]; [|discriminate].
  unfold bind at 1.
  destruct (ensure_machine_ownership (MachineConfigPayload.mac config_data) user session)
    as [[machine|e] s1] eqn:G; [|discriminate].
  destruct (ensure_machine_ownership_inv _ _ _ _ _ G) as [-> _].
  unfold scalar. unfold_M. cbv beta.
  destruct (find _ (machine_configurations session)) as [old|] eqn:F.
  - pose proof F as F'. apply find_some in F'. destruct F' as [Hin Hid].
    apply Z.eqb_eq in Hid.
    destruct (py_eq _ _).
    + intros [= <- <-]. exists config_data, machine, old. repeat split; auto.
    + intros [= <- <-]. cbn [ConfigUpdateResponse.data ConfigUpdateResponse.updated_at].
      exists config_data, machine,
        (MachineConfiguration.mk (MachineConfiguration.id old)
           (MachineConfiguration.machine_id old)
           (MachineConfigPayload.model_dump_by_alias config_data)
           (MachineConfiguration.created_at old) now).
      split; [reflexivity|]. split; [exact G|].
      cbn [machine_configurations users machines monitoring_data
           with_machine_configurations].
      split; [|split; [exact Hid|split; [reflexivity|split; [reflexivity|]]]].
      * unfold update_configuration.
        now apply (In_update_row_new MachineConfiguration.id old).
      * split; [|auto]. intros c0 Hne. unfold update_configuration. split.
        -- intros H0.
           apply (In_update_row MachineConfiguration.id old) in H0;
             [|apply (configurations_pk _ Hc)|exact Hin|reflexivity].
           destruct H0 as [->|[H0 _]]; [|exact H0]. simpl in Hne. congruence.
        -- intros H0. apply In_update_row_other; [exact H0|]. simpl. intros E.
           apply Hne. rewrite <- Hid. f_equal.
           now apply (NoDup_map_injective MachineConfiguration.id
                        (machine_configurations session));
             [apply (configurations_pk _ Hc)| | |].
  - intros [= <- <-]. cbn [ConfigUpdateResponse.data ConfigUpdateResponse.updated_at].
    exists config_data, machine,
      (MachineConfiguration.mk
         (next_id (map MachineConfiguration.id (machine_configurations session)))
         (Machine.id machine) (MachineConfigPayload.model_dump_by_alias config_data) now now).
    split; [reflexivity|]. split; [exact G|].
    cbn [machine_configurations users machines monitoring_data with_machine_configurations].
    split; [|split; [reflexivity|split; [reflexivity|split; [reflexivity|]]]].
    + apply in_app_iff. right. now left.
    + split; [|auto]. intros c0 Hne. rewrite in_app_iff. split; [|auto].
      intros [H0|[<-|[]]]; [exact H0|]. simpl in Hne. congruence.
Qed.

Lemma update_machine_config_touches_one_witness :
  consistent session0
  /\ exists s1 r1,
       update_machine_config t1 config_by_alias ops session0 = (Ok r1, s1)
       /\ exists config_data machine c,
            MachineConfigPayload.model_validate config_by_alias = Ok config_data
            /\ ensure_machine_ownership (MachineConfigPayload.mac config_data) ops session0
               = (Ok machine, session0)
            /\ In c (machine_configurations s1)
            /\ MachineConfiguration.machine_id c = Machine.id machine
            /\ MachineConfiguration.raw_payload c = ConfigUpdateResponse.data r1
            /\ MachineConfiguration.updated_at c = ConfigUpdateResponse.updated_at r1
            /\ (forall c0, MachineConfiguration.machine_id c0 <> Machine.id machine ->
                  (In c0 (machine_configurations s1)
                   <-> In c0 (machine_configurations session0)))
            /\ users s1 = users session0
            /\ machines s1 = machines session0
            /\ monitoring_data s1 = monitoring_data session0.
Proof.
  split; [exact session0_consistent|].
  eexists. eexists. split; [vm_compute; reflexivity|].
  apply (update_machine_config_touches_one t1 config_by_alias ops session0);
    [exact session0_consistent | vm_compute; reflexivity].
Defined.

(** ** Metric records *)

Lemma update_machine_status_inv
    (utcnow now : datetime) (uuid4_hex : string) (data : dict) (user : User.t)
    (s s' : Session) (r : StatusResponse.t) :
  update_machine_status utcnow now uuid4_hex data user s = (Ok r, s') ->
  exists mac machine timestamp,
    payload_mac data = Ok (JStr mac) /\ mac <> ""
    /\ ensure_machine_ownership mac user s = (Ok machine, s)
    /\ payload_timestamp utcnow data = Ok timestamp
    /\ existsb (fun d => String.eqb (MonitoringData.reference_id d) uuid4_hex)
               (monitoring_data s) = false
    /\ r = StatusResponse.mk "success" uuid4_hex timestamp
    /\ s' = with_monitoring_data
              (monitoring_data s
               ++ [MonitoringData.mk (next_id (map MonitoringData.id (monitoring_data s)))
                                     (Machine.id machine) timestamp data uuid4_hex now now])
              s.
Proof.
  unfold update_machine_status. unfold bind at 1. unfold lift at 1.
  destruct (payload_mac data) as [mac|e]; [|discriminate].
  destruct (truthy mac) eqn:T; cbn [negb]; [|discriminate].
  unfold bind at 1. unfold lift at 1.
  destruct mac as [| | | |mac| |]; cbn [as_text]; try discriminate.
  unfold bind at 1.
  destruct (ensure_machine_ownership mac user s) as [[machine|e] s1] eqn:G; [|discriminate].
  destruct (ensure_machine_ownership_inv _ _ _ _ _ G) as [-> _].
  unfold bind at 1. unfold lift at 1.
  destruct (payload_timestamp utcnow data) as [timestamp|e]; [|discriminate].
  unfold_M. cbv beta.
  destruct (existsb _ (monitoring_data s)) eqn:E; [discriminate|].
  intros [= <- <-]. exists mac, machine, timestamp. repeat split; auto.
  simpl in T. intros ->. discriminate.
Qed.

(** X19.  A stored metric record is the submitted document: when the
    document names its machine by a string, a successful
    [update_machine_status] appends exactly one record, which holds the whole
    document of the request unchanged, belongs to the machine the gate admits
    the caller for under that MAC address, and carries the reference id and
    timestamp of the response; the records stored before, and all other
    tables, are untouched. *)
Theorem update_machine_status_appends
    (utcnow now : datetime) (uuid4_hex : string) (data : dict) (user : User.t)
    (session session' : Session) (r : StatusResponse.t) (mac : string) :
  payload_mac data = Ok (JStr mac) ->
  update_machine_status utcnow now uuid4_hex data user session = (Ok r, session') ->
  exists machine record,
    ensure_machine_ownership mac user session = (Ok machine, session)
    /\ monitoring_data session' = monitoring_data session ++ [record]
    /\ MonitoringData.metrics record = data
    /\ MonitoringData.machine_id record = Machine.id machine
    /\ MonitoringData.reference_id record = StatusResponse.reference_id r
    /\ MonitoringData.timestamp record = StatusResponse.timestamp r
    /\ StatusResponse.reference_id r = uuid4_hex
    /\ StatusResponse.status r = "success"
    /\ ~ In (MonitoringData.id record) (map MonitoringData.id (monitoring_data session))
    /\ users session' = users session
    /\ machines session' = machines session
    /\ machine_configurations session' = machine_configurations session.
Proof.
  intros Hmac H. apply update_machine_status_inv in H.
  destruct H as [mac' [machine [timestamp [Hmac' [_ [G [_ [_ [-> ->]]]]]]]]].
  rewrite Hmac in Hmac'. injection Hmac' as <-.
  exists machine. eexists. split; [exact G|].
  split; [reflexivity|]. simpl. repeat split; auto. apply next_id_fresh.
Qed.

Lemma update_machine_status_appends_witness :
  payload_mac metric_payload = Ok (JStr "AA:BB:CC:DD:EE:FF")
  /\ update_machine_status t1 t1 "0f1e2d3c4b5a69788796a5b4c3d2e1f0" metric_payload ops
       session0
     = (Ok (StatusResponse.mk "success" "0f1e2d3c4b5a69788796a5b4c3d2e1f0"
              (mkDatetime 2024 5 20 10 33 0 0 (Some 0))), session1)
  /\ exists machine record,
       ensure_machine_ownership "AA:BB:CC:DD:EE:FF" ops session0 = (Ok machine, session0)
       /\ monitoring_data session1 = monitoring_data session0 ++ [record]
       /\ MonitoringData.metrics record = metric_payload
       /\ MonitoringData.machine_id record = Machine.id machine
       /\ MonitoringData.reference_id record = "0f1e2d3c4b5a69788796a5b4c3d2e1f0"
       /\ MonitoringData.timestamp record = mkDatetime 2024 5 20 10 33 0 0 (Some 0)
       /\ "0f1e2d3c4b5a69788796a5b4c3d2e1f0" = "0f1e2d3c4b5a69788796a5b4c3d2e1f0"
       /\ "success" = "success"
       /\ ~ In (MonitoringData.id record) (map MonitoringData.id (monitoring_data session0))
       /\ users session1 = users session0
       /\ machines session1 = machines session0
       /\ machine_configurations session1 = machine_configurations session0.
Proof.
  split; [reflexivity|]. split; [vm_compute; reflexivity|].
  apply (update_machine_status_appends t1 t1 "0f1e2d3c4b5a69788796a5b4c3d2e1f0"
           metric_payload ops session0 session1
           (StatusResponse.mk "success" "0f1e2d3c4b5a69788796a5b4c3d2e1f0"
              (mkDatetime 2024 5 20 10 33 0 0 (Some 0))) "AA:BB:CC:DD:EE:FF").
  - reflexivity.
  - vm_compute. reflexivity.
Defined.

Lemma payload_timestamp_any_clock (utcnow utcnow' : datetime) (data : dict)
    (timestamp : datetime) :
  payload_timestamp utcnow data = Ok timestamp ->
  exists timestamp', payload_timestamp utcnow' data = Ok timestamp'.
Proof.
  unfold payload_timestamp. destruct (dict_get data "timestamp"); eauto.
Qed.

(** X20.  Submissions are not deduplicated: a document that was stored is
    stored again when it is submitted again, as a second record with the
    same content for the same machine, under the new reference id. *)
Theorem update_machine_status_twice
    (utcnow now utcnow' now' : datetime) (uuid4_hex uuid4_hex' : string) (data : dict)
    (user : User.t) (session session1 : Session) (r : StatusResponse.t) :
  update_machine_status utcnow now uuid4_hex data user session = (Ok r, session1) ->
  uuid4_hex' <> uuid4_hex ->
  (forall d, In d (monitoring_data session) -> MonitoringData.reference_id d <> uuid4_hex') ->
  exists r' session2 first second,
    update_machine_status utcnow' now' uuid4_hex' data user session1 = (Ok r', session2)
    /\ monitoring_data session2 = monitoring_data session ++ [first; second]
    /\ MonitoringData.metrics first = data
    /\ MonitoringData.metrics second = data
    /\ MonitoringData.machine_id second = MonitoringData.machine_id first
    /\ MonitoringData.reference_id first = uuid4_hex
    /\ MonitoringData.reference_id second = uuid4_hex'
    /\ MonitoringData.id second <> MonitoringData.id first.
Proof.
  intros H Hne Hfresh. apply update_machine_status_inv in H.
  destruct H as [mac [machine [timestamp [Hmac [Hmne [G [Ht [_ [-> ->]]]]]]]]].
  destruct (payload_timestamp_any_clock utcnow utcnow' data timestamp Ht) as [timestamp' Ht'].
  set (first := MonitoringData.mk _ _ timestamp data uuid4_hex now now).
  set (s1 := with_monitoring_data (monitoring_data session ++ [first]) session).
  assert (ensure_machine_ownership mac user s1 = (Ok machine, s1)) as G1.
  { now apply (ensure_machine_ownership_frame mac user session s1 machine). }
  assert (existsb (fun d => String.eqb (MonitoringData.reference_id d) uuid4_hex')
                  (monitoring_data s1) = false) as E1.
  { cbn [s1 monitoring_data with_monitoring_data]. rewrite existsb_app.
    apply orb_false_iff. split.
    - apply not_true_is_false. intros C. apply existsb_exists in C.
      destruct C as [d [Hd Hr]]. apply String.eqb_eq in Hr. exact (Hfresh d Hd Hr).
    - simpl. rewrite orb_false_r. apply String.eqb_neq. congruence. }
  rewrite (update_machine_status_stores utcnow' now' uuid4_hex' data user s1 mac machine
             timestamp' Hmac Hmne G1 Ht' E1).
  eexists. eexists. exists first. eexists. split; [reflexivity|].
  cbn [s1 monitoring_data with_monitoring_data]. rewrite <- app_assoc.
  split; [reflexivity|]. simpl. repeat split; auto.
  rewrite map_app. simpl.
  pose proof (next_id_above
                (map MonitoringData.id (monitoring_data session)
                 ++ [next_id (map MonitoringData.id (monitoring_data session))])
                (next_id (map MonitoringData.id (monitoring_data session)))) as L.
  intros E. rewrite E in L at 1.
  assert (In (next_id (map MonitoringData.id (monitoring_data session)))
             (map MonitoringData.id (monitoring_data session)
              ++ [next_id (map MonitoringData.id (monitoring_data session))])) as I.
  { apply in_app_iff. right. now left. }
  specialize (L I). lia.
Qed.

Lemma update_machine_status_twice_witness :
  update_machine_status t1 t1 "0f1e2d3c4b5a69788796a5b4c3d2e1f0" metric_payload ops session0
  = (Ok (StatusResponse.mk "success" "0f1e2d3c4b5a69788796a5b4c3d2e1f0"
           (mkDatetime 2024 5 20 10 33 0 0 (Some 0))), session1)
  /\ "00000000000000000000000000000002" <> "0f1e2d3c4b5a69788796a5b4c3d2e1f0"
  /\ (forall d, In d (monitoring_data session0) ->
        MonitoringData.reference_id d <> "00000000000000000000000000000002")
  /\ exists r' session2 first second,
       update_machine_status t1 t1 "00000000000000000000000000000002" metric_payload ops
         session1 = (Ok r', session2)
       /\ monitoring_data session2 = monitoring_data session0 ++ [first; second]
       /\ MonitoringData.metrics first = metric_payload
       /\ MonitoringData.metrics second = metric_payload
       /\ MonitoringData.machine_id second = MonitoringData.machine_id first
       /\ MonitoringData.reference_id first = "0f1e2d3c4b5a69788796a5b4c3d2e1f0"
       /\ MonitoringData.reference_id second = "00000000000000000000000000000002"
       /\ MonitoringData.id second <> MonitoringData.id first.
Proof.
  assert (update_machine_status t1 t1 "0f1e2d3c4b5a69788796a5b4c3d2e1f0" metric_payload ops
            session0
          = (Ok (StatusResponse.mk "success" "0f1e2d3c4b5a69788796a5b4c3d2e1f0"
                   (mkDatetime 2024 5 20 10 33 0 0 (Some 0))), session1)) as H
    by (vm_compute; reflexivity).
  assert ("00000000000000000000000000000002" <> "0f1e2d3c4b5a69788796a5b4c3d2e1f0") as N
    by discriminate.
  assert (forall d, In d (monitoring_data session0) ->
            MonitoringData.reference_id d <> "00000000000000000000000000000002") as F
    by (intros d []).
  split; [exact H|]. split; [exact N|]. split; [exact F|].
  exact (update_machine_status_twice t1 t1 t1 t1 _ _ _ _ _ _ _ H N F).
Defined.

(** X21.  What was submitted can be read back: after a successful
    [update_machine_status], [list_machine_metrics] for the same machine,
    without a time window and with a limit that covers the machine's
    records, returns the timestamp, the document and the reference id of the
    submission among its results. *)
Theorem update_machine_status_then_list
    (utcnow now : datetime) (uuid4_hex : string) (data : dict) (user : User.t)
    (session session' : Session) (r : StatusResponse.t)
    (mac : string) (machine : Machine.t) (limit : Z) :
  update_machine_status utcnow now uuid4_hex data user session = (Ok r, session') ->
  payload_mac data = Ok (JStr mac) ->
  ensure_machine_ownership mac user session = (Ok machine, session) ->
  Z.of_nat (List.length
              (filter (fun d => MonitoringData.machine_id d =? Machine.id machine)
                      (monitoring_data session'))) <= limit <= 1000 ->
  exists records,
    list_machine_metrics mac None None limit user session' = (Ok records, session')
    /\ In (MonitoringDataRead.mk (StatusResponse.timestamp r) data uuid4_hex) records.
Proof.
  intros H Hmac G Hl. apply update_machine_status_inv in H.
  destruct H as [mac' [machine' [timestamp [Hmac' [_ [G' [_ [_ [-> ->]]]]]]]]].
  rewrite Hmac in Hmac'. injection Hmac' as <-. rewrite G in G'. injection G' as <-.
  set (record := MonitoringData.mk _ _ timestamp data uuid4_hex now now) in *.
  set (s1 := with_monitoring_data (monitoring_data session ++ [record]) session) in *.
  assert (ensure_machine_ownership mac user s1 = (Ok machine, s1)) as G1.
  { now apply (ensure_machine_ownership_frame mac user session s1 machine). }
  rewrite (list_machine_metrics_rows mac None None limit user s1 machine G1);
    [|lia].
  eexists. split; [reflexivity|].
  change (MonitoringDataRead.mk (StatusResponse.timestamp
            (StatusResponse.mk "success" uuid4_hex timestamp)) data uuid4_hex)
    with (MonitoringDataRead.model_validate record).
  apply in_map.
  assert (forall rows, filter (fun d => (MonitoringData.machine_id d =? Machine.id machine)
                                        && true && true) rows
                       = filter (fun d => MonitoringData.machine_id d =? Machine.id machine)
                                rows) as Ef.
  { intros rows. apply filter_ext. intros d. now rewrite !andb_true_r. }
  rewrite Ef. unfold sql_limit.
  destruct (limit <? 0) eqn:Neg; [lia|].
  rewrite firstn_all2.
  - apply (Permutation_in _ (Permutation_sym (order_by_timestamp_desc_perm _))).
    apply filter_In. split.
    + cbn [s1 monitoring_data with_monitoring_data]. apply in_app_iff. right. now left.
    + simpl. apply Z.eqb_refl.
  - rewrite (Permutation_length (order_by_timestamp_desc_perm _)). lia.
Qed.

Lemma update_machine_status_then_list_witness :
  update_machine_status t1 t1 "0f1e2d3c4b5a69788796a5b4c3d2e1f0" metric_payload ops session0
  = (Ok (StatusResponse.mk "success" "0f1e2d3c4b5a69788796a5b4c3d2e1f0"
           (mkDatetime 2024 5 20 10 33 0 0 (Some 0))), session1)
  /\ payload_mac metric_payload = Ok (JStr "AA:BB:CC:DD:EE:FF")
  /\ ensure_machine_ownership "AA:BB:CC:DD:EE:FF" ops session0 = (Ok desktop, session0)
  /\ Z.of_nat (List.length
                 (filter (fun d => MonitoringData.machine_id d =? Machine.id desktop)
                         (monitoring_data session1))) <= 100 <= 1000
  /\ exists records,
       list_machine_metrics "AA:BB:CC:DD:EE:FF" None None 100 ops session1
         = (Ok records, session1)
       /\ In (MonitoringDataRead.mk (mkDatetime 2024 5 20 10 33 0 0 (Some 0)) metric_payload
                "0f1e2d3c4b5a69788796a5b4c3d2e1f0") records.
Proof.
  assert (update_machine_status t1 t1 "0f1e2d3c4b5a69788796a5b4c3d2e1f0" metric_payload ops
            session0
          = (Ok (StatusResponse.mk "success" "0f1e2d3c4b5a69788796a5b4c3d2e1f0"
                   (mkDatetime 2024 5 20 10 33 0 0 (Some 0))), session1)) as H
    by (vm_compute; reflexivity).
  assert (Z.of_nat (List.length
                 (filter (fun d => MonitoringData.machine_id d =? Machine.id desktop)
                         (monitoring_data session1))) <= 100 <= 1000) as L
    by (simpl; lia).
  split; [exact H|]. split; [reflexivity|]. split; [reflexivity|]. split; [exact L|].
  exact (update_machine_status_then_list t1 t1 "0f1e2d3c4b5a69788796a5b4c3d2e1f0"
           metric_payload ops session0 session1 _ "AA:BB:CC:DD:EE:FF" desktop 100
           H eq_refl eq_refl L).
Defined.

(** ** The gate in front of every machine route *)




(** ** Aggregates *)

Lemma fold_left_select_In {A} (f : A -> A -> A) (xs : list A) (x : A) :
  (forall a b, f a b = a \/ f a b = b) -> In (fold_left f xs x) (x :: xs).
Proof.
  intros Hf. revert x. induction xs as [|y xs IH]; intros x; [now left|].
  cbn [fold_left]. destruct (IH (f x y)) as [E|E].
  - destruct (Hf x y) as [H|H]; rewrite H in E |- *.
    + now left.
    + right. now left.
  - right. now right.
Qed.

Lemma py_min_In (x : float) (xs : list float) : In (py_min x xs) (x :: xs).
Proof.
  apply fold_left_select_In. intros a b. destruct (SFltb b a); auto.
Qed.

Lemma py_max_In (x : float) (xs : list float) : In (py_max x xs) (x :: xs).
Proof.
  apply fold_left_select_In. intros a b. destruct (SFltb a b); auto.
Qed.

(** X23.  The minimum and the maximum of an aggregate are values that were
    collected, never numbers made up by the aggregation (this holds with NaN
    among the values too); and an aggregate has all three of minimum, maximum
    and average, or none of them, the latter exactly when no value was
    collected. *)
Theorem summarize_extremes_collected (key : string) (values : list float) :
  let a := summarize key values in
  match MetricsAggregate.minimum a, MetricsAggregate.maximum a, MetricsAggregate.average a with
  | Some lo, Some hi, Some avg => In lo values /\ In hi values /\ avg = mean values
  | None, None, None => values = []
  | _, _, _ => False
  end.
Proof.
  destruct values as [|x xs]; simpl; [reflexivity|].
  split; [apply py_min_In|]. split; [apply py_max_In | reflexivity].
Qed.

Lemma record_values_grows (key : string) (record : MonitoringData.t)
    (values values' : list float) :
  record_values key record values = Ok values' ->
  (List.length values <= List.length values' <= S (List.length values))%nat.
Proof.
  intros H.
  destruct (record_values_selects_one key record values) as [_ [_ [_ [P _]]]].
  destruct (P values' H) as [picked [-> L]]. rewrite length_app. lia.
Qed.

Lemma collect_grows (key : string) (records : list MonitoringData.t) :
  forall values values',
    collect key records values = Ok values' ->
    (List.length values <= List.length values'
     <= List.length values + List.length records)%nat.
Proof.
  induction records as [|record records IH]; intros values values'; simpl.
  - intros [= <-]. lia.
  - destruct (record_values key record values) as [v1|e] eqn:R; simpl; [|discriminate].
    intros H. apply IH in H. apply record_values_grows in R. lia.
Qed.

(** X24.  A record counts at most once per key: the values aggregated for a
    key are never more than the machine's records, so every aggregate that
    [aggregate_metrics] returns was computed from at most as many values as
    the machine has metric records. *)
Theorem aggregate_metrics_one_value_per_record
    (mac : string) (metric_keys : list string) (user : User.t)
    (session session' : Session) (result : list MetricsAggregate.t) :
  aggregate_metrics mac metric_keys user session = (Ok result, session') ->
  exists machine records,
    ensure_machine_ownership mac user session = (Ok machine, session)
    /\ records = filter (fun r => MonitoringData.machine_id r =? Machine.id machine)
                        (monitoring_data session)
    /\ Forall2 (fun key a =>
                  exists values,
                    collect key records [] = Ok values
                    /\ a = summarize key values
                    /\ (List.length values <= List.length records)%nat)
               metric_keys result.
Proof.
  unfold aggregate_metrics. unfold bind at 1.
  destruct (ensure_machine_ownership mac user session) as [[machine|e] s1] eqn:G;
    [|discriminate].
  destruct (ensure_machine_ownership_inv _ _ _ _ _ G) as [-> _].
  unfold_M. cbv beta.
  destruct (aggregate metric_keys _ []) as [aggregates|e] eqn:A; [|discriminate].
  intros [= <- <-]. exists machine. eexists. split; [reflexivity|]. split; [reflexivity|].
  apply aggregate_spec in A. destruct A as [summaries [-> F]]. simpl.
  induction F as [|key a keys summaries [values [C ->]] F IH]; constructor; auto.
  exists values. repeat split; auto. apply collect_grows in C. simpl in C. lia.
Qed.

Lemma aggregate_metrics_one_value_per_record_witness :
  aggregate_metrics "AA:BB:CC:DD:EE:FF" ["cpu"; "gpu"] ops session1
  = (Ok [MetricsAggregate.mk "cpu" (Some f52_3) (Some f52_3) (Some f52_3);
         MetricsAggregate.mk "gpu" None None None], session1)
  /\ exists machine records,
       ensure_machine_ownership "AA:BB:CC:DD:EE:FF" ops session1 = (Ok machine, session1)
       /\ records = filter (fun r => MonitoringData.machine_id r =? Machine.id machine)
                           (monitoring_data session1)
       /\ Forall2 (fun key a =>
                     exists values,
                       collect key records [] = Ok values
                       /\ a = summarize key values
                       /\ (List.length values <= List.length records)%nat)
                  ["cpu"; "gpu"]
                  [MetricsAggregate.mk "cpu" (Some f52_3) (Some f52_3) (Some f52_3);
                   MetricsAggregate.mk "gpu" None None None].
Proof.
  split; [vm_compute; reflexivity|].
  apply (aggregate_metrics_one_value_per_record "AA:BB:CC:DD:EE:FF" ["cpu"; "gpu"] ops
           session1 session1).
  vm_compute. reflexivity.
Defined.

(** ** The rate limiter *)

Lemma bucket_app (b c : rate_buckets) (k : string) :
  bucket (b ++ c) k = match bucket b k with Some hits => Some hits | None => bucket c k end.
Proof.
  induction b as [|[k' v] b IH]; simpl; [reflexivity|].
  destruct (String.eqb k' k); [reflexivity | exact IH].
Qed.

Lemma bucket_setitem (b : rate_buckets) (k k' : string) (hits : list float) :
  bucket (setitem b k hits) k' = if String.eqb k k' then Some hits else bucket b k'.
Proof.
  induction b as [|[k0 v] b IH]; simpl.
  - reflexivity.
  - destruct (String.eqb k0 k) eqn:E0; simpl.
    + apply String.eqb_eq in E0. subst k0. destruct (String.eqb k k'); reflexivity.
    + destruct (String.eqb k0 k') eqn:E1; [|exact IH].
      apply String.eqb_eq in E1. subst k0. now rewrite String.eqb_sym, E0.
Qed.

Lemma hits_of_getitem (b : rate_buckets) (k k' : string) :
  fst (getitem b k) = hits_of b k /\ hits_of (snd (getitem b k)) k' = hits_of b k'.
Proof.
  unfold getitem, hits_of. destruct (bucket b k) as [hits|] eqn:B; simpl; [auto|].
  split; [reflexivity|]. rewrite bucket_app. simpl.
  destruct (bucket b k') eqn:B'; [reflexivity|].
  destruct (String.eqb k k'); reflexivity.
Qed.

Lemma hits_of_setitem (b : rate_buckets) (k k' : string) (hits : list float) :
  hits_of (setitem b k hits) k' = if String.eqb k k' then hits else hits_of b k'.
Proof.
  unfold hits_of. rewrite bucket_setitem. now destruct (String.eqb k k').
Qed.

(** One request, in terms of the hits recorded per identifier. *)
Lemma rate_limit_step (settings : Settings.t) (now : float) (request : Request.t)
    (buckets : rate_buckets) :
  exempt request = false ->
  let recent := filter (in_window settings now) (hits_of buckets (identifier request)) in
  let outcome := rate_limit_middleware settings now request buckets in
  if Z.of_nat (List.length recent) >=? Settings.rate_limit_requests settings then
    fst outcome = TooManyRequests
    /\ forall k, hits_of (snd outcome) k = hits_of buckets k
  else
    fst outcome = CallNext
    /\ hits_of (snd outcome) (identifier request) = recent ++ [now]
    /\ forall k, k <> identifier request -> hits_of (snd outcome) k = hits_of buckets k.
Proof.
  intros Hex. cbv zeta. unfold rate_limit_middleware. unfold exempt in Hex. rewrite Hex.
  destruct (hits_of_getitem buckets (identifier request) (identifier request)) as [Hf _].
  destruct (getitem buckets (identifier request)) as [stored b1] eqn:G.
  simpl in Hf. subst stored.
  assert (forall k, hits_of b1 k = hits_of buckets k) as Hb.
  { intros k. pose proof (proj2 (hits_of_getitem buckets (identifier request) k)) as H.
    now rewrite G in H. }
  fold (in_window settings now).
  destruct (Z.of_nat _ >=? Settings.rate_limit_requests settings); simpl.
  - split; [reflexivity | exact Hb].
  - split; [reflexivity|]. split.
    + now rewrite hits_of_setitem, String.eqb_refl.
    + intros k Hk. rewrite hits_of_setitem.
      destruct (String.eqb (identifier request) k) eqn:E; [|apply Hb].
      apply String.eqb_eq in E. congruence.
Qed.

Lemma rate_limit_exempt (settings : Settings.t) (now : float) (request : Request.t)
    (buckets : rate_buckets) :
  exempt request = true ->
  rate_limit_middleware settings now request buckets = (CallNext, buckets).
Proof. intros H. unfold rate_limit_middleware. unfold exempt in H. now rewrite H. Qed.

Lemma rate_limit_bound_step (settings : Settings.t) (now : float) (request : Request.t)
    (buckets : rate_buckets) :
  (forall k, Z.of_nat (List.length (hits_of buckets k))
             <= Z.max 0 (Settings.rate_limit_requests settings)) ->
  forall k, Z.of_nat (List.length
                        (hits_of (snd (rate_limit_middleware settings now request buckets)) k))
            <= Z.max 0 (Settings.rate_limit_requests settings).
Proof.
  intros H k. destruct (exempt request) eqn:Hex.
  - now rewrite rate_limit_exempt.
  - pose proof (rate_limit_step settings now request buckets Hex) as S. cbv zeta in S.
    destruct (Z.of_nat _ >=? Settings.rate_limit_requests settings) eqn:L.
    + destruct S as [_ S]. now rewrite S.
    + destruct S as [_ [S1 S2]].
      destruct (string_dec k (identifier request)) as [->|Hk].
      * rewrite S1, length_app. simpl. lia.
      * now rewrite S2.
Qed.

(** X25.  The limiter never remembers more than the limit: whatever requests
    arrive, from whomever and whenever, no identifier has more recorded hits
    than [rate_limit_requests] (none at all when the limit is not
    positive). *)
Theorem limited_bucket_bound
    (settings : Settings.t) (requests : list (float * Request.t)) (k : string) :
  Z.of_nat (List.length (hits_of (limited settings requests []) k))
  <= Z.max 0 (Settings.rate_limit_requests settings).
Proof.
  assert (forall buckets,
            (forall k, Z.of_nat (List.length (hits_of buckets k))
                       <= Z.max 0 (Settings.rate_limit_requests settings)) ->
            forall k, Z.of_nat (List.length (hits_of (limited settings requests buckets) k))
                      <= Z.max 0 (Settings.rate_limit_requests settings)) as G.
  { induction requests as [|[now request] requests IH]; intros buckets H; simpl.
    - exact H.
    - apply IH. now apply rate_limit_bound_step. }
  apply G. intros k'. unfold hits_of. simpl. lia.
Qed.

(** X26.  A request changes at most the bucket of its own identifier, and
    only when it is admitted: if the hits recorded for some identifier differ
    after a request, then that identifier is the request's own (its
    [X-Forwarded-For] header when it has a non-empty one, whatever the client
    address), the request was passed on and its path is not one of the
    exempt ones.  A refused request is not counted. *)
Theorem rate_limit_changes_own_bucket
    (settings : Settings.t) (now : float) (request : Request.t) (buckets : rate_buckets)
    (k : string) :
  hits_of (snd (rate_limit_middleware settings now request buckets)) k
    <> hits_of buckets k ->
  k = identifier request
  /\ fst (rate_limit_middleware settings now request buckets) = CallNext
  /\ exempt request = false
  /\ (forall forwarded,
        Request.x_forwarded_for request = Some forwarded -> forwarded <> "" ->
        k = forwarded).
Proof.
  intros H. destruct (exempt request) eqn:Hex.
  - rewrite rate_limit_exempt in H by exact Hex. now contradiction H.
  - pose proof (rate_limit_step settings now request buckets Hex) as S. cbv zeta in S.
    destruct (Z.of_nat _ >=? Settings.rate_limit_requests settings).
    + destruct S as [_ S]. now contradiction H.
    + destruct S as [S0 [_ S2]].
      assert (k = identifier request) as ->.
      { destruct (string_dec k (identifier request)) as [E|E]; [exact E|].
        contradiction H. now apply S2. }
      repeat split; auto.
      intros forwarded Hf Hne. unfold identifier. rewrite Hf.
      apply String.eqb_neq in Hne. now rewrite Hne.
Qed.

Lemma rate_limit_changes_own_bucket_witness :
  hits_of (snd (rate_limit_middleware settings_default one get_health [])) "203.0.113.7"
    <> hits_of [] "203.0.113.7"
  /\ "203.0.113.7" = identifier get_health
  /\ fst (rate_limit_middleware settings_default one get_health []) = CallNext
  /\ exempt get_health = false
  /\ (forall forwarded,
        Request.x_forwarded_for get_health = Some forwarded -> forwarded <> "" ->
        "203.0.113.7" = forwarded).
Proof.
  assert (hits_of (snd (rate_limit_middleware settings_default one get_health []))
                  "203.0.113.7" <> hits_of [] "203.0.113.7") as H
    by (vm_compute; discriminate).
  split; [exact H|].
  exact (rate_limit_changes_own_bucket settings_default one get_health [] "203.0.113.7" H).
Defined.

Lemma filter_all {A} (p : A -> bool) (l : list A) :
  Forall (fun x => p x = true) l -> filter p l = l.
Proof.
  induction 1 as [|x l Hx _ IH]; simpl; [reflexivity|]. now rewrite Hx, IH.
Qed.

Lemma verdicts_one_window (settings : Settings.t) (request : Request.t) :
  exempt request = false ->
  forall times buckets earlier (m : nat),
    incl (hits_of buckets (identifier request)) earlier ->
    List.length (hits_of buckets (identifier request))
      = Nat.min m (Z.to_nat (Settings.rate_limit_requests settings)) ->
    one_window settings earlier times ->
    verdicts settings (map (fun now => (now, request)) times) buckets
    = map (fun i => if Z.of_nat i <? Settings.rate_limit_requests settings
                    then CallNext else TooManyRequests)
          (seq m (List.length times)).
Proof.
  intros Hex. induction times as [|now times IH]; intros buckets earlier m Hin Hlen Hw;
    [reflexivity|].
  destruct Hw as [Hnow Hw]. cbn [map verdicts List.length seq].
  pose proof (rate_limit_step settings now request buckets Hex) as S. cbv zeta in S.
  assert (filter (in_window settings now) (hits_of buckets (identifier request))
          = hits_of buckets (identifier request)) as Ef.
  { apply filter_all. apply Forall_forall. intros hit Hh.
    exact (proj1 (Forall_forall _ _) Hnow hit (Hin hit Hh)). }
  rewrite Ef in S.
  destruct (Z.of_nat (List.length (hits_of buckets (identifier request)))
            >=? Settings.rate_limit_requests settings) eqn:L.
  - destruct S as [S0 S1]. rewrite S0. f_equal.
    + assert ((Z.of_nat m <? Settings.rate_limit_requests settings) = false) as ->;
        [|reflexivity].
      apply Z.ltb_ge. apply Z.geb_le in L. lia.
    + apply (IH _ (earlier ++ [now])); [| |exact Hw].
      * rewrite S1. intros hit Hh. apply in_app_iff. left. now apply Hin.
      * rewrite S1. apply Z.geb_le in L. lia.
  - destruct S as [S0 [S1 _]]. rewrite S0. f_equal.
    + assert ((Z.of_nat m <? Settings.rate_limit_requests settings) = true) as ->;
        [|reflexivity].
      apply Z.ltb_lt. rewrite Z.geb_leb in L. apply Z.leb_gt in L. lia.
    + apply (IH _ (earlier ++ [now])); [| |exact Hw].
      * rewrite S1. intros hit Hh. apply in_app_iff in Hh. apply in_app_iff.
        destruct Hh as [Hh|Hh]; [left; now apply Hin | now right].
      * rewrite S1, length_app. cbn [List.length]. rewrite Z.geb_leb in L. apply Z.leb_gt in L. lia.
Qed.

(** X27.  Within one window the limiter admits the first
    [rate_limit_requests] requests of an identifier and refuses every further
    one: for requests of one identifier with no recorded hits, arriving at
    times that all fall in one window (each passes the window test against
    every earlier one), the request at position [i], counted from 0, is
    passed on when [i] is below the limit and answered 429 otherwise. *)
Theorem rate_limit_admits_up_to_limit
    (settings : Settings.t) (request : Request.t) (times : list float)
    (buckets : rate_buckets) :
  exempt request = false ->
  hits_of buckets (identifier request) = [] ->
  one_window settings [] times ->
  verdicts settings (map (fun now => (now, request)) times) buckets
  = map (fun i => if Z.of_nat i <? Settings.rate_limit_requests settings
                  then CallNext else TooManyRequests)
        (seq 0 (List.length times)).
Proof.
  intros Hex Hempty Hw.
  apply (verdicts_one_window settings request Hex times buckets [] 0%nat);
    [rewrite Hempty; intros x [] | rewrite Hempty; reflexivity | exact Hw].
Qed.

Lemma rate_limit_admits_up_to_limit_witness :
  exempt get_health = false
  /\ hits_of [("198.51.100.4", [one])] (identifier get_health) = []
  /\ one_window two_a_minute [] [one; two; three; three]
  /\ verdicts two_a_minute (map (fun now => (now, get_health)) [one; two; three; three])
       [("198.51.100.4", [one])]
     = [CallNext; CallNext; TooManyRequests; TooManyRequests].
Proof.
  assert (one_window two_a_minute [] [one; two; three; three]) as W.
  { simpl. repeat split; repeat constructor. }
  split; [reflexivity|]. split; [reflexivity|]. split; [exact W|].
  exact (rate_limit_admits_up_to_limit two_a_minute get_health [one; two; three; three]
           [("198.51.100.4", [one])] eq_refl eq_refl W).
Defined.

(** ** Start-up *)




(** ** Users are kept apart *)

Lemma filter_map_inert {A} (p : A -> bool) (f : A -> A) (l : list A) :
  (forall r, In r l -> f r = r \/ (p (f r) = false /\ p r = false)) ->
  filter p (map f l) = filter p l.
Proof.
  induction l as [|a l IH]; intros H; simpl; [reflexivity|].
  rewrite IH by (intros r Hr; apply H; now right).
  destruct (H a (or_introl eq_refl)) as [->|[-> ->]]; reflexivity.
Qed.

Lemma existsb_map_same {A} (q : A -> bool) (f : A -> A) (l : list A) :
  (forall r, In r l -> q (f r) = q r) -> existsb q (map f l) = existsb q l.
Proof.
  induction l as [|a l IH]; intros H; simpl; [reflexivity|].
  rewrite IH by (intros r Hr; apply H; now right).
  now rewrite (H a (or_introl eq_refl)).
Qed.

Lemma owns_false (user_id : Z) (s : Session) (m : Machine.t) :
  NoDup (map Machine.id (machines s)) -> In m (machines s) ->
  Machine.owner_id m <> user_id -> owns user_id s (Machine.id m) = false.
Proof.
  intros Hnd Hin Ho. unfold owns. apply not_true_is_false. intros C.
  apply existsb_exists in C. destruct C as [r [Hr E]].
  apply andb_true_iff in E. destruct E as [Ei Eo].
  apply Z.eqb_eq in Ei, Eo.
  assert (r = m) as -> by now apply (NoDup_map_injective Machine.id (machines s)).
  contradiction.
Qed.

Lemma data_of_ext (user_id : Z) (s s' : Session) :
  filter (fun m => Machine.owner_id m =? user_id) (machines s')
    = filter (fun m => Machine.owner_id m =? user_id) (machines s) ->
  (forall k, owns user_id s' k = owns user_id s k) ->
  filter (fun c => owns user_id s (MachineConfiguration.machine_id c))
         (machine_configurations s')
    = filter (fun c => owns user_id s (MachineConfiguration.machine_id c))
             (machine_configurations s) ->
  filter (fun d => owns user_id s (MonitoringData.machine_id d)) (monitoring_data s')
    = filter (fun d => owns user_id s (MonitoringData.machine_id d)) (monitoring_data s) ->
  data_of user_id s' = data_of user_id s.
Proof.
  intros Hm Ho Hc Hd. unfold data_of. rewrite Hm. f_equal; [f_equal|].
  - rewrite <- Hc. apply filter_ext. intros c. apply Ho.
  - rewrite <- Hd. apply filter_ext. intros d. apply Ho.
Qed.

(** A step made for one account leaves what belongs to another as it was. *)
Lemma data_of_machine_added (user_id : Z) (s : Session) (m : Machine.t) :
  Machine.owner_id m <> user_id ->
  data_of user_id (with_machines (machines s ++ [m]) s) = data_of user_id s.
Proof.
  intros Ho. apply Z.eqb_neq in Ho. apply data_of_ext; cbn [machines with_machines
    machine_configurations monitoring_data]; auto.
  - rewrite filter_app. simpl. rewrite Ho. apply app_nil_r.
  - intros k. unfold owns. cbn [machines with_machines]. rewrite existsb_app. simpl.
    rewrite Ho, andb_false_r. now rewrite !orb_false_r.
Qed.

Lemma data_of_machine_updated (user_id : Z) (s : Session) (old new : Machine.t) :
  NoDup (map Machine.id (machines s)) -> In old (machines s) ->
  Machine.id new = Machine.id old -> Machine.owner_id new = Machine.owner_id old ->
  Machine.owner_id old <> user_id ->
  data_of user_id (with_machines (update_machine new (machines s)) s) = data_of user_id s.
Proof.
  intros Hnd Hin Eid Eo Ho.
  assert (forall r, In r (machines s) ->
            (if Machine.id r =? Machine.id new then new else r) = r
            \/ (r = old /\ (if Machine.id r =? Machine.id new then new else r) = new)) as Hr.
  { intros r Hr. destruct (Machine.id r =? Machine.id new) eqn:E; [|now left].
    right. apply Z.eqb_eq in E. split; [|reflexivity].
    apply (NoDup_map_injective Machine.id (machines s)); auto. congruence. }
  apply data_of_ext; cbn [machines with_machines machine_configurations monitoring_data];
    auto.
  - unfold update_machine. apply filter_map_inert. intros r Hin'.
    destruct (Hr r Hin') as [E|[-> E]]; [now left|]. right. rewrite E.
    split; apply Z.eqb_neq; congruence.
  - intros k. unfold owns. cbn [machines with_machines]. unfold update_machine.
    apply existsb_map_same. intros r Hin'.
    destruct (Hr r Hin') as [E|[-> E]]; rewrite E; [reflexivity|]. now rewrite Eid, Eo.
Qed.

Lemma data_of_configuration_added (user_id : Z) (s : Session)
    (c : MachineConfiguration.t) :
  owns user_id s (MachineConfiguration.machine_id c) = false ->
  data_of user_id (with_machine_configurations (machine_configurations s ++ [c]) s)
  = data_of user_id s.
Proof.
  intros Ho. apply data_of_ext; cbn [machines with_machine_configurations
    machine_configurations monitoring_data]; auto.
  rewrite filter_app. simpl. rewrite Ho. apply app_nil_r.
Qed.

Lemma data_of_configuration_updated (user_id : Z) (s : Session)
    (old new : MachineConfiguration.t) :
  NoDup (map MachineConfiguration.id (machine_configurations s)) ->
  In old (machine_configurations s) ->
  MachineConfiguration.id new = MachineConfiguration.id old ->
  MachineConfiguration.machine_id new = MachineConfiguration.machine_id old ->
  owns user_id s (MachineConfiguration.machine_id old) = false ->
  data_of user_id
    (with_machine_configurations (update_configuration new (machine_configurations s)) s)
  = data_of user_id s.
Proof.
  intros Hnd Hin Eid Em Ho. apply data_of_ext; cbn [machines with_machine_configurations
    machine_configurations monitoring_data]; auto.
  unfold update_configuration. apply filter_map_inert. intros r Hr.
  destruct (MachineConfiguration.id r =? MachineConfiguration.id new) eqn:E; [|now left].
  right. apply Z.eqb_eq in E.
  assert (r = old) as ->.
  { apply (NoDup_map_injective MachineConfiguration.id (machine_configurations s)); auto.
    congruence. }
  now rewrite Em.
Qed.

Lemma data_of_record_added (user_id : Z) (s : Session) (d : MonitoringData.t) :
  owns user_id s (MonitoringData.machine_id d) = false ->
  data_of user_id (with_monitoring_data (monitoring_data s ++ [d]) s) = data_of user_id s.
Proof.
  intros Ho. apply data_of_ext; cbn [machines with_monitoring_data
    machine_configurations monitoring_data]; auto.
  rewrite filter_app. simpl. rewrite Ho. apply app_nil_r.
Qed.

Lemma get_or_create_machine_others
    (now : datetime) (user : User.t) (mac_address name machine_type : string)
    (s : Session) (user_id : Z) :
  consistent s -> User.id user <> user_id ->
  data_of user_id (snd (_get_or_create_machine now user mac_address name machine_type s))
  = data_of user_id s.
Proof.
  intros Hc Hne.
  pose proof (get_or_create_machine_cases now user mac_address name machine_type s) as C.
  destruct (find _ (machines s)) as [found|] eqn:F.
  - destruct (Machine.owner_id found =? User.id user) eqn:O; simpl in C;
      [|now rewrite C].
    apply Z.eqb_eq in O. destruct (_ && _); [now rewrite C|].
    cbv zeta in C. rewrite C. cbn [snd]. apply find_some in F. destruct F as [Hin _].
    apply (data_of_machine_updated user_id s found); auto.
    + apply (machines_pk _ Hc).
    + congruence.
  - cbv zeta in C. rewrite C. cbn [snd]. apply data_of_machine_added. exact Hne.
Qed.

Lemma update_machine_config_others
    (now : datetime) (payload : dict) (user : User.t) (s : Session) (user_id : Z) :
  consistent s -> User.id user <> user_id ->
  data_of user_id (snd (update_machine_config now payload user s)) = data_of user_id s.
Proof.
  intros Hc Hne. unfold update_machine_config. unfold bind at 1. unfold lift at 1.
  destruct (MachineConfigPayload.model_validate payload) as [config_data|e]; [|reflexivity].
  unfold bind at 1.
  destruct (ensure_machine_ownership (MachineConfigPayload.mac config_data) user s)
    as [[machine|e] s1] eqn:G;
    [|destruct (ensure_machine_ownership_reads (MachineConfigPayload.mac config_data) user s)
        as [Hs _]; rewrite G in Hs; cbn [snd] in *; now subst].
  destruct (ensure_machine_ownership_inv _ _ _ _ _ G) as [-> [Hin [_ Ho]]].
  assert (owns user_id s (Machine.id machine) = false) as Hown.
  { apply owns_false; [apply (machines_pk _ Hc) | exact Hin | congruence]. }
  unfold scalar. unfold_M. cbv beta.
  destruct (find _ (machine_configurations s)) as [old|] eqn:F.
  - apply find_some in F. destruct F as [Hold Hid]. apply Z.eqb_eq in Hid.
    destruct (py_eq _ _); [reflexivity|]. cbn [snd].
    apply (data_of_configuration_updated user_id s old); auto.
    + apply (configurations_pk _ Hc).
    + now rewrite Hid.
  - cbn [snd]. apply data_of_configuration_added. exact Hown.
Qed.

Lemma update_machine_status_others
    (utcnow now : datetime) (uuid4_hex : string) (data : dict) (user : User.t)
    (s : Session) (user_id : Z) :
  consistent s -> User.id user <> user_id ->
  data_of user_id (snd (update_machine_status utcnow now uuid4_hex data user s))
  = data_of user_id s.
Proof.
  intros Hc Hne.
  destruct (update_machine_status utcnow now uuid4_hex data user s) as [[r|e] s'] eqn:H.
  - apply update_machine_status_inv in H.
    destruct H as [mac [machine [timestamp [_ [_ [G [_ [_ [_ ->]]]]]]]]].
    destruct (ensure_machine_ownership_inv _ _ _ _ _ G) as [_ [Hin [_ Ho]]].
    cbn [snd]. apply data_of_record_added. cbn [MonitoringData.machine_id].
    apply owns_false; [apply (machines_pk _ Hc) | exact Hin | congruence].
  - destruct (update_machine_status_atomic utcnow now uuid4_hex data user s) as [_ R].
    rewrite H in R. cbn [snd fst] in *. now rewrite (R e eq_refl).
Qed.

(** X29.  A request changes only what belongs to the account it acts for:
    in a database that keeps its constraints, whatever a request does, the
    machines of every other user, with their configurations and metric
    records, are exactly what they were.  The account a request acts for is
    the one its token authenticates, or for a login the one whose password
    was accepted; a registration acts for nobody's data. *)
Theorem route_changes_only_own_data
    (security : Security.t) (env : Env.t) (r : request) (session : Session) (user_id : Z) :
  consistent session ->
  (forall user, acting_user security env r session = Some user -> User.id user <> user_id) ->
  data_of user_id (snd (route security env r session)) = data_of user_id session.
Proof.
  intros Hc Hact.
  assert (forall A (handler : User.t -> M A) credentials,
            (forall user,
               fst (get_current_user security (Env.utcnow env) credentials session) = Ok user ->
               data_of user_id (snd (handler user session)) = data_of user_id session) ->
            data_of user_id
              (snd (authenticated security env credentials handler session))
            = data_of user_id session) as Hauth.
  { intros A handler credentials H. unfold authenticated, bind.
    destruct (get_current_user_reads security (Env.utcnow env) credentials session)
      as [Hs _].
    destruct (get_current_user security (Env.utcnow env) credentials session)
      as [[user|e] s1]; cbn [snd fst] in *; subst s1; [|reflexivity].
    now apply H. }
  assert (forall A B (f : A -> B) (m : M A), snd (fmap f m session) = snd (m session))
    as Hfmap.
  { intros A B f m. unfold fmap, bind, ret. now destruct (m session) as [[a|e] s1]. }
  destruct r; cbn [route]; rewrite Hfmap; cbn [acting_user] in Hact;
    try (apply Hauth; intros user Hu; rewrite Hu in Hact;
         specialize (Hact user eq_refl)).
  - (* register *)
    unfold register_user, scalar. unfold_M.
    destruct (find _ (users session)); reflexivity.
  - (* login *)
    unfold login, scalar in *. unfold_M.
    destruct (find _ (users session)) as [user|]; [|reflexivity].
    destruct (Security.verify_password _ _ _); simpl; [|reflexivity].
    specialize (Hact user eq_refl).
    pose proof (get_or_create_machine_others (Env.now env) user
                  (LoginRequest.mac_address body) (LoginRequest.username body)
                  (machine_type_of (LoginRequest.c body)) session user_id Hc Hact) as G.
    destruct (_get_or_create_machine _ _ _ _ _ session) as [[m|e] s1]; exact G.
  - (* register_machine *)
    pose proof (get_or_create_machine_others (Env.now env) user
                  (MachineCreate.mac_address machine_in) (name_or_mac machine_in)
                  (MachineCreate.type machine_in) session user_id Hc Hact) as G.
    unfold register_machine, bind, ret.
    destruct (_get_or_create_machine _ _ _ _ _ session) as [[m|e] s1]; exact G.
  - reflexivity.
  - now apply update_machine_config_others.
  - now rewrite get_machine_config_reads.
  - now apply update_machine_status_others.
  - now rewrite list_machine_metrics_reads.
  - now rewrite aggregate_metrics_reads.
Qed.

Lemma route_changes_only_own_data_witness :
  let laptop := Machine.mk 2 "11:22:33:44:55:66" (Some "Laptop") "pc" 2 t1 t1 in
  let laptop_configuration := MachineConfiguration.mk 1 2 config_by_alias t1 t1 in
  let laptop_record :=
    MonitoringData.mk 2 2 t1 [("cpu", JInt 99)] "00000000000000000000000000000002" t1 t1 in
  let session :=
    mkSession [ops; eve] [desktop; laptop] [laptop_configuration]
              [metric_record; laptop_record] in
  let env :=
    Env.mk (mkDatetime 2024 5 20 10 45 0 0 None) t1 "00000000000000000000000000000003"
           "salt" in
  let r :=
    PutStatus (Some "ops@example.com")
              [("mac_address", JStr "AA:BB:CC:DD:EE:FF"); ("cpu", JInt 7)] in
  consistent session
  /\ (forall user, acting_user plain_security env r session = Some user ->
        User.id user <> User.id eve)
  /\ List.length (monitoring_data (snd (route plain_security env r session))) = 3%nat
  /\ data_of (User.id eve) session = ([laptop], [laptop_configuration], [laptop_record])
  /\ data_of (User.id eve) (snd (route plain_security env r session))
     = data_of (User.id eve) session.
Proof.
  intros laptop laptop_configuration laptop_record session env r.
  assert (consistent session) as Hc.
  { constructor; unfold mac_unique; simpl;
      try (repeat (apply NoDup_cons; [simpl; intuition discriminate|]); apply NoDup_nil);
      intros x Hx; simpl in Hx; intuition (subst; simpl; auto). }
  assert (forall user, acting_user plain_security env r session = Some user ->
            User.id user <> User.id eve) as H.
  { intros user E. vm_compute in E. injection E as <-. discriminate. }
  split; [exact Hc|]. split; [exact H|]. split; [vm_compute; reflexivity|].
  split; [vm_compute; reflexivity|].
  exact (route_changes_only_own_data plain_security env r session (User.id eve) Hc H).
Defined.

Lemma find_conj_filter {A} (p q : A -> bool) (l : list A) :
  find (fun x => p x && q x) l = find p (filter q l).
Proof.
  induction l as [|a l IH]; simpl; [reflexivity|].
  destruct (q a); simpl.
  - rewrite andb_true_r. destruct (p a); [reflexivity | exact IH].
  - rewrite andb_false_r. exact IH.
Qed.

Lemma find_filter_implied {A} (p q : A -> bool) (l : list A) :
  (forall x, p x = true -> q x = true) -> find p l = find p (filter q l).
Proof.
  intros H. induction l as [|a l IH]; simpl; [reflexivity|].
  destruct (p a) eqn:P.
  - rewrite (H a P). simpl. now rewrite P.
  - destruct (q a); simpl; [rewrite P|]; exact IH.
Qed.

Lemma filter_filter_implied {A} (p q : A -> bool) (l : list A) :
  (forall x, p x = true -> q x = true) -> filter p l = filter p (filter q l).
Proof.
  intros H. induction l as [|a l IH]; simpl; [reflexivity|].
  destruct (p a) eqn:P.
  - rewrite (H a P). simpl. now rewrite P, IH.
  - destruct (q a); simpl; [rewrite P|]; exact IH.
Qed.

(** The gate, and what the handlers read behind it, in terms of what belongs
    to the caller. *)
Lemma ensure_machine_ownership_own (mac : string) (user : User.t) (s : Session) :
  fst (ensure_machine_ownership mac user s)
  = match find (fun m => String.eqb (Machine.mac_address m) mac)
               (fst (fst (data_of (User.id user) s))) with
    | Some machine => Ok machine
    | None => Raise machine_not_found
    end.
Proof.
  unfold ensure_machine_ownership, scalar, data_of. unfold_M. cbn [fst].
  rewrite find_conj_filter. now destruct (find _ _).
Qed.

Lemma owns_own (user : User.t) (s : Session) (mac : string) (machine : Machine.t) :
  ensure_machine_ownership mac user s = (Ok machine, s) ->
  owns (User.id user) s (Machine.id machine) = true.
Proof.
  intros G. destruct (ensure_machine_ownership_inv _ _ _ _ _ G) as [_ [Hin [_ Ho]]].
  unfold owns. apply existsb_exists. exists machine. split; [exact Hin|].
  now rewrite Z.eqb_refl, Ho, Z.eqb_refl.
Qed.

Lemma configuration_own (mac : string) (user : User.t) (s : Session) (machine : Machine.t) :
  ensure_machine_ownership mac user s = (Ok machine, s) ->
  find (fun c => MachineConfiguration.machine_id c =? Machine.id machine)
       (machine_configurations s)
  = find (fun c => MachineConfiguration.machine_id c =? Machine.id machine)
         (snd (fst (data_of (User.id user) s))).
Proof.
  intros G. unfold data_of. cbn [fst snd]. apply find_filter_implied.
  intros c E. apply Z.eqb_eq in E. rewrite E. now apply (owns_own user s mac).
Qed.

Lemma records_own (mac : string) (user : User.t) (s : Session) (machine : Machine.t) :
  ensure_machine_ownership mac user s = (Ok machine, s) ->
  filter (fun d => MonitoringData.machine_id d =? Machine.id machine) (monitoring_data s)
  = filter (fun d => MonitoringData.machine_id d =? Machine.id machine)
           (snd (data_of (User.id user) s)).
Proof.
  intros G. unfold data_of. cbn [fst snd]. apply filter_filter_implied.
  intros c E. apply Z.eqb_eq in E. rewrite E. now apply (owns_own user s mac).
Qed.

Lemma gate_outcome (mac : string) (user : User.t) (s : Session) :
  (exists machine, ensure_machine_ownership mac user s = (Ok machine, s))
  \/ (exists e, ensure_machine_ownership mac user s = (Raise e, s)).
Proof.
  destruct (ensure_machine_ownership_reads mac user s) as [Hs _].
  destruct (ensure_machine_ownership mac user s) as [[m|e] s1]; cbn [snd] in Hs; subst s1;
    eauto.
Qed.

(** X30.  What a user reads depends on nothing but what belongs to that
    user: in two databases in which the user owns the same machines with the
    same configurations and metric records, [list_machines],
    [get_machine_config], [list_machine_metrics] and [aggregate_metrics]
    give the user the same answers, whatever else the databases hold. *)
Theorem reads_depend_on_own_data (user : User.t) (s1 s2 : Session) :
  data_of (User.id user) s1 = data_of (User.id user) s2 ->
  fst (list_machines user s1) = fst (list_machines user s2)
  /\ (forall mac,
        fst (get_machine_config mac user s1) = fst (get_machine_config mac user s2))
  /\ (forall mac start end_ limit,
        fst (list_machine_metrics mac start end_ limit user s1)
        = fst (list_machine_metrics mac start end_ limit user s2))
  /\ (forall mac metric_keys,
        fst (aggregate_metrics mac metric_keys user s1)
        = fst (aggregate_metrics mac metric_keys user s2)).
Proof.
  intros E.
  assert (forall mac,
            fst (ensure_machine_ownership mac user s1)
            = fst (ensure_machine_ownership mac user s2)) as Eg.
  { intros mac. now rewrite !ensure_machine_ownership_own, E. }
  assert (forall mac m1,
            ensure_machine_ownership mac user s1 = (Ok m1, s1) ->
            ensure_machine_ownership mac user s2 = (Ok m1, s2)) as Eok.
  { intros mac m1 G. specialize (Eg mac). rewrite G in Eg. cbn [fst] in Eg.
    destruct (gate_outcome mac user s2) as [[m2 G2]|[e G2]]; rewrite G2 in Eg;
      cbn [fst] in Eg; [|discriminate]. injection Eg as ->. exact G2. }
  assert (forall mac e,
            ensure_machine_ownership mac user s1 = (Raise e, s1) ->
            ensure_machine_ownership mac user s2 = (Raise e, s2)) as Eraise.
  { intros mac e G. specialize (Eg mac). rewrite G in Eg. cbn [fst] in Eg.
    destruct (gate_outcome mac user s2) as [[m2 G2]|[e2 G2]]; rewrite G2 in Eg;
      cbn [fst] in Eg; [discriminate|]. injection Eg as ->. exact G2. }
  split; [|split; [|split]].
  - unfold list_machines. unfold_M. cbn [fst].
    change (filter (fun m => Machine.owner_id m =? User.id user) (machines s1))
      with (fst (fst (data_of (User.id user) s1))).
    change (filter (fun m => Machine.owner_id m =? User.id user) (machines s2))
      with (fst (fst (data_of (User.id user) s2))).
    now rewrite E.
  - intros mac. unfold get_machine_config, bind.
    destruct (gate_outcome mac user s1) as [[m G]|[e G]].
    + rewrite G, (Eok mac m G). unfold query, scalar.
      rewrite (configuration_own mac user s1 m G),
              (configuration_own mac user s2 m (Eok mac m G)), E.
      now destruct (find _ _).
    + now rewrite G, (Eraise mac e G).
  - intros mac start end_ limit. unfold list_machine_metrics.
    destruct (negb (limit <=? limit_le)); [reflexivity|]. unfold bind.
    destruct (gate_outcome mac user s1) as [[m G]|[e G]].
    + rewrite G, (Eok mac m G). unfold query, ret. cbn [fst].
      rewrite (records_own mac user s1 m G), (records_own mac user s2 m (Eok mac m G)), E.
      reflexivity.
    + now rewrite G, (Eraise mac e G).
  - intros mac metric_keys. unfold aggregate_metrics, bind.
    destruct (gate_outcome mac user s1) as [[m G]|[e G]].
    + rewrite G, (Eok mac m G). unfold query, lift. cbn [fst].
      rewrite (records_own mac user s1 m G), (records_own mac user s2 m (Eok mac m G)), E.
      reflexivity.
    + now rewrite G, (Eraise mac e G).
Qed.

Lemma reads_depend_on_own_data_witness :
  let s2 := mkSession [ops; eve; User.mk 3 "new@example.com" None "salt$s3cret" true]
              [desktop; Machine.mk 2 "11:22:33:44:55:66" (Some "Laptop") "pc" 2 t1 t1]
              [MachineConfiguration.mk 1 2 config_by_alias t1 t1]
              [metric_record;
               MonitoringData.mk 2 2 t1 [("cpu", JInt 99)] "00000000000000000000000000000002"
                                 t1 t1] in
  data_of (User.id ops) session1 = data_of (User.id ops) s2
  /\ fst (aggregate_metrics "AA:BB:CC:DD:EE:FF" ["cpu"] ops session1)
     = fst (aggregate_metrics "AA:BB:CC:DD:EE:FF" ["cpu"] ops s2)
  /\ fst (list_machines ops session1) = fst (list_machines ops s2).
Proof.
  intros s2.
  assert (data_of (User.id ops) session1 = data_of (User.id ops) s2) as E
    by (vm_compute; reflexivity).
  split; [exact E|].
  pose proof (reads_depend_on_own_data ops session1 s2 E) as [A [_ [_ B]]].
  split; [apply B | exact A].
Defined.
